(** * RMS-Gate load balancer: backend state, scoring, history and probe

    A shallow embedding of the health-aware load-balancing core of RMS-Gate
    (Go): the per-backend state ([Backend]), the sliding latency window, the
    relative health score, the selection strategy, the time-of-day history
    store, the hysteresis step of the health-check loop and the Minecraft
    status probe.

    Conventions.
    - Go [int32]/[int64]/[int] values are [Z] with the two's-complement
      wrap-around written out ([int32], [int64]); [int] is 64 bits wide.
    - Go [float64] is Rocq's primitive binary64 [float]; every arithmetic
      operation is the IEEE 754 round-to-nearest-even one, each product and
      sum rounded on its own (no fused multiply-add).
    - [time.Duration] and instants are [Z] nanoseconds; the wall clock is
      part of the network state and advances while the program waits for
      the network.
    - A Go run-time panic is the [None] of an [option] result.
    - Atomics and mutexes are elided: every method is modelled as one
      sequential state transformer on the record it mutates. *)

From Stdlib Require Import ZArith Lia Bool.
From Stdlib Require Import Floats.PrimFloat Floats.FloatOps Floats.SpecFloat.
From Stdlib Require Import Floats.FloatAxioms.
From Stdlib Require Import Numbers.Cyclic.Int63.Uint63.
From stdpp Require Import base option list gmap strings pretty.

#[local] Set Warnings "-inexact-float,-clear-no-such-hyp".
#[local] Open Scope Z_scope.

(** ** Machine integers *)

Module GoInt.

(** Two's-complement reduction of [z] to [w] bits. *)
Definition wrap (w : Z) (z : Z) : Z :=
  (z + 2 ^ (w - 1)) mod 2 ^ w - 2 ^ (w - 1).

Definition int32 (z : Z) : Z := wrap 32 z.
Definition int64 (z : Z) : Z := wrap 64 z.

Definition in_int32 (z : Z) : Prop := - 2 ^ 31 <= z < 2 ^ 31.
Definition in_int64 (z : Z) : Prop := - 2 ^ 63 <= z < 2 ^ 63.

End GoInt.

Import GoInt.

(** ** float64 conversions *)

Module GoFloat.

(** [float64(z)] for an integer [z] of at most 64 bits: exact below [2^53],
    rounded to nearest-even above. *)
Definition of_int (z : Z) : float :=
  if z =? - 2 ^ 63 then (- (ldshiftexp 1 (Uint63.of_Z (63 + FloatOps.shift))))%float
  else if z <? 0 then (- (of_uint63 (Uint63.of_Z (- z))))%float
  else of_uint63 (Uint63.of_Z z).

(** The integer part of a finite float, rounded towards zero. *)
Definition trunc (f : float) : option Z :=
  match Prim2SF f with
  | S754_zero _ => Some 0
  | S754_finite s m e =>
      let mag := if 0 <=? e then Z.pos m * 2 ^ e else Z.pos m / 2 ^ (- e) in
      Some (if s then - mag else mag)
  | S754_infinity _ | S754_nan => None
  end.

(** [int(f)]: truncation towards zero. For NaN, infinities and values that
    do not fit the Go specification leaves the result to the
    implementation; amd64 yields the minimal integer, which is what is
    modelled here. *)
Definition to_int (f : float) : Z :=
  match trunc f with
  | Some z => if (- 2 ^ 63 <=? z) && (z <? 2 ^ 63) then z else - 2 ^ 63
  | None => - 2 ^ 63
  end.

End GoFloat.

(** ** time.Duration *)

Definition Duration := Z.

Definition Millisecond : Duration := 1000000.
Definition Second : Duration := 1000000000.

(** [Duration.Milliseconds]: integer division truncated towards zero. *)
Definition Milliseconds (d : Duration) : Z := Z.quot d 1000000.

(** ** Backend state *)

Record Backend := mkBackend {
  Addr : string;
  MaxConnections : Z;
  currentConns : Z;
  failCount : Z;
  successCount : Z;
  healthy : bool;
  disabled : bool;
  latencyWindow : list Z;
  windowSize : Z;
  lastCheckTime : Z;
  players : gset string;
  trustCoeff : Z
}.

Definition set_currentConns (v : Z) (b : Backend) : Backend :=
  mkBackend (Addr b) (MaxConnections b) v (failCount b) (successCount b)
    (healthy b) (disabled b) (latencyWindow b) (windowSize b)
    (lastCheckTime b) (players b) (trustCoeff b).

Definition set_failCount (v : Z) (b : Backend) : Backend :=
  mkBackend (Addr b) (MaxConnections b) (currentConns b) v (successCount b)
    (healthy b) (disabled b) (latencyWindow b) (windowSize b)
    (lastCheckTime b) (players b) (trustCoeff b).

Definition set_successCount (v : Z) (b : Backend) : Backend :=
  mkBackend (Addr b) (MaxConnections b) (currentConns b) (failCount b) v
    (healthy b) (disabled b) (latencyWindow b) (windowSize b)
    (lastCheckTime b) (players b) (trustCoeff b).

Definition set_healthy (v : bool) (b : Backend) : Backend :=
  mkBackend (Addr b) (MaxConnections b) (currentConns b) (failCount b)
    (successCount b) v (disabled b) (latencyWindow b) (windowSize b)
    (lastCheckTime b) (players b) (trustCoeff b).

Definition set_disabled (v : bool) (b : Backend) : Backend :=
  mkBackend (Addr b) (MaxConnections b) (currentConns b) (failCount b)
    (successCount b) (healthy b) v (latencyWindow b) (windowSize b)
    (lastCheckTime b) (players b) (trustCoeff b).

Definition set_latencyWindow (v : list Z) (b : Backend) : Backend :=
  mkBackend (Addr b) (MaxConnections b) (currentConns b) (failCount b)
    (successCount b) (healthy b) (disabled b) v (windowSize b)
    (lastCheckTime b) (players b) (trustCoeff b).

Definition set_lastCheckTime (v : Z) (b : Backend) : Backend :=
  mkBackend (Addr b) (MaxConnections b) (currentConns b) (failCount b)
    (successCount b) (healthy b) (disabled b) (latencyWindow b) (windowSize b)
    v (players b) (trustCoeff b).

Definition set_players (v : gset string) (b : Backend) : Backend :=
  mkBackend (Addr b) (MaxConnections b) (currentConns b) (failCount b)
    (successCount b) (healthy b) (disabled b) (latencyWindow b) (windowSize b)
    (lastCheckTime b) v (trustCoeff b).

Definition set_trustCoeff (v : Z) (b : Backend) : Backend :=
  mkBackend (Addr b) (MaxConnections b) (currentConns b) (failCount b)
    (successCount b) (healthy b) (disabled b) (latencyWindow b) (windowSize b)
    (lastCheckTime b) (players b) v.

(** [NewBackend]: [make([]int64, 0, windowSize)] panics on a negative
    capacity; a zero capacity is accepted. *)
Definition NewBackend (addr : string) (maxConns windowSize : Z) : option Backend :=
  if windowSize <? 0 then None
  else Some (mkBackend addr maxConns 0 0 0 true false [] windowSize 0 ∅ 100).

(** *** Trust coefficient *)

Definition TrustCoeff (b : Backend) : float :=
  (GoFloat.of_int (trustCoeff b) / 100)%float.

Definition IncreaseTrust (b : Backend) : Backend :=
  let current := trustCoeff b in
  if current <? 100 then
    let newVal := int32 (current + 10) in
    let newVal := if newVal >? 100 then 100 else newVal in
    set_trustCoeff newVal b
  else b.

Definition ResetTrust (b : Backend) : Backend := set_trustCoeff 50 b.

(** *** Counters and flags *)

Definition IsAvailable (b : Backend) : bool :=
  if disabled b then false
  else if negb (healthy b) then false
  else if (MaxConnections b >? 0) && (currentConns b >=? int32 (MaxConnections b))
  then false
  else true.

Definition CurrentConns (b : Backend) : Z := currentConns b.
Definition RecordSuccess (b : Backend) : Backend := set_failCount 0 b.

Definition RecordHealthCheckSuccess (b : Backend) : Backend :=
  let b := set_failCount 0 b in
  set_successCount (int32 (successCount b + 1)) b.

Definition SuccessCount (b : Backend) : Z := successCount b.
Definition ResetSuccessCount (b : Backend) : Backend := set_successCount 0 b.
Definition RecordFailure (b : Backend) : Backend :=
  set_failCount (int32 (failCount b + 1)) b.

Definition RecordHealthCheckFailure (b : Backend) : Backend :=
  let b := set_failCount (int32 (failCount b + 1)) b in
  set_successCount 0 b.

Definition FailCount (b : Backend) : Z := failCount b.
Definition SetHealthy (h : bool) (b : Backend) : Backend := set_healthy h b.
Definition IsHealthy (b : Backend) : bool := healthy b.
Definition SetDisabled (d : bool) (b : Backend) : Backend := set_disabled d b.
Definition IsDisabled (b : Backend) : bool := disabled b.

(** [SetLastCheckTime(t)] stores [t.UnixMilli()]; instants are nanoseconds. *)
Definition SetLastCheckTime (t : Z) (b : Backend) : Backend :=
  set_lastCheckTime (t / 1000000) b.

(** *** Player set *)

Definition AddPlayer (name : string) (b : Backend) : Backend :=
  let b := set_players ({[ name ]} ∪ players b) b in
  set_currentConns (int32 (currentConns b + 1)) b.

Definition RemovePlayer (name : string) (b : Backend) : Backend :=
  let exists_ := bool_decide (name ∈ players b) in
  let b := if exists_ then set_players (players b ∖ {[ name ]}) b else b in
  if exists_ then set_currentConns (int32 (currentConns b - 1)) b else b.

(** ** Tracked connection (lb_server_info.go)

    The wrapper holds a pointer to its backend; [Close] is modelled on the
    pair of the wrapper and the backend it points to. [closeOnce] is the
    done-flag of the [sync.Once]; [connClosed] the state of the embedded
    [net.Conn], whose second [Close] reports an error. *)

Record trackedConn := mkTrackedConn {
  playerName : string;
  closeOnce : bool;
  connClosed : bool
}.


(** *** Sliding latency window *)

(** [b.latencyWindow[1:]] on an empty slice is out of range ([1 > len]) and
    panics; this is reached exactly when the window is empty and
    [windowSize <= 0]. *)
Definition RecordLatency (latency : Duration) (b : Backend) : option Backend :=
  let ms := Milliseconds latency in
  w ← (if Z.of_nat (length (latencyWindow b)) >=? windowSize b
       then match latencyWindow b with
            | [] => None
            | _ :: tl => Some tl
            end
       else Some (latencyWindow b));
  Some (set_latencyWindow (w ++ [ms]) b).

(** The [int64] accumulator of the [for _, v := range] loops. *)
Definition sum64 (w : list Z) : Z :=
  fold_left (fun sum v => int64 (sum + v)) w 0.

Definition AvgLatency (b : Backend) : float :=
  let w := latencyWindow b in
  if Z.of_nat (length w) =? 0 then 0%float
  else (GoFloat.of_int (sum64 w) / GoFloat.of_int (Z.of_nat (length w)))%float.

Definition Jitter (b : Backend) : float :=
  let w := latencyWindow b in
  if Z.of_nat (length w) <? 2 then 0%float
  else
    let avg := (GoFloat.of_int (sum64 w) / GoFloat.of_int (Z.of_nat (length w)))%float in
    let variance :=
      fold_left (fun variance v =>
                   let diff := (GoFloat.of_int v - avg)%float in
                   (variance + diff * diff)%float) w 0%float in
    PrimFloat.sqrt (variance / GoFloat.of_int (Z.of_nat (length w)))%float.

Definition Trend (b : Backend) : float :=
  let w := latencyWindow b in
  let n := Z.of_nat (length w) in
  if n <? 8 then 0%float
  else
    let recentStart := n - n / 4 in
    let recentStart := if recentStart <? 1 then 1 else recentStart in
    let recentCount := n - recentStart in
    let olderCount := recentStart in
    let olderSum := sum64 (take (Z.to_nat recentStart) w) in
    let recentSum := sum64 (drop (Z.to_nat recentStart) w) in
    let recentAvg := (GoFloat.of_int recentSum / GoFloat.of_int recentCount)%float in
    let olderAvg := (GoFloat.of_int olderSum / GoFloat.of_int olderCount)%float in
    if (olderAvg =? 0)%float then 0%float
    else ((recentAvg - olderAvg) / olderAvg * 100)%float.

(** *** Relative health score *)

Definition RelativeHealthScore (b : Backend) (minLatency minJitter : float) : Z :=
  if disabled b then 0
  else if negb (healthy b) then 0
  else
    let score := 0%float in
    (* 1. latency, 40 points, relative to the best peer *)
    let avg := AvgLatency b in
    let score :=
      if (0 <? avg)%float && (0 <? minLatency)%float
      then (score + 40 * (minLatency / avg))%float
      else if (avg =? 0)%float then (score + 40)%float
      else score in
    (* 2. jitter, 30 points, relative to the best peer *)
    let jitter := Jitter b in
    let score :=
      if (0 <? jitter)%float && (0 <? minJitter)%float
      then (score + 30 * (minJitter / jitter))%float
      else if (jitter =? 0)%float then (score + 30)%float
      else score in
    (* 3. connection load, 20 points *)
    let score :=
      if MaxConnections b >? 0 then
        let ratio := (GoFloat.of_int (currentConns b)
                      / GoFloat.of_int (MaxConnections b))%float in
        (score + 20 * (1 - ratio))%float
      else (score + 20)%float in
    (* 4. stability, 10 points *)
    let score := if failCount b =? 0 then (score + 10)%float else score in
    (* 5. trend adjustment *)
    let trend := Trend b in
    let score :=
      if (20 <? trend)%float then (score - 10)%float
      else if (10 <? trend)%float then (score - 5)%float
      else if (trend <? -20)%float then (score + 10)%float
      else if (trend <? -10)%float then (score + 5)%float
      else score in
    (* 6. trust coefficient *)
    let trust := (GoFloat.of_int (trustCoeff b) / 100)%float in
    let score := (score * trust)%float in
    let score := if (score <? 0)%float then 0%float else score in
    let score := if (100 <? score)%float then 100%float else score in
    GoFloat.to_int score.

(** ** Local wall-clock time

    What [time.Now()] yields: the instant in nanoseconds since the epoch
    and the local hour and minute that [Hour()] and [Minute()] report. *)

Record Time := mkTime {
  UnixNano : Z;
  Hour : Z;
  Minute : Z
}.

Definition valid_time (t : Time) : Prop :=
  0 <= Hour t < 24 /\ 0 <= Minute t < 60.

(** [fmt.Sprintf("%02d", n)]: zero-padded to two characters, sign included. *)
Definition pad2 (n : Z) : string :=
  if n <? 0 then "-" +:+ pretty (- n)
  else if n <? 10 then "0" +:+ pretty n
  else pretty n.

(** ** History store, file-backed version (package main)

    [HistoryManager.backends] maps an address to an array of 96 pointers to
    [PeriodStats]. Every construction path ([Record], [load]) fills all 96
    slots, so a slot is modelled by its contents, and the array by a list
    whose length-96 invariant is [wf]; mutation through the slot pointer is
    the update of the list in place. [Record] is spelled [Record_]. *)

Module HistoryFile.

Definition emaAlpha : float := 0.1%float.
(** The constant expression [1-emaAlpha], evaluated exactly by the compiler
    and then rounded to [float64]. *)
Definition one_minus_emaAlpha : float := 0.9%float.
Definition minSamplesForUse : Z := 20.

Record PeriodStats := mkPeriodStats {
  AvgLatency : float;
  AvgJitter : float;
  Samples : Z;
  PeriodIndex : Z;
  PeriodLabel : string
}.

Definition BackendHistory := list PeriodStats.

Record HistoryManager := mkHistoryManager {
  backends : gmap string (list PeriodStats);
  filePath : string;
  dirty : bool
}.

Definition zeroStats : PeriodStats :=
  mkPeriodStats 0%float 0%float 0 0 String.EmptyString.

Definition wf (hm : HistoryManager) : Prop :=
  forall (addr : string) (h : list PeriodStats),
    backends hm !! addr = Some h -> length h = 96%nat.

Definition getPeriodIndex (now : Time) : Z :=
  Hour now * 4 + Minute now / 15.

Definition periodLabel (period : Z) : string :=
  if (period <? 0) || (period >? 95) then String.EmptyString
  else
    let startMin := period * 15 in
    let endMin := (startMin + 15) `rem` (24 * 60) in
    let sh := startMin `quot` 60 in
    let sm := startMin `rem` 60 in
    let eh := endMin `quot` 60 in
    let em := endMin `rem` 60 in
    pad2 sh +:+ ":" +:+ pad2 sm +:+ "-" +:+ pad2 eh +:+ ":" +:+ pad2 em.

(** Indexing the 96-slot array; out of range panics. *)
Definition slot (h : list PeriodStats) (period : Z) : option PeriodStats :=
  if (period <? 0) then None else h !! Z.to_nat period.

Definition Record_ (now : Time) (addr : string) (latency jitter : float)
    (hm : HistoryManager) : option HistoryManager :=
  let period := getPeriodIndex now in
  let history :=
    match backends hm !! addr with
    | Some history => history
    | None => replicate 96 zeroStats
    end in
  stats ← slot history period;
  (* Backfill period metadata for export/debugging. *)
  let stats :=
    if bool_decide (PeriodLabel stats = String.EmptyString)
    then mkPeriodStats (AvgLatency stats) (AvgJitter stats) (Samples stats)
           period (periodLabel period)
    else stats in
  let stats :=
    if Samples stats =? 0 then
      mkPeriodStats latency jitter (Samples stats)
        (PeriodIndex stats) (PeriodLabel stats)
    else
      mkPeriodStats
        (emaAlpha * latency + one_minus_emaAlpha * AvgLatency stats)%float
        (emaAlpha * jitter + one_minus_emaAlpha * AvgJitter stats)%float
        (Samples stats) (PeriodIndex stats) (PeriodLabel stats) in
  let stats :=
    mkPeriodStats (AvgLatency stats) (AvgJitter stats)
      (int64 (Samples stats + 1)) (PeriodIndex stats) (PeriodLabel stats) in
  Some (mkHistoryManager
          (<[addr := <[Z.to_nat period := stats]> history]> (backends hm))
          (filePath hm) true).

Definition GetPeriodStats (hm : HistoryManager) (addr : string) (period : Z)
    : option PeriodStats :=
  if (period <? 0) || (period >? 95) then None
  else
    match backends hm !! addr with
    | None => None
    | Some history => history !! Z.to_nat period
    end.

Definition GetCurrentPeriodStats (hm : HistoryManager) (now : Time)
    (addr : string) : option PeriodStats :=
  GetPeriodStats hm addr (getPeriodIndex now).

Definition HistoricalScore (hm : HistoryManager) (now : Time) (addr : string)
    (currentLatency currentJitter : float) : Z :=
  match GetCurrentPeriodStats hm now addr with
  | None => 0
  | Some stats =>
      if Samples stats <? minSamplesForUse then 0
      else
        let score := 0%float in
        (* Latency comparison (max +-8 points) *)
        let score :=
          if (0 <? AvgLatency stats)%float && (0 <? currentLatency)%float then
            let latencyRatio := (currentLatency / AvgLatency stats)%float in
            if (latencyRatio <? 0.7)%float then (score + 8)%float
            else if (latencyRatio <? 0.85)%float then (score + 4)%float
            else if (1.5 <? latencyRatio)%float then (score - 8)%float
            else if (1.2 <? latencyRatio)%float then (score - 4)%float
            else score
          else score in
        (* Jitter comparison (max +-4 points) *)
        let score :=
          if (0 <? AvgJitter stats)%float && (0 <? currentJitter)%float then
            let jitterRatio := (currentJitter / AvgJitter stats)%float in
            if (jitterRatio <? 0.7)%float then (score + 4)%float
            else if (1.5 <? jitterRatio)%float then (score - 4)%float
            else score
          else score in
        GoFloat.to_int score
  end.

End HistoryFile.

(** ** History store, SQLite-backed version (package loadbalancer)

    Same cache layout as the file-backed version. The table [period_stats]
    is a finite map keyed by [(backend_addr, period_index)]; [db] is [None]
    when the database could not be opened. The row write that [Record]
    hands to a goroutine is applied at once. *)

Module HistoryDB.

Definition emaAlpha : float := 0.1%float.
Definition one_minus_emaAlpha : float := 0.9%float.
Definition minSamplesForUse : Z := 20.

Record PeriodStats := mkPeriodStats {
  AvgLatency : float;
  AvgJitter : float;
  Samples : Z;
  PeriodIndex : Z;
  PeriodLabel : string
}.

Definition BackendHistory := list PeriodStats.

Record HistoryManager := mkHistoryManager {
  db : option (gmap (string * Z) PeriodStats);
  dbPath : string;
  cache : gmap string (list PeriodStats)
}.

Definition wf (hm : HistoryManager) : Prop :=
  forall (addr : string) (h : list PeriodStats),
    cache hm !! addr = Some h -> length h = 96%nat.

Definition getPeriodIndex (now : Time) : Z :=
  Hour now * 4 + Minute now / 15.

Definition periodLabelFromIndex (period : Z) : string :=
  if (period <? 0) || (period >? 95) then String.EmptyString
  else
    let startMin := period * 15 in
    let endMin := (startMin + 15) `rem` (24 * 60) in
    let sh := startMin `quot` 60 in
    let sm := startMin `rem` 60 in
    let eh := endMin `quot` 60 in
    let em := endMin `rem` 60 in
    pad2 sh +:+ ":" +:+ pad2 sm +:+ "-" +:+ pad2 eh +:+ ":" +:+ pad2 em.

(** A freshly allocated history: slot [i] carries its index and label. *)
Definition freshHistory : list PeriodStats :=
  (fun i : nat =>
     mkPeriodStats 0%float 0%float 0 (Z.of_nat i)
       (periodLabelFromIndex (Z.of_nat i))) <$> seq 0 96.

Definition slot (h : list PeriodStats) (period : Z) : option PeriodStats :=
  if (period <? 0) then None else h !! Z.to_nat period.

Definition savePeriodStats (addr : string) (stats : PeriodStats)
    (d : option (gmap (string * Z) PeriodStats))
    : option (gmap (string * Z) PeriodStats) :=
  match d with
  | None => None
  | Some rows => Some (<[(addr, PeriodIndex stats) := stats]> rows)
  end.

Definition Record_ (now : Time) (addr : string) (latency jitter : float)
    (hm : HistoryManager) : option HistoryManager :=
  let period := getPeriodIndex now in
  let history :=
    match cache hm !! addr with
    | Some history => history
    | None => freshHistory
    end in
  stats ← slot history period;
  let stats :=
    if Samples stats =? 0 then
      mkPeriodStats latency jitter (Samples stats)
        (PeriodIndex stats) (PeriodLabel stats)
    else
      mkPeriodStats
        (emaAlpha * latency + one_minus_emaAlpha * AvgLatency stats)%float
        (emaAlpha * jitter + one_minus_emaAlpha * AvgJitter stats)%float
        (Samples stats) (PeriodIndex stats) (PeriodLabel stats) in
  let stats :=
    mkPeriodStats (AvgLatency stats) (AvgJitter stats)
      (int64 (Samples stats + 1)) (PeriodIndex stats) (PeriodLabel stats) in
  Some (mkHistoryManager
          (savePeriodStats addr stats (db hm))
          (dbPath hm)
          (<[addr := <[Z.to_nat period := stats]> history]> (cache hm))).

Definition GetPeriodStats (hm : HistoryManager) (addr : string) (period : Z)
    : option PeriodStats :=
  if (period <? 0) || (period >? 95) then None
  else
    match cache hm !! addr with
    | None => None
    | Some history => history !! Z.to_nat period
    end.

Definition GetCurrentPeriodStats (hm : HistoryManager) (now : Time)
    (addr : string) : option PeriodStats :=
  GetPeriodStats hm addr (getPeriodIndex now).

Definition HistoricalScore (hm : HistoryManager) (now : Time) (addr : string)
    (currentLatency currentJitter : float) : Z :=
  match GetCurrentPeriodStats hm now addr with
  | None => 0
  | Some stats =>
      if Samples stats <? minSamplesForUse then 0
      else
        let score := 0%float in
        let score :=
          if (0 <? AvgLatency stats)%float && (0 <? currentLatency)%float then
            let latencyRatio := (currentLatency / AvgLatency stats)%float in
            if (latencyRatio <? 0.7)%float then (score + 8)%float
            else if (latencyRatio <? 0.85)%float then (score + 4)%float
            else if (1.5 <? latencyRatio)%float then (score - 8)%float
            else if (1.2 <? latencyRatio)%float then (score - 4)%float
            else score
          else score in
        let score :=
          if (0 <? AvgJitter stats)%float && (0 <? currentJitter)%float then
            let jitterRatio := (currentJitter / AvgJitter stats)%float in
            if (jitterRatio <? 0.7)%float then (score + 4)%float
            else if (1.5 <? jitterRatio)%float then (score - 4)%float
            else score
          else score in
        GoFloat.to_int score
  end.

End HistoryDB.

(** ** Selection strategy (health-score) *)

Definition filterAvailable (backends : list Backend) : list Backend :=
  List.filter IsAvailable backends.

(** First loop of [Select]: the least positive average latency and jitter
    over the available backends, [-1] when there is none. *)
Definition minima (available : list Backend) : float * float :=
  fold_left
    (fun '(minLatency, minJitter) b =>
       let lat := AvgLatency b in
       let jit := Jitter b in
       let minLatency :=
         if (0 <? lat)%float && ((minLatency <? 0)%float || (lat <? minLatency)%float)
         then lat else minLatency in
       let minJitter :=
         if (0 <? jit)%float && ((minJitter <? 0)%float || (jit <? minJitter)%float)
         then jit else minJitter in
       (minLatency, minJitter))
    available ((-1)%float, (-1)%float).

(** The score [Select] gives one backend in its second loop. *)
Definition selectScore (history : option HistoryFile.HistoryManager) (now : Time)
    (minLatency minJitter : float) (b : Backend) : Z :=
  let score := RelativeHealthScore b minLatency minJitter in
  match history with
  | Some hm =>
      let histScore :=
        HistoryFile.HistoricalScore hm now (Addr b) (AvgLatency b) (Jitter b) in
      int64 (score + histScore)
  | None => score
  end.

(** Second loop of [Select]: keep the first strictly greater score. *)
Definition pickBest (score : Backend -> Z) (available : list Backend)
    : option Backend * Z :=
  fold_left
    (fun '(best, bestScore) b =>
       if score b >? bestScore then (Some b, score b) else (best, bestScore))
    available (None, -1).

(** [HealthScoreStrategy.Select]; [now] is the clock that the history
    lookups read, [history = None] a nil manager. *)
Definition Select (backends : list Backend) (jitterThreshold : float)
    (history : option HistoryFile.HistoryManager) (now : Time) : option Backend :=
  let available := filterAvailable backends in
  if Z.of_nat (length available) =? 0 then None
  else
    let '(minLatency, minJitter) := minima available in
    let minLatency := if (minLatency <=? 0)%float then 1%float else minLatency in
    let minJitter := if (minJitter <=? 0)%float then 1%float else minJitter in
    fst (pickBest (selectScore history now minLatency minJitter) available).

(** ** Minecraft status probe

    The network is one record: the wall clock, what the dial will do, the
    bytes the peer sends, and what each transfer costs. The clock moves only
    when the program waits for the network; reading it is free. *)

Inductive error :=
| ErrDial
| ErrIO
| ErrVarIntTooBig
| ErrInvalidPacketLength (length : Z)
| ErrSendHandshake (cause : error)
| ErrSendStatusRequest (cause : error)
| ErrReadStatusResponse (cause : error)
| ErrUnexpectedPacketID (packetID : Z)
| ErrInvalidJSONLength (jsonLen : Z)
| ErrNoBackend (server : string)
| ErrConnectBackend (addr : string) (cause : error).

Record Net := mkNet {
  clock : Z;
  dialTime : Duration;
  dialOK : bool;
  deadline : Z;
  inbound : list Z;
  outbound : list Z;
  ioCost : Duration;
  writeBudget : nat
}.

Definition time_Now (n : Net) : Z := clock n.
Definition time_Since (start : Z) (n : Net) : Duration := time_Now n - start.

Definition set_clock (t : Z) (n : Net) : Net :=
  mkNet t (dialTime n) (dialOK n) (deadline n) (inbound n) (outbound n)
    (ioCost n) (writeBudget n).

Definition SetDeadline (t : Z) (n : Net) : Net :=
  mkNet (clock n) (dialTime n) (dialOK n) t (inbound n) (outbound n)
    (ioCost n) (writeBudget n).

(** [Dialer.DialContext] under a context that expires at [ctxDeadline]. *)
Definition DialContext (ctxDeadline : Z) (n : Net) : Net * option error :=
  if dialOK n && (clock n + dialTime n <=? ctxDeadline)
  then (set_clock (clock n + dialTime n) n, None)
  else (set_clock (Z.min (clock n + dialTime n) (Z.max (clock n) ctxDeadline)) n,
        Some ErrDial).

(** [conn.Write]: one transfer; fails past the deadline or once the peer
    stops accepting data. *)
Definition connWrite (data : list Z) (n : Net) : Net * option error :=
  let t := clock n + ioCost n in
  match writeBudget n with
  | O => (set_clock (Z.min t (Z.max (clock n) (deadline n))) n, Some ErrIO)
  | S k =>
      if t <=? deadline n
      then (mkNet t (dialTime n) (dialOK n) (deadline n) (inbound n)
              (outbound n ++ data) (ioCost n) k, None)
      else (set_clock (Z.max (clock n) (deadline n)) n, Some ErrIO)
  end.

(** The [io.Reader] interface, read one byte at a time. *)
Class Reader (R : Type) := Read1 : R -> R * (error + Z).

#[export] Instance bytesReader : Reader (list Z) :=
  fun r => match r with
           | [] => (r, inl ErrIO)
           | b :: tl => (tl, inr b)
           end.

#[export] Instance connReader : Reader Net :=
  fun n =>
    let t := clock n + ioCost n in
    match inbound n with
    | [] => (set_clock (Z.max (clock n) (deadline n)) n, inl ErrIO)
    | b :: tl =>
        if t <=? deadline n
        then (mkNet t (dialTime n) (dialOK n) (deadline n) tl (outbound n)
                (ioCost n) (writeBudget n), inr b)
        else (set_clock (Z.max (clock n) (deadline n)) n, inl ErrIO)
    end.

(** [writeVarInt] into a [bytes.Buffer]. The loop ends when the
    arithmetically shifted value is zero: within five rounds for a
    non-negative [int32], never for a negative one ([None]). *)
Fixpoint writeVarIntLoop (fuel : nat) (value : Z) : option (list Z) :=
  match fuel with
  | O => None
  | S fuel =>
      let b := Z.land value 0x7F in
      let value := Z.shiftr value 7 in
      if value =? 0 then Some [b]
      else rest ← writeVarIntLoop fuel value; Some (Z.lor b 0x80 :: rest)
  end.

Definition writeVarInt (value : Z) : option (list Z) := writeVarIntLoop 5 value.

Definition bytesOf (s : string) : list Z :=
  (fun c => Z.of_N (Ascii.N_of_ascii c)) <$> String.list_ascii_of_string s.

Definition writeString (s : string) : option (list Z) :=
  len ← writeVarInt (int32 (Z.of_nat (String.length s)));
  Some (len ++ bytesOf s).

Definition writePacket (data : list Z) (conn : Net) : option (Net * option error) :=
  lenBuf ← writeVarInt (int32 (Z.of_nat (length data)));
  match connWrite lenBuf conn with
  | (conn, Some err) => Some (conn, Some err)
  | (conn, None) =>
      match connWrite data conn with
      | (conn, Some err) => Some (conn, Some err)
      | (conn, None) => Some (conn, None)
      end
  end.

(** [readVarInt]: at most five bytes are consumed, since [shift] reaches 35
    after the fifth continuation bit; the fuel never runs out. *)
Fixpoint readVarIntLoop {R} `{Reader R} (fuel : nat) (r : R) (result shift : Z)
    : R * (error + Z) :=
  match fuel with
  | O => (r, inl ErrVarIntTooBig)
  | S fuel =>
      match Read1 r with
      | (r, inl err) => (r, inl err)
      | (r, inr b) =>
          let result := Z.lor result (int32 (Z.shiftl (Z.land b 0x7F) shift)) in
          if Z.land b 0x80 =? 0 then (r, inr result)
          else
            let shift := shift + 7 in
            if shift >=? 32 then (r, inl ErrVarIntTooBig)
            else readVarIntLoop fuel r result shift
      end
  end.

Definition readVarInt {R} `{Reader R} (r : R) : R * (error + Z) :=
  readVarIntLoop 5 r 0 0.

(** [io.ReadFull] of [n] bytes. *)
Fixpoint ReadFull (n : nat) (conn : Net) : Net * (error + list Z) :=
  match n with
  | O => (conn, inr [])
  | S n =>
      match Read1 conn with
      | (conn, inl err) => (conn, inl err)
      | (conn, inr b) =>
          match ReadFull n conn with
          | (conn, inl err) => (conn, inl err)
          | (conn, inr data) => (conn, inr (b :: data))
          end
      end
  end.

Definition readPacket (conn : Net) : Net * (error + (Z * list Z)) :=
  match readVarInt conn with
  | (conn, inl err) => (conn, inl err)
  | (conn, inr length) =>
      if (length <=? 0) || (length >? 1024 * 1024)
      then (conn, inl (ErrInvalidPacketLength length))
      else
        match ReadFull (Z.to_nat length) conn with
        | (conn, inl err) => (conn, inl err)
        | (conn, inr data) => (conn, inr (length, data))
        end
  end.

Section Probe.

(** Library routines the probe calls on the address: [net.SplitHostPort]
    and the [%d] scan of the port into a [uint16]. *)
Variable SplitHostPort : string -> string * string.
Variable Sscanf_d : string -> option Z.

Definition MCPingConn (conn : Net) (addr : string) (timeout : Duration)
    : option (Net * option error) :=
  let conn := SetDeadline (time_Now conn + timeout) conn in
  let '(host, portStr) := SplitHostPort addr in
  let port := match Sscanf_d portStr with Some p => p | None => 25565 end in
  id0 ← writeVarInt 0x00;
  version ← writeVarInt 767;
  hostBytes ← writeString host;
  next ← writeVarInt 1;
  let handshake :=
    id0 ++ version ++ hostBytes
        ++ [Z.land (Z.shiftr port 8) 0xFF; Z.land port 0xFF] ++ next in
  r ← writePacket handshake conn;
  match r with
  | (conn, Some err) => Some (conn, Some (ErrSendHandshake err))
  | (conn, None) =>
      statusReq ← writeVarInt 0x00;
      r ← writePacket statusReq conn;
      match r with
      | (conn, Some err) => Some (conn, Some (ErrSendStatusRequest err))
      | (conn, None) =>
          match readPacket conn with
          | (conn, inl err) => Some (conn, Some (ErrReadStatusResponse err))
          | (conn, inr (_, packetData)) =>
              match readVarInt packetData with
              | (_, inl _) => Some (conn, Some (ErrUnexpectedPacketID 0))
              | (reader, inr packetID) =>
                  if negb (packetID =? 0x00)
                  then Some (conn, Some (ErrUnexpectedPacketID packetID))
                  else
                    match readVarInt reader with
                    | (_, inl _) => Some (conn, Some (ErrInvalidJSONLength 0))
                    | (_, inr jsonLen) =>
                        if jsonLen <=? 0
                        then Some (conn, Some (ErrInvalidJSONLength jsonLen))
                        else Some (conn, None)
                    end
              end
          end
      end
  end.

(** [Backend.MCPing]. [latency] is taken right after [start]. *)
Definition MCPing (b : Backend) (timeout : Duration) (n : Net)
    : option (Net * (Duration * option error)) :=
  let start := time_Now n in
  let latency := time_Since start n in
  let ctxDeadline := time_Now n + timeout in
  match DialContext ctxDeadline n with
  | (n, Some err) => Some (n, (latency, Some err))
  | (conn, None) =>
      let conn := SetDeadline ctxDeadline conn in
      r ← MCPingConn conn (Addr b) timeout;
      match r with
      | (conn, Some err) => Some (conn, (latency, Some err))
      | (conn, None) => Some (conn, (latency, None))
      end
  end.

End Probe.

(** ** Player dial (lb_server_info.go)

    [Dial] once the strategy has answered: [selected] is what
    [s.strategy.Select] returned, and the result carries the new state of
    that backend together with the tracked connection. Here the latency is
    taken after the dial. *)
Definition Dial (name : string) (selected : option Backend)
    (dialTimeout : Duration) (player : option string) (n : Net)
    : option (Net * option Backend * (error + trackedConn)) :=
  match selected with
  | None => Some (n, None, inl (ErrNoBackend name))
  | Some backend =>
      let start := time_Now n in
      match DialContext (time_Now n + dialTimeout) n with
      | (n, Some err) =>
          let latency := time_Since start n in
          let backend := RecordFailure backend in
          backend ← RecordLatency latency backend;
          Some (n, Some backend, inl (ErrConnectBackend (Addr backend) err))
      | (n, None) =>
          let latency := time_Since start n in
          let playerName :=
            match player with
            | Some p => p
            | None => String.EmptyString
            end in
          let backend := RecordSuccess backend in
          backend ← RecordLatency latency backend;
          let backend := AddPlayer playerName backend in
          Some (n, Some backend, inr (mkTrackedConn playerName false false))
      end
  end.

(** ** Health-check loop (package main)

    [checkBackend] is the body that [checkAllBackends] runs for one backend.
    The outcome of [backend.MCPing(timeout)] and the two clock readings of
    the iteration (the one stored by [SetLastCheckTime], the one that
    [history.Record] turns into a period) come with the [Probe] event. *)

Record HealthCheckConfig := mkHealthCheckConfig {
  IntervalSeconds : Z;
  WindowSize : Z;
  UnhealthyAfterFailures : Z;
  HealthyAfterSuccesses : Z;
  JitterThreshold : float;
  DialTimeoutSeconds : Z
}.

Record Probe := mkProbe {
  probeLatency : Duration;
  probeErr : option error;
  probeTime : Time;
  recordTime : Time
}.

Definition checkBackend (cfg : HealthCheckConfig) (p : Probe)
    (st : HistoryFile.HistoryManager * Backend)
    : option (HistoryFile.HistoryManager * Backend) :=
  let '(history, backend) := st in
  if IsDisabled backend then Some (history, backend)
  else
    let latency := probeLatency p in
    let backend := SetLastCheckTime (UnixNano (probeTime p)) backend in
    match probeErr p with
    | Some err =>
        let backend := RecordHealthCheckFailure backend in
        if FailCount backend >=? int32 (UnhealthyAfterFailures cfg) then
          if IsHealthy backend
          then Some (history, SetHealthy false backend)
          else Some (history, backend)
        else Some (history, backend)
    | None =>
        backend ← RecordLatency latency backend;
        let jitter := Jitter backend in
        history ← HistoryFile.Record_ (recordTime p) (Addr backend)
                    (GoFloat.of_int (Milliseconds latency)) jitter history;
        let wasUnhealthy := negb (IsHealthy backend) in
        let backend := RecordHealthCheckSuccess backend in
        if wasUnhealthy then
          if SuccessCount backend >=? int32 (HealthyAfterSuccesses cfg) then
            let backend := SetHealthy true backend in
            let backend := ResetTrust backend in
            let backend := ResetSuccessCount backend in
            Some (history, backend)
          else Some (history, backend)
        else Some (history, IncreaseTrust backend)
    end.

(** One backend over successive ticks of the loop. *)
Fixpoint runChecks (cfg : HealthCheckConfig) (ps : list Probe)
    (st : HistoryFile.HistoryManager * Backend)
    : option (HistoryFile.HistoryManager * Backend) :=
  match ps with
  | [] => Some st
  | p :: ps => st ← checkBackend cfg p st; runChecks cfg ps st
  end.

(** [registerServer]: the backends of one pool, built from the configured
    [(addr, maxConnections)] pairs with the configured window size. *)
Fixpoint buildBackends (cfg : HealthCheckConfig) (bcfgs : list (string * Z))
    : option (list Backend) :=
  match bcfgs with
  | [] => Some []
  | (addr, maxConns) :: rest =>
      backend ← NewBackend addr maxConns (WindowSize cfg);
      backends ← buildBackends cfg rest;
      Some (backend :: backends)
  end.

(** ** Sequences of operations on one backend *)

Inductive TrustOp := OpResetTrust | OpIncreaseTrust.

Definition applyTrustOp (b : Backend) (op : TrustOp) : Backend :=
  match op with
  | OpResetTrust => ResetTrust b
  | OpIncreaseTrust => IncreaseTrust b
  end.

Definition runTrustOps (ops : list TrustOp) (b : Backend) : Backend :=
  fold_left applyTrustOp ops b.

Inductive PlayerOp := OpAddPlayer (name : string) | OpRemovePlayer (name : string).

Definition applyPlayerOp (b : Backend) (op : PlayerOp) : Backend :=
  match op with
  | OpAddPlayer name => AddPlayer name b
  | OpRemovePlayer name => RemovePlayer name b
  end.

Definition runPlayerOps (ops : list PlayerOp) (b : Backend) : Backend :=
  fold_left applyPlayerOp ops b.

(** A sequence that attaches a name only while it is not attached. *)
Fixpoint adds_fresh (ops : list PlayerOp) (b : Backend) : Prop :=
  match ops with
  | [] => True
  | op :: ops =>
      match op with
      | OpAddPlayer name => name ∉ players b
      | OpRemovePlayer _ => True
      end /\ adds_fresh ops (applyPlayerOp b op)
  end.

(** ** Specification-level definitions

    The window statistics as the design document words them, computed on the
    mathematical sum of the samples. *)





(** The history adjustment as the design document words it: the thresholds
    applied to the ratio [r = curr/avg], with no further condition. *)
Definition latency_adjust_spec (r : float) : Z :=
  if (r <? 0.7)%float then 8
  else if (r <? 0.85)%float then 4
  else if (1.5 <? r)%float then -8
  else if (1.2 <? r)%float then -4
  else 0.

Definition jitter_adjust_spec (r : float) : Z :=
  if (r <? 0.7)%float then 4
  else if (1.5 <? r)%float then -4
  else 0.

(** The guard the code puts in front of each comparison. *)
Definition both_positive (avg curr : float) : bool :=
  (0 <? avg)%float && (0 <? curr)%float.

(** The trust values the design allows, in percent. *)
Definition trust_levels : list Z := [50; 60; 70; 80; 90; 100].

(** What the design asks of [Record] on the slot of the current period:
    [old] is the slot before the call, [new] after it. *)
Definition HistoryFile_updated (latency jitter : float)
    (old new : HistoryFile.PeriodStats) : Prop :=
  (HistoryFile.Samples old = 0 ->
     HistoryFile.AvgLatency new = latency /\ HistoryFile.AvgJitter new = jitter)
  /\ (HistoryFile.Samples old <> 0 ->
     HistoryFile.AvgLatency new
       = (0.1 * latency + 0.9 * HistoryFile.AvgLatency old)%float
     /\ HistoryFile.AvgJitter new
       = (0.1 * jitter + 0.9 * HistoryFile.AvgJitter old)%float)
  /\ HistoryFile.Samples new = int64 (HistoryFile.Samples old + 1)
  /\ (in_int64 (HistoryFile.Samples old + 1) ->
     HistoryFile.Samples new = HistoryFile.Samples old + 1).

Definition HistoryDB_updated (latency jitter : float)
    (old new : HistoryDB.PeriodStats) : Prop :=
  (HistoryDB.Samples old = 0 ->
     HistoryDB.AvgLatency new = latency /\ HistoryDB.AvgJitter new = jitter)
  /\ (HistoryDB.Samples old <> 0 ->
     HistoryDB.AvgLatency new
       = (0.1 * latency + 0.9 * HistoryDB.AvgLatency old)%float
     /\ HistoryDB.AvgJitter new
       = (0.1 * jitter + 0.9 * HistoryDB.AvgJitter old)%float)
  /\ HistoryDB.Samples new = int64 (HistoryDB.Samples old + 1)
  /\ (in_int64 (HistoryDB.Samples old + 1) ->
     HistoryDB.Samples new = HistoryDB.Samples old + 1).

(** A probe that reports an error. *)
Definition failing (p : Probe) : Prop := probeErr p <> None.

(** ** Example states *)

Definition window_one : Backend :=
  mkBackend "10.0.0.1:25565" 0 0 0 0 true false [5] 20 0 ∅ 100.

Definition example_cfg : HealthCheckConfig :=
  mkHealthCheckConfig 5 20 3 3 0.5%float 3.

Definition example_backend : Backend :=
  mkBackend "10.0.0.1:25565" 0 0 0 0 true false [] 20 0 ∅ 100.

Definition noon : Time := mkTime 1700000000000000000 9 20.

Definition failed_probe : Probe := mkProbe 0 (Some ErrDial) noon noon.

Definition empty_history : HistoryFile.HistoryManager :=
  HistoryFile.mkHistoryManager ∅ "lb_history.json" false.

Definition empty_historyDB : HistoryDB.HistoryManager :=
  HistoryDB.mkHistoryManager None "lb_history.db" ∅.

(** Scenario: backend [R] with 50 samples and a 50 ms average (5 ms jitter)
    in period 37, the period of [noon]. *)
Definition seeded_history : HistoryFile.HistoryManager :=
  HistoryFile.mkHistoryManager
    {[ "R" := <[37%nat := HistoryFile.mkPeriodStats 50 5 50 37 "09:15-09:30"]>
                (replicate 96 HistoryFile.zeroStats) ]}
    "lb_history.json" false.

(** The reference latency and jitter that [Select] scores against: the
    minima of its first loop, replaced by 1 when there is none. *)
Definition selectMinima (available : list Backend) : float * float :=
  let '(minLatency, minJitter) := minima available in
  (if (minLatency <=? 0)%float then 1%float else minLatency,
   if (minJitter <=? 0)%float then 1%float else minJitter).



(** [b] is the first element of [l] whose score is the greatest. *)
Definition first_max (score : Backend -> Z) (l : list Backend) (b : Backend)
    : Prop :=
  exists i : nat,
    l !! i = Some b
    /\ (forall (j : nat) b', l !! j = Some b' -> score b' <= score b)
    /\ (forall (j : nat) b', (j < i)%nat -> l !! j = Some b' -> score b' < score b).




(** Two backends at one connection out of 40, with steady latencies of
    101 ms and 100 ms; a backend without samples; one at a steady 10 ms. *)
Definition backend_101 : Backend :=
  mkBackend "10.0.0.1:25565" 40 1 0 0 true false [101; 101] 20 0 {[ "alex" ]} 100.


Definition backend_nodata : Backend :=
  mkBackend "10.0.0.3:25565" 0 0 0 0 true false [] 20 0 ∅ 100.

Definition backend_10 : Backend :=
  mkBackend "10.0.0.4:25565" 0 0 0 0 true false [10; 10] 20 0 ∅ 100.

(** Scenario: [P] (about 10 ms, jitter 1) and [Q] (about 100 ms, jitter 10). *)
Definition backend_P : Backend :=
  mkBackend "P:25565" 0 0 0 0 true false [9; 11] 20 0 ∅ 100.

Definition backend_Q : Backend :=
  mkBackend "Q:25565" 0 0 0 0 true false [90; 110] 20 0 ∅ 100.

(** A probe scenario: the dial takes 50 ms, every transfer 5 ms, and the
    server answers the status request with packet id 0 and a two-byte JSON
    body. *)
Definition exampleSplitHostPort (addr : string) : string * string :=
  ("10.0.0.1", "25565").

Definition exampleSscanf_d (s : string) : option Z := Some 25565.

Definition status_reply : list Z := [4; 0; 2; 123; 125].

Definition slow_net : Net :=
  mkNet 1700000000000000000 (50 * Millisecond) true 0 status_reply []
    (5 * Millisecond) 10.

(** ** The other selection strategies

    A strategy value is its kind; the round-robin one carries its counter
    (an [atomic.Uint64]). [RandomStrategy.Select] takes the outcome of
    [rand.Int] as [rnd]: [None] for an error, [Some n] for the number drawn;
    indexing [available] out of range panics. *)

Module RoundRobinStrategy.

Definition Name : string := "round-robin".

Definition Select (counter : Z) (backends : list Backend) : Z * option Backend :=
  let available := filterAvailable backends in
  if Z.of_nat (length available) =? 0 then (counter, None)
  else
    let counter := (counter + 1) mod 2 ^ 64 in
    let idx := counter mod Z.of_nat (length available) in
    (counter, available !! Z.to_nat idx).

End RoundRobinStrategy.

Module LeastConnectionsStrategy.

Definition Name : string := "least-connections".

Definition Select (backends : list Backend) : option Backend :=
  let available := filterAvailable backends in
  if Z.of_nat (length available) =? 0 then None
  else
    fst (fold_left
           (fun '(best, minConns) b =>
              let conns := CurrentConns b in
              if (minConns <? 0) || (conns <? minConns)
              then (Some b, conns) else (best, minConns))
           available (None, -1)).

End LeastConnectionsStrategy.

Module SequentialStrategy.

Definition Name : string := "sequential".

Fixpoint Select (backends : list Backend) : option Backend :=
  match backends with
  | [] => None
  | b :: backends => if IsAvailable b then Some b else Select backends
  end.

End SequentialStrategy.

Module RandomStrategy.

Definition Name : string := "random".

Definition Select (rnd : option Z) (backends : list Backend)
    : option (option Backend) :=
  let available := filterAvailable backends in
  if Z.of_nat (length available) =? 0 then Some None
  else
    match rnd with
    | None => Some (available !! 0%nat)
    | Some n =>
        if n <? 0 then None
        else match available !! Z.to_nat n with
             | Some b => Some (Some b)
             | None => None
             end
    end.

End RandomStrategy.

Module HealthScoreStrategy.

Definition Name : string := "health-score".

End HealthScoreStrategy.

Inductive Strategy :=
| RoundRobin (counter : Z)
| LeastConnections
| HealthScore
| Sequential
| Random.

Definition Strategy_Name (s : Strategy) : string :=
  match s with
  | RoundRobin _ => RoundRobinStrategy.Name
  | LeastConnections => LeastConnectionsStrategy.Name
  | HealthScore => HealthScoreStrategy.Name
  | Sequential => SequentialStrategy.Name
  | Random => RandomStrategy.Name
  end.

Definition GetStrategy (name : string) : Strategy :=
  if String.eqb name "round-robin" then RoundRobin 0
  else if String.eqb name "least-connections" then LeastConnections
  else if String.eqb name "health-score" then HealthScore
  else if String.eqb name "sequential" then Sequential
  else if String.eqb name "random" then Random
  else HealthScore.

(** The call [s.strategy.Select(backends, jitterThreshold, history)] through
    the interface: the new state of the strategy and the backend returned,
    [None] for a panic. *)
Definition Strategy_Select (s : Strategy) (rnd : option Z)
    (backends : list Backend) (jitterThreshold : float)
    (history : option HistoryFile.HistoryManager) (now : Time)
    : option (Strategy * option Backend) :=
  match s with
  | RoundRobin counter =>
      let '(counter, r) := RoundRobinStrategy.Select counter backends in
      Some (RoundRobin counter, r)
  | LeastConnections => Some (s, LeastConnectionsStrategy.Select backends)
  | HealthScore => Some (s, Select backends jitterThreshold history now)
  | Sequential => Some (s, SequentialStrategy.Select backends)
  | Random => r ← RandomStrategy.Select rnd backends; Some (s, r)
  end.

(** ** Pool administration (package main)

    A pool and the registry of pools. A [*Backend] of the pool's vector is
    its position in [backends]. *)

Record LoadBalancedServerInfo := mkLoadBalancedServerInfo {
  name : string;
  backends : list Backend;
  strategy : Strategy;
  jitterThreshold : float;
  dialTimeout : Duration
}.

Definition with_backends (bs : list Backend) (s : LoadBalancedServerInfo)
    : LoadBalancedServerInfo :=
  mkLoadBalancedServerInfo (name s) bs (strategy s) (jitterThreshold s)
    (dialTimeout s).

(** The loop [for _, b := range server.Backends() { if b.Addr == backendAddr
    { b.SetDisabled(v); return true } }]: the new vector, or [None] when no
    backend has the address. *)
Fixpoint setDisabledByAddr (backendAddr : string) (v : bool)
    (bs : list Backend) : option (list Backend) :=
  match bs with
  | [] => None
  | b :: bs =>
      if String.eqb (Addr b) backendAddr then Some (SetDisabled v b :: bs)
      else bs' ← setDisabledByAddr backendAddr v bs; Some (b :: bs')
  end.

Definition GetServer (servers : gmap string LoadBalancedServerInfo)
    (serverName : string) : option LoadBalancedServerInfo :=
  servers !! serverName.

Definition DisableBackend (servers : gmap string LoadBalancedServerInfo)
    (serverName backendAddr : string)
    : gmap string LoadBalancedServerInfo * bool :=
  match GetServer servers serverName with
  | None => (servers, false)
  | Some server =>
      match setDisabledByAddr backendAddr true (backends server) with
      | Some bs => (<[serverName := with_backends bs server]> servers, true)
      | None => (servers, false)
      end
  end.

Definition EnableBackend (servers : gmap string LoadBalancedServerInfo)
    (serverName backendAddr : string)
    : gmap string LoadBalancedServerInfo * bool :=
  match GetServer servers serverName with
  | None => (servers, false)
  | Some server =>
      match setDisabledByAddr backendAddr false (backends server) with
      | Some bs => (<[serverName := with_backends bs server]> servers, true)
      | None => (servers, false)
      end
  end.

(** ** Readers that deliver

    The reader [r] hands out the bytes [bs], one per read, and is then
    [r']. *)
Fixpoint delivers {R} `{Reader R} (bs : list Z) (r r' : R) : Prop :=
  match bs with
  | [] => r = r'
  | b :: bs => exists r1, Read1 r = (r1, inr b) /\ delivers bs r1 r'
  end.

(** What [writePacket] puts on the wire for [data]. *)
Definition frame (data : list Z) : option (list Z) :=
  lenBuf ← writeVarInt (int32 (Z.of_nat (length data))); Some (lenBuf ++ data).

(** A connection on which [k] more one-byte reads meet the deadline. *)
Definition reads_in_time (k : nat) (conn : Net) : Prop :=
  0 <= ioCost conn /\ clock conn + Z.of_nat k * ioCost conn <= deadline conn.
(** ** Runs of operations *)

(** Successive [RecordLatency] calls on one backend. *)
Fixpoint recordAll (ds : list Duration) (b : Backend) : option Backend :=
  match ds with
  | [] => Some b
  | d :: ds => b ← RecordLatency d b; recordAll ds b
  end.

(** The last [n] elements of a list. *)
Definition lastn {A} (n : nat) (l : list A) : list A :=
  drop (length l - n) l.

(** Successive [RoundRobinStrategy.Select] calls on an unchanged pool: the
    backends returned, in call order. *)
Fixpoint roundRobinRun (calls : nat) (counter : Z) (backends : list Backend)
    : list (option Backend) :=
  match calls with
  | O => []
  | S calls =>
      let '(counter, r) := RoundRobinStrategy.Select counter backends in
      r :: roundRobinRun calls counter backends
  end.

(** [b] is the first element of [l] with the fewest connections. *)
Definition first_least_conns (l : list Backend) (b : Backend) : Prop :=
  exists i : nat,
    l !! i = Some b
    /\ (forall (j : nat) b', l !! j = Some b' -> CurrentConns b <= CurrentConns b')
    /\ (forall (j : nat) b', (j < i)%nat -> l !! j = Some b' ->
          CurrentConns b < CurrentConns b').
(** A probe that succeeds, at a valid local time. *)
Definition succeeding (p : Probe) : Prop :=
  probeErr p = None /\ valid_time (recordTime p).

(** The body that [DisableBackend] ([v = true]) and [EnableBackend]
    ([v = false]) share. *)
Definition setBackendDisabled (v : bool)
    (servers : gmap string LoadBalancedServerInfo)
    (serverName backendAddr : string)
    : gmap string LoadBalancedServerInfo * bool :=
  match GetServer servers serverName with
  | None => (servers, false)
  | Some server =>
      match setDisabledByAddr backendAddr v (backends server) with
      | Some bs => (<[serverName := with_backends bs server]> servers, true)
      | None => (servers, false)
      end
  end.

(** Samples recorded one after the other for one address within one
    15-minute period. *)
Fixpoint recordSamples (now : Time) (addr : string)
    (samples : list (float * float)) (hm : HistoryFile.HistoryManager)
    : option HistoryFile.HistoryManager :=
  match samples with
  | [] => Some hm
  | (latency, jitter) :: rest =>
      hm ← HistoryFile.Record_ now addr latency jitter hm;
      recordSamples now addr rest hm
  end.

(** One step of the exponential moving average. *)
Definition ema (avg x : float) : float := (0.1 * x + 0.9 * avg)%float.

(** ** Loading the SQLite-backed store (package loadbalancer)

    The table [period_stats] is the map [db] from its primary key
    [(backend_addr, period_index)] to the stored record. *)

Module HistoryLoad.

(** One row of [SELECT backend_addr, period_index, period_label,
    avg_latency, avg_jitter, samples FROM period_stats]. *)
Record Row := mkRow {
  backend_addr : string;
  period_index : Z;
  period_label : string;
  avg_latency : float;
  avg_jitter : float;
  samples : Z
}.

Definition toRow (kv : string * Z * HistoryDB.PeriodStats) : Row :=
  mkRow (fst (fst kv)) (snd (fst kv)) (HistoryDB.PeriodLabel (snd kv))
    (HistoryDB.AvgLatency (snd kv)) (HistoryDB.AvgJitter (snd kv))
    (HistoryDB.Samples (snd kv)).

(** The rows the query returns, in the order the engine yields them. *)
Definition queryRows (rows : gmap (string * Z) HistoryDB.PeriodStats)
    : list Row :=
  toRow <$> map_to_list rows.

(** The body of the [for rows.Next()] loop. *)
Definition loadRow (cache : gmap string (list HistoryDB.PeriodStats))
    (r : Row) : gmap string (list HistoryDB.PeriodStats) :=
  let history :=
    match cache !! backend_addr r with
    | Some history => history
    | None => HistoryDB.freshHistory
    end in
  let history :=
    if (period_index r >=? 0) && (period_index r <? 96) then
      <[Z.to_nat (period_index r) :=
          HistoryDB.mkPeriodStats (avg_latency r) (avg_jitter r) (samples r)
            (period_index r) (period_label r)]> history
    else history in
  <[backend_addr r := history]> cache.

Definition loadFromDB (hm : HistoryDB.HistoryManager)
    : HistoryDB.HistoryManager :=
  match HistoryDB.db hm with
  | None => hm
  | Some rows =>
      HistoryDB.mkHistoryManager (HistoryDB.db hm) (HistoryDB.dbPath hm)
        (fold_left loadRow (queryRows rows) (HistoryDB.cache hm))
  end.

(** [NewHistoryManager] over the table found at [dbPath]: [None] when the
    database cannot be opened. *)
Definition NewHistoryManager
    (table : option (gmap (string * Z) HistoryDB.PeriodStats))
    (dbPath : string) : HistoryDB.HistoryManager :=
  loadFromDB (HistoryDB.mkHistoryManager table dbPath ∅).

(** A run of [Record] calls, each at its own time, with its write to the
    table completed. *)
Fixpoint recordEvents (events : list (Time * string * float * float))
    (hm : HistoryDB.HistoryManager) : option HistoryDB.HistoryManager :=
  match events with
  | [] => Some hm
  | (now, addr, latency, jitter) :: rest =>
      hm ← HistoryDB.Record_ now addr latency jitter hm;
      recordEvents rest hm
  end.

(** The slot of a freshly allocated history. *)
Definition freshSlot (i : nat) : HistoryDB.PeriodStats :=
  HistoryDB.mkPeriodStats 0%float 0%float 0 (Z.of_nat i)
    (HistoryDB.periodLabelFromIndex (Z.of_nat i)).

(** The cache and the table agree: an address is cached exactly when it has
    a row, and each slot of a cached address is its row, or the fresh slot
    when it has none. *)
Definition coherent (hm : HistoryDB.HistoryManager) : Prop :=
  exists rows,
    HistoryDB.db hm = Some rows
    /\ (forall addr i st,
          rows !! (addr, i) = Some st -> 0 <= i < 96 /\ HistoryDB.PeriodIndex st = i)
    /\ (forall addr,
          HistoryDB.cache hm !! addr = None -> forall i, rows !! (addr, i) = None)
    /\ (forall addr h,
          HistoryDB.cache hm !! addr = Some h ->
          (exists i, is_Some (rows !! (addr, i)))
          /\ length h = 96%nat
          /\ forall i : nat, (i < 96)%nat ->
               h !! i = Some (default (freshSlot i) (rows !! (addr, Z.of_nat i)))).

End HistoryLoad.

(** [n'] is a later state of the connection [n]: same deadline and transfer
    cost, the clock moved forward, not past the deadline. *)
Definition within_deadline (n n' : Net) : Prop :=
  deadline n' = deadline n /\ ioCost n' = ioCost n
  /\ clock n <= clock n' <= deadline n.

(** Streaks of a run of probes: the number of failed probes at its end (the
    failures since the last success), and the number of successful ones at
    its end. *)
Definition probeFailed (p : Probe) : bool :=
  match probeErr p with
  | Some _ => true
  | None => false
  end.

Fixpoint leadingRun (f : Probe -> bool) (ps : list Probe) : nat :=
  match ps with
  | [] => O
  | p :: ps => if f p then S (leadingRun f ps) else O
  end.

Definition failureStreak (ps : list Probe) : Z :=
  Z.of_nat (leadingRun probeFailed (reverse ps)).

Definition successStreak (ps : list Probe) : Z :=
  Z.of_nat (leadingRun (fun p => negb (probeFailed p)) (reverse ps)).

(* ===================================================================== *)
(** * Properties *)
(* ===================================================================== *)

(** ** Machine integers *)

Lemma int32_range z : in_int32 (int32 z).
Proof.
  unfold in_int32, int32, wrap.
  change (2 ^ (32 - 1)) with 2147483648; change (2 ^ 32) with 4294967296.
  change (2 ^ 31) with 2147483648.
  pose proof (Z.mod_pos_bound (z + 2147483648) 4294967296 eq_refl). lia.
Qed.

Lemma int32_id z : in_int32 z -> int32 z = z.
Proof.
  unfold in_int32, int32, wrap.
  change (2 ^ (32 - 1)) with 2147483648; change (2 ^ 32) with 4294967296.
  change (2 ^ 31) with 2147483648.
  intros H. rewrite Z.mod_small by lia. lia.
Qed.

Lemma int64_id z : in_int64 z -> int64 z = z.
Proof.
  unfold in_int64, int64, wrap.
  change (2 ^ (64 - 1)) with 9223372036854775808.
  change (2 ^ 64) with 18446744073709551616.
  change (2 ^ 63) with 9223372036854775808.
  intros H. rewrite Z.mod_small by lia. lia.
Qed.




(** ** Trust coefficient *)

Lemma trust_levels_cases (z : Z) :
  z ∈ trust_levels <-> z = 50 \/ z = 60 \/ z = 70 \/ z = 80 \/ z = 90 \/ z = 100.
Proof. unfold trust_levels. rewrite !elem_of_cons, elem_of_nil. tauto. Qed.

Lemma ResetTrust_level (b : Backend) : trustCoeff (ResetTrust b) = 50.
Proof. reflexivity. Qed.

Lemma IncreaseTrust_level (b : Backend) :
  trustCoeff b ∈ trust_levels ->
  trustCoeff (IncreaseTrust b) = Z.min 100 (trustCoeff b + 10)
  /\ trustCoeff (IncreaseTrust b) ∈ trust_levels.
Proof.
  rewrite !trust_levels_cases. unfold IncreaseTrust.
  destruct b as [a m c f s h d w ws t p tr]; cbn [trustCoeff].
  intros [H|[H|[H|[H|[H|H]]]]]; subst tr; vm_compute; (split; [reflexivity|]);
    tauto.
Qed.

Lemma applyTrustOp_level (b : Backend) (op : TrustOp) :
  trustCoeff b ∈ trust_levels -> trustCoeff (applyTrustOp b op) ∈ trust_levels.
Proof.
  intros H. destruct op; cbn [applyTrustOp].
  - rewrite ResetTrust_level, trust_levels_cases. lia.
  - apply IncreaseTrust_level, H.
Qed.

Lemma runTrustOps_level (ops : list TrustOp) (b : Backend) :
  trustCoeff b ∈ trust_levels -> trustCoeff (runTrustOps ops b) ∈ trust_levels.
Proof.
  revert b. induction ops as [|op ops IH]; intros b H; cbn.
  - exact H.
  - apply IH, applyTrustOp_level, H.
Qed.

Lemma NewBackend_fresh (addr : string) (maxConns ws : Z) (b : Backend) :
  NewBackend addr maxConns ws = Some b ->
  b = mkBackend addr maxConns 0 0 0 true false [] ws 0 ∅ 100 /\ 0 <= ws.
Proof.
  unfold NewBackend. destruct (ws <? 0) eqn:E; [discriminate|].
  intros [= <-]. split; [reflexivity|lia].
Qed.

Lemma TrustCoeff_of_level (b : Backend) :
  trustCoeff b ∈ trust_levels ->
  TrustCoeff b ∈ [0.5; 0.6; 0.7; 0.8; 0.9; 1]%float.
Proof.
  rewrite trust_levels_cases. unfold TrustCoeff.
  intros [H|[H|[H|[H|[H|H]]]]]; rewrite H;
    match goal with
    | |- ?x ∈ _ => let v := eval vm_compute in x in change x with v
    end; set_solver.
Qed.

(** C7. From creation on, under any sequence of [ResetTrust] and
    [IncreaseTrust], the stored trust is one of 50, 60, ..., 100 percent (the
    coefficient one of 0.50, 0.60, ..., 1.00); [ResetTrust] stores 50 and
    [IncreaseTrust] adds 10, saturating at 100. *)
Theorem trust_invariant (addr : string) (maxConns ws : Z) (b : Backend)
    (ops : list TrustOp) :
  NewBackend addr maxConns ws = Some b ->
  trustCoeff b = 100
  /\ trustCoeff (runTrustOps ops b) ∈ trust_levels
  /\ TrustCoeff (runTrustOps ops b) ∈ [0.5; 0.6; 0.7; 0.8; 0.9; 1]%float
  /\ trustCoeff (ResetTrust (runTrustOps ops b)) = 50
  /\ trustCoeff (IncreaseTrust (runTrustOps ops b))
     = Z.min 100 (trustCoeff (runTrustOps ops b) + 10).
Proof.
  intros Hnew. apply NewBackend_fresh in Hnew as [-> _].
  assert (Hlvl : trustCoeff (runTrustOps ops
            (mkBackend addr maxConns 0 0 0 true false [] ws 0 ∅ 100)) ∈ trust_levels).
  { apply runTrustOps_level. rewrite trust_levels_cases. cbn. lia. }
  repeat split.
  - exact Hlvl.
  - apply TrustCoeff_of_level, Hlvl.
  - apply IncreaseTrust_level, Hlvl.
Qed.

Lemma trust_invariant_witness :
  NewBackend "10.0.0.1:25565" 0 20
    = Some (mkBackend "10.0.0.1:25565" 0 0 0 0 true false [] 20 0 ∅ 100)
  /\ trustCoeff (runTrustOps [OpResetTrust; OpIncreaseTrust; OpIncreaseTrust]
                   (mkBackend "10.0.0.1:25565" 0 0 0 0 true false [] 20 0 ∅ 100))
     ∈ trust_levels.
Proof.
  split; [reflexivity|].
  apply (trust_invariant "10.0.0.1:25565" 0 20 _
           [OpResetTrust; OpIncreaseTrust; OpIncreaseTrust]).
  reflexivity.
Defined.

Lemma int32_add_idemp (a b : Z) : int32 (int32 a + b) = int32 (a + b).
Proof.
  unfold int32, wrap.
  change (2 ^ (32 - 1)) with 2147483648; change (2 ^ 32) with 4294967296.
  f_equal.
  replace ((a + 2147483648) mod 4294967296 - 2147483648 + b + 2147483648)
    with ((a + 2147483648) mod 4294967296 + b) by lia.
  rewrite Zplus_mod_idemp_l. f_equal. lia.
Qed.

(** ** Player set and connection counter *)

Lemma AddPlayer_fields (name : string) (b : Backend) :
  players (AddPlayer name b) = {[ name ]} ∪ players b
  /\ currentConns (AddPlayer name b) = int32 (currentConns b + 1).
Proof. split; reflexivity. Qed.

Lemma RemovePlayer_present (name : string) (b : Backend) :
  name ∈ players b ->
  players (RemovePlayer name b) = players b ∖ {[ name ]}
  /\ currentConns (RemovePlayer name b) = int32 (currentConns b - 1).
Proof.
  intros H. unfold RemovePlayer. rewrite bool_decide_eq_true_2 by exact H.
  split; reflexivity.
Qed.

Lemma RemovePlayer_absent (name : string) (b : Backend) :
  name ∉ players b -> RemovePlayer name b = b.
Proof.
  intros H. unfold RemovePlayer. rewrite bool_decide_eq_false_2 by exact H.
  reflexivity.
Qed.


(** The counter tracks the size of the set as long as no name is attached
    twice. *)
Lemma conns_track_players_when_fresh (ops : list PlayerOp) (b : Backend) :
  currentConns b = int32 (Z.of_nat (size (players b))) ->
  adds_fresh ops b ->
  currentConns (runPlayerOps ops b)
  = int32 (Z.of_nat (size (players (runPlayerOps ops b)))).
Proof.
  revert b. induction ops as [|op ops IH]; intros b Hinv Hfresh; cbn.
  - exact Hinv.
  - destruct Hfresh as [Hop Hrest]. apply IH; [|exact Hrest].
    destruct op as [name|name]; cbn [applyPlayerOp].
    + destruct (AddPlayer_fields name b) as [-> ->].
      rewrite size_union by set_solver. rewrite size_singleton, Hinv.
      rewrite int32_add_idemp. f_equal. lia.
    + destruct (decide (name ∈ players b)) as [Hin|Hout].
      * destruct (RemovePlayer_present name b Hin) as [-> ->].
        rewrite size_difference by set_solver. rewrite size_singleton, Hinv.
        rewrite <- Z.add_opp_r, int32_add_idemp.
        assert (size (players b) <> 0%nat).
        { intros Hz. apply size_empty_inv in Hz. set_solver. }
        f_equal. lia.
      * rewrite RemovePlayer_absent by exact Hout. exact Hinv.
Qed.

Lemma AddPlayer_mk name a m c f s h d w ws t (p : gset string) tr :
  AddPlayer name (mkBackend a m c f s h d w ws t p tr)
  = mkBackend a m (int32 (c + 1)) f s h d w ws t ({[ name ]} ∪ p) tr.
Proof. reflexivity. Qed.

Lemma RemovePlayer_mk name a m c f s h d w ws t (p : gset string) tr :
  name ∈ p ->
  RemovePlayer name (mkBackend a m c f s h d w ws t p tr)
  = mkBackend a m (int32 (c - 1)) f s h d w ws t (p ∖ {[ name ]}) tr.
Proof.
  intros Hin. unfold RemovePlayer. cbn [players].
  rewrite bool_decide_eq_true_2 by exact Hin. reflexivity.
Qed.

Lemma runPlayerOps_cons op ops b :
  runPlayerOps (op :: ops) b = runPlayerOps ops (applyPlayerOp b op).
Proof. reflexivity. Qed.

Lemma singleton_twice (name : string) :
  ({[ name ]} ∪ ({[ name ]} ∪ ∅) : gset string) = {[ name ]}.
Proof. set_solver. Qed.

Lemma singleton_remove (name : string) :
  ({[ name ]} ∖ {[ name ]} : gset string) = ∅.
Proof. set_solver. Qed.

Lemma int32_small_values :
  int32 (int32 (0 + 1) + 1) = 2 /\ int32 (2 - 1) = 1.
Proof. split; reflexivity. Qed.

(** C4. Attaching a name that is already attached leaves the player set
    unchanged but still increments the counter: from a fresh backend, two
    [AddPlayer] calls with one name give a set of size 1 and
    [currentConns = 2]; detaching twice afterwards leaves the set empty and
    the counter at 1. *)
Theorem AddPlayer_twice_miscounts (addr : string) (maxConns ws : Z)
    (b : Backend) (name : string) :
  NewBackend addr maxConns ws = Some b ->
  players (runPlayerOps [OpAddPlayer name; OpAddPlayer name] b) = {[ name ]}
  /\ size (players (runPlayerOps [OpAddPlayer name; OpAddPlayer name] b)) = 1%nat
  /\ CurrentConns (runPlayerOps [OpAddPlayer name; OpAddPlayer name] b) = 2
  /\ players (runPlayerOps [OpAddPlayer name; OpAddPlayer name;
                            OpRemovePlayer name; OpRemovePlayer name] b) = ∅
  /\ CurrentConns (runPlayerOps [OpAddPlayer name; OpAddPlayer name;
                                 OpRemovePlayer name; OpRemovePlayer name] b) = 1.
Proof.
  intros Hnew. apply NewBackend_fresh in Hnew as [-> _].
  destruct int32_small_values as [H2 H1].
  rewrite !runPlayerOps_cons. unfold runPlayerOps at 1 2 3 4 5.
  cbn [fold_left applyPlayerOp].
  rewrite !AddPlayer_mk, singleton_twice, H2.
  rewrite (RemovePlayer_mk name) by set_solver.
  rewrite singleton_remove, H1.
  rewrite RemovePlayer_absent by (cbn [players]; set_solver).
  unfold CurrentConns. cbn [players currentConns].
  repeat split. apply size_singleton.
Qed.

Lemma AddPlayer_twice_miscounts_witness :
  NewBackend "10.0.0.1:25565" 0 20
    = Some (mkBackend "10.0.0.1:25565" 0 0 0 0 true false [] 20 0 ∅ 100)
  /\ CurrentConns (runPlayerOps [OpAddPlayer "steve"; OpAddPlayer "steve"]
                     (mkBackend "10.0.0.1:25565" 0 0 0 0 true false [] 20 0 ∅ 100))
     = 2
  /\ size (players (runPlayerOps [OpAddPlayer "steve"; OpAddPlayer "steve"]
                     (mkBackend "10.0.0.1:25565" 0 0 0 0 true false [] 20 0 ∅ 100)))
     = 1%nat.
Proof.
  split; [reflexivity|].
  pose proof (AddPlayer_twice_miscounts "10.0.0.1:25565" 0 20 _ "steve" eq_refl)
    as (_ & Hsize & Hconns & _).
  split; [exact Hconns | exact Hsize].
Defined.

(** ** Detach and close are idempotent *)






(** ** Sliding window statistics *)







(** What the two statistics are on that window: mean 20 ms, deviation 10 ms. *)
Example window_statistics_values :
  AvgLatency (mkBackend "10.0.0.1:25565" 0 0 0 0 true false [10; 30] 20 0 ∅ 100)
    = 20%float
  /\ Jitter (mkBackend "10.0.0.1:25565" 0 0 0 0 true false [10; 30] 20 0 ∅ 100)
    = 10%float
  /\ AvgLatency window_one = 5%float
  /\ Jitter window_one = 0%float.
Proof. repeat split; vm_compute; reflexivity. Qed.

(** ** Recording into the window *)

Lemma RecordLatency_total (latency : Duration) (b : Backend) :
  0 < windowSize b ->
  exists b', RecordLatency latency b = Some b'
    /\ windowSize b' = windowSize b
    /\ (Z.of_nat (length (latencyWindow b)) <= windowSize b ->
        Z.of_nat (length (latencyWindow b')) <= windowSize b)
    /\ healthy b' = healthy b /\ disabled b' = disabled b
    /\ failCount b' = failCount b /\ successCount b' = successCount b
    /\ trustCoeff b' = trustCoeff b /\ Addr b' = Addr b.
Proof.
  intros Hws. unfold RecordLatency.
  destruct (Z.geb_spec (Z.of_nat (length (latencyWindow b))) (windowSize b)) as [Hfull|Hroom].
  - destruct (latencyWindow b) as [|v tl] eqn:Hw; [cbn in Hfull; lia|].
    cbn. eexists. split; [reflexivity|]. cbn.
    repeat split. intros Hle. rewrite length_app. cbn. lia.
  - cbn. eexists. split; [reflexivity|]. cbn.
    repeat split. intros Hle. rewrite length_app. cbn. lia.
Qed.

Lemma RecordLatency_inv (latency : Duration) (b b' : Backend) :
  RecordLatency latency b = Some b' -> exists w, b' = set_latencyWindow w b.
Proof.
  unfold RecordLatency.
  destruct (Z.of_nat (length (latencyWindow b)) >=? windowSize b).
  - destruct (latencyWindow b); cbn; [discriminate|].
    intros [= <-]. eexists; reflexivity.
  - cbn. intros [= <-]. eexists; reflexivity.
Qed.

Lemma RecordLatency_empty_window_panics (latency : Duration) (b : Backend) :
  latencyWindow b = [] -> windowSize b <= 0 -> RecordLatency latency b = None.
Proof.
  intros Hw Hws. unfold RecordLatency. rewrite Hw. cbn [length].
  destruct (Z.geb_spec (Z.of_nat 0) (windowSize b)); [reflexivity|lia].
Qed.

(** C10. With [windowSize = 0] the backend is created (registration
    proceeds) and its statistics are the defaults, but the first
    [RecordLatency] slices [latencyWindow[1:]] on the empty slice and
    panics; so do a successful health check and a player dial on it. *)
Theorem zero_window_record_panics (addr : string) (maxConns : Z)
    (latency : Duration) :
  exists b : Backend,
    NewBackend addr maxConns 0 = Some b
    /\ (forall cfg : HealthCheckConfig,
          WindowSize cfg = 0 -> buildBackends cfg [(addr, maxConns)] = Some [b])
    /\ AvgLatency b = 0%float /\ Jitter b = 0%float
    /\ RecordLatency latency b = None
    /\ (forall cfg p hm,
          probeErr p = None -> checkBackend cfg p (hm, b) = None)
    /\ (forall name dialTimeout player n,
          Dial name (Some b) dialTimeout player n = None).
Proof.
  eexists. split; [reflexivity|].
  split; [intros cfg Hcfg; cbn; rewrite Hcfg; reflexivity|].
  split; [reflexivity|]. split; [reflexivity|].
  split; [apply RecordLatency_empty_window_panics; cbn; [reflexivity|lia]|].
  split.
  - intros cfg p hm Herr. unfold checkBackend. cbn [IsDisabled disabled].
    rewrite Herr.
    rewrite RecordLatency_empty_window_panics; cbn; [reflexivity|reflexivity|lia].
  - intros name dt player n. unfold Dial.
    destruct (DialContext (time_Now n + dt) n) as [n' [err|]].
    + rewrite RecordLatency_empty_window_panics; cbn; [reflexivity|reflexivity|lia].
    + rewrite RecordLatency_empty_window_panics; cbn; [reflexivity|reflexivity|lia].
Qed.

(** ** Hysteresis of the health-check loop *)

Lemma checkBackend_disabled cfg p hm b :
  disabled b = true -> checkBackend cfg p (hm, b) = Some (hm, b).
Proof. intros H. unfold checkBackend, IsDisabled. rewrite H. reflexivity. Qed.

Lemma checkBackend_failure cfg p hm b e :
  probeErr p = Some e -> disabled b = false ->
  exists b',
    checkBackend cfg p (hm, b) = Some (hm, b')
    /\ failCount b' = int32 (failCount b + 1)
    /\ successCount b' = 0
    /\ disabled b' = false
    /\ trustCoeff b' = trustCoeff b
    /\ healthy b'
       = healthy b && negb (int32 (failCount b + 1)
                            >=? int32 (UnhealthyAfterFailures cfg)).
Proof.
  intros Herr Hd. unfold checkBackend, IsDisabled. rewrite Hd, Herr.
  unfold FailCount, IsHealthy, RecordHealthCheckFailure, SetLastCheckTime, SetHealthy.
  cbn [failCount healthy set_failCount set_successCount set_lastCheckTime
       set_healthy disabled successCount trustCoeff].
  destruct (int32 (failCount b + 1) >=? int32 (UnhealthyAfterFailures cfg));
    destruct (healthy b) eqn:Hh; eexists; (split; [reflexivity|]); cbn;
    rewrite ?Hh, ?Hd; repeat split.
Qed.

(** One step of the loop, both directions of the flip. *)
Lemma checkBackend_flip cfg p hm b hm' b' :
  checkBackend cfg p (hm, b) = Some (hm', b') ->
  (healthy b = true -> healthy b' = false ->
     probeErr p <> None
     /\ FailCount b' = int32 (failCount b + 1)
     /\ FailCount b' >= int32 (UnhealthyAfterFailures cfg))
  /\ (healthy b = false -> healthy b' = true ->
     probeErr p = None
     /\ int32 (successCount b + 1) >= int32 (HealthyAfterSuccesses cfg)
     /\ trustCoeff b' = 50
     /\ SuccessCount b' = 0).
Proof.
  intros Hstep.
  destruct (disabled b) eqn:Hd.
  { rewrite checkBackend_disabled in Hstep by exact Hd.
    injection Hstep as <- <-. split; intros H1 H2; congruence. }
  destruct (probeErr p) as [e|] eqn:Herr.
  - destruct (checkBackend_failure cfg p hm b e Herr Hd)
      as (b1 & Hb1 & Hfc & Hsc & _ & _ & Hh).
    rewrite Hb1 in Hstep. injection Hstep as <- <-.
    split; intros H1 H2.
    + split; [discriminate|]. split; [exact Hfc|].
      rewrite H1 in Hh. rewrite H2 in Hh. cbn in Hh.
      unfold FailCount. rewrite Hfc.
      destruct (Z.geb_spec (int32 (failCount b + 1))
                  (int32 (UnhealthyAfterFailures cfg))); [lia|discriminate].
    + rewrite H1 in Hh. rewrite H2 in Hh. discriminate.
  - unfold checkBackend, IsDisabled in Hstep. rewrite Hd, Herr in Hstep.
    destruct (RecordLatency (probeLatency p)
                (SetLastCheckTime (UnixNano (probeTime p)) b)) as [b1|] eqn:Hrec;
      [|discriminate].
    cbn [mbind option_bind] in Hstep.
    destruct (HistoryFile.Record_ _ _ _ _ hm) as [hm1|]; [|discriminate].
    cbn [mbind option_bind] in Hstep.
    apply RecordLatency_inv in Hrec as [w ->].
    unfold IsHealthy, SuccessCount, RecordHealthCheckSuccess, SetLastCheckTime,
      SetHealthy, ResetTrust, ResetSuccessCount in Hstep.
    cbn [failCount healthy set_failCount set_successCount set_lastCheckTime
         set_healthy set_latencyWindow set_trustCoeff successCount] in Hstep.
    destruct (healthy b) eqn:Hh; cbn [negb] in Hstep.
    + injection Hstep as <- <-. split; intros H1 H2; [|discriminate].
      exfalso. unfold IncreaseTrust in H2.
      match type of H2 with
      | context [if ?c then _ else _] => destruct c
      end; cbn in H2; congruence.
    + split; intros H1 H2; [discriminate|].
      destruct (Z.geb_spec (int32 (successCount b + 1))
                  (int32 (HealthyAfterSuccesses cfg))) as [Hge|Hlt].
      * injection Hstep as <- <-. cbn. repeat split. lia.
      * injection Hstep as <- <-. cbn in H2. congruence.
Qed.

Lemma runChecks_app cfg ps qs st :
  runChecks cfg (ps ++ qs) st = st' ← runChecks cfg ps st; runChecks cfg qs st'.
Proof.
  revert st. induction ps as [|p ps IH]; intros st; cbn; [reflexivity|].
  destruct (checkBackend cfg p st) as [st1|]; cbn; [apply IH|reflexivity].
Qed.

(** Failing probes below the threshold: the counter counts them and the
    backend stays healthy. *)
Lemma failing_run_below cfg ps hm b :
  1 <= UnhealthyAfterFailures cfg < 2 ^ 31 ->
  Forall failing ps ->
  disabled b = false -> healthy b = true -> 0 <= failCount b ->
  failCount b + Z.of_nat (length ps) < UnhealthyAfterFailures cfg ->
  exists b',
    runChecks cfg ps (hm, b) = Some (hm, b')
    /\ healthy b' = true /\ disabled b' = false
    /\ failCount b' = failCount b + Z.of_nat (length ps).
Proof.
  intros HU Hps. revert b.
  induction Hps as [|p ps Hp Hps IH]; intros b Hd Hh Hfc Hlt.
  - exists b. cbn. repeat split; try assumption. lia.
  - cbn [length] in Hlt. cbn [runChecks].
    destruct (probeErr p) as [e|] eqn:Herr; [|exfalso; apply Hp, Herr].
    destruct (checkBackend_failure cfg p hm b e Herr Hd)
      as (b1 & Hb1 & Hfc1 & _ & Hd1 & _ & Hh1).
    rewrite Hb1. cbn [mbind option_bind].
    assert (Hwrap : int32 (failCount b + 1) = failCount b + 1).
    { apply int32_id. unfold in_int32. lia. }
    assert (HwrapU : int32 (UnhealthyAfterFailures cfg) = UnhealthyAfterFailures cfg).
    { apply int32_id. unfold in_int32. lia. }
    rewrite Hwrap in Hfc1. rewrite Hwrap, HwrapU, Hh in Hh1.
    destruct (Z.geb_spec (failCount b + 1) (UnhealthyAfterFailures cfg)); [lia|].
    cbn [negb andb] in Hh1.
    destruct (IH b1) as (b' & Hrun & Hh' & Hd' & Hfc'); [assumption|assumption|lia|lia|].
    exists b'. repeat split; try assumption. cbn [length]. lia.
Qed.

Lemma Record_period_range (now : Time) :
  valid_time now -> 0 <= Hour now * 4 + Minute now / 15 <= 95.
Proof.
  intros [Hh Hm].
  assert (0 <= Minute now / 15 <= 3).
  { split; [apply Z.div_pos; lia|].
    apply Z.lt_succ_r. apply Z.div_lt_upper_bound; lia. }
  lia.
Qed.

(** ** History store: exponential moving average *)

Lemma HistoryFile_current_stats hm now addr :
  valid_time now ->
  HistoryFile.GetCurrentPeriodStats hm now addr
  = match HistoryFile.backends hm !! addr with
    | None => None
    | Some history => history !! Z.to_nat (HistoryFile.getPeriodIndex now)
    end.
Proof.
  intros Hnow. apply Record_period_range in Hnow.
  unfold HistoryFile.GetCurrentPeriodStats, HistoryFile.GetPeriodStats,
    HistoryFile.getPeriodIndex.
  destruct (Z.ltb_spec (Hour now * 4 + Minute now / 15) 0); [lia|].
  destruct (Z.gtb_spec (Hour now * 4 + Minute now / 15) 95); [lia|].
  reflexivity.
Qed.

Lemma HistoryDB_current_stats hm now addr :
  valid_time now ->
  HistoryDB.GetCurrentPeriodStats hm now addr
  = match HistoryDB.cache hm !! addr with
    | None => None
    | Some history => history !! Z.to_nat (HistoryDB.getPeriodIndex now)
    end.
Proof.
  intros Hnow. apply Record_period_range in Hnow.
  unfold HistoryDB.GetCurrentPeriodStats, HistoryDB.GetPeriodStats,
    HistoryDB.getPeriodIndex.
  destruct (Z.ltb_spec (Hour now * 4 + Minute now / 15) 0); [lia|].
  destruct (Z.gtb_spec (Hour now * 4 + Minute now / 15) 95); [lia|].
  reflexivity.
Qed.

Ltac solve_updated old :=
  repeat match goal with
         | |- context [bool_decide ?P] => destruct (bool_decide P)
         end;
  match goal with
  | |- context [?s =? 0] =>
      let Hz := fresh "Hz" in
      destruct (Z.eqb_spec s 0) as [Hz|Hz]; cbn in Hz
  end;
  cbn; repeat split; intros; try reflexivity; try congruence;
  try (apply int64_id; assumption).

Lemma HistoryFile_Record_known hm now addr L J h old :
  valid_time now ->
  HistoryFile.backends hm !! addr = Some h ->
  h !! Z.to_nat (HistoryFile.getPeriodIndex now) = Some old ->
  exists new,
    HistoryFile.Record_ now addr L J hm
    = Some (HistoryFile.mkHistoryManager
              (<[addr := <[Z.to_nat (HistoryFile.getPeriodIndex now) := new]> h]>
                 (HistoryFile.backends hm))
              (HistoryFile.filePath hm) true)
    /\ HistoryFile_updated L J old new.
Proof.
  intros Hnow Hh Hold. pose proof (Record_period_range now Hnow) as Hp.
  unfold HistoryFile.Record_, HistoryFile.slot. rewrite Hh.
  fold (HistoryFile.getPeriodIndex now) in Hp.
  destruct (Z.ltb_spec (HistoryFile.getPeriodIndex now) 0); [lia|].
  rewrite Hold. cbn [mbind option_bind].
  eexists. split; [reflexivity|].
  unfold HistoryFile_updated. solve_updated old.
Qed.

Lemma HistoryFile_Record_absent hm now addr L J :
  valid_time now ->
  HistoryFile.backends hm !! addr = None ->
  exists new,
    HistoryFile.Record_ now addr L J hm
    = Some (HistoryFile.mkHistoryManager
              (<[addr := <[Z.to_nat (HistoryFile.getPeriodIndex now) := new]>
                           (replicate 96 HistoryFile.zeroStats)]>
                 (HistoryFile.backends hm))
              (HistoryFile.filePath hm) true)
    /\ HistoryFile.AvgLatency new = L /\ HistoryFile.AvgJitter new = J
    /\ HistoryFile.Samples new = 1.
Proof.
  intros Hnow Hh. pose proof (Record_period_range now Hnow) as Hp.
  unfold HistoryFile.Record_, HistoryFile.slot. rewrite Hh.
  fold (HistoryFile.getPeriodIndex now) in Hp.
  destruct (Z.ltb_spec (HistoryFile.getPeriodIndex now) 0); [lia|].
  rewrite lookup_replicate_2 by lia. cbn [mbind option_bind].
  eexists. split; [reflexivity|]. cbn. repeat split.
Qed.

Lemma HistoryDB_Record_known hm now addr L J h old :
  valid_time now ->
  HistoryDB.cache hm !! addr = Some h ->
  h !! Z.to_nat (HistoryDB.getPeriodIndex now) = Some old ->
  exists new,
    HistoryDB.Record_ now addr L J hm
    = Some (HistoryDB.mkHistoryManager
              (HistoryDB.savePeriodStats addr new (HistoryDB.db hm))
              (HistoryDB.dbPath hm)
              (<[addr := <[Z.to_nat (HistoryDB.getPeriodIndex now) := new]> h]>
                 (HistoryDB.cache hm)))
    /\ HistoryDB_updated L J old new.
Proof.
  intros Hnow Hh Hold. pose proof (Record_period_range now Hnow) as Hp.
  unfold HistoryDB.Record_, HistoryDB.slot. rewrite Hh.
  fold (HistoryDB.getPeriodIndex now) in Hp.
  destruct (Z.ltb_spec (HistoryDB.getPeriodIndex now) 0); [lia|].
  rewrite Hold. cbn [mbind option_bind].
  eexists. split; [reflexivity|].
  unfold HistoryDB_updated. solve_updated old.
Qed.

Lemma HistoryDB_freshHistory_lookup (n : nat) :
  (n < 96)%nat ->
  exists s, HistoryDB.freshHistory !! n = Some s
    /\ HistoryDB.Samples s = 0 /\ HistoryDB.PeriodIndex s = Z.of_nat n.
Proof.
  intros Hn. unfold HistoryDB.freshHistory.
  rewrite list_lookup_fmap, lookup_seq_lt by exact Hn.
  eexists. split; [reflexivity|]. split; reflexivity.
Qed.

Lemma HistoryDB_Record_absent hm now addr L J :
  valid_time now ->
  HistoryDB.cache hm !! addr = None ->
  exists new,
    HistoryDB.Record_ now addr L J hm
    = Some (HistoryDB.mkHistoryManager
              (HistoryDB.savePeriodStats addr new (HistoryDB.db hm))
              (HistoryDB.dbPath hm)
              (<[addr := <[Z.to_nat (HistoryDB.getPeriodIndex now) := new]>
                           HistoryDB.freshHistory]>
                 (HistoryDB.cache hm)))
    /\ HistoryDB.AvgLatency new = L /\ HistoryDB.AvgJitter new = J
    /\ HistoryDB.Samples new = 1.
Proof.
  intros Hnow Hh. pose proof (Record_period_range now Hnow) as Hp.
  unfold HistoryDB.Record_, HistoryDB.slot. rewrite Hh.
  fold (HistoryDB.getPeriodIndex now) in Hp.
  destruct (Z.ltb_spec (HistoryDB.getPeriodIndex now) 0); [lia|].
  destruct (HistoryDB_freshHistory_lookup (Z.to_nat (HistoryDB.getPeriodIndex now)))
    as (s & Hs & Hs0 & _); [lia|].
  rewrite Hs. cbn [mbind option_bind]. rewrite Hs0. cbn [Z.eqb].
  eexists. split; [reflexivity|]. cbn. repeat split.
Qed.

Lemma HistoryFile_wf_insert hm addr h p d :
  HistoryFile.wf hm -> length h = 96%nat ->
  HistoryFile.wf (HistoryFile.mkHistoryManager
                    (<[addr := h]> (HistoryFile.backends hm)) p d).
Proof.
  intros Hwf Hlen addr' h'. cbn [HistoryFile.backends].
  rewrite lookup_insert. case_decide as Heq.
  - intros [= <-]. exact Hlen.
  - apply Hwf.
Qed.

Lemma HistoryDB_wf_insert hm addr h d p :
  HistoryDB.wf hm -> length h = 96%nat ->
  HistoryDB.wf (HistoryDB.mkHistoryManager d p
                  (<[addr := h]> (HistoryDB.cache hm))).
Proof.
  intros Hwf Hlen addr' h'. cbn [HistoryDB.cache].
  rewrite lookup_insert. case_decide as Heq.
  - intros [= <-]. exact Hlen.
  - apply Hwf.
Qed.

Lemma HistoryFile_Record_ema now addr L J hm :
  valid_time now -> HistoryFile.wf hm ->
  exists hm' new,
    HistoryFile.Record_ now addr L J hm = Some hm'
    /\ HistoryFile.GetCurrentPeriodStats hm' now addr = Some new
    /\ HistoryFile.wf hm'
    /\ match HistoryFile.GetCurrentPeriodStats hm now addr with
       | Some old => HistoryFile_updated L J old new
       | None =>
           HistoryFile.AvgLatency new = L /\ HistoryFile.AvgJitter new = J
           /\ HistoryFile.Samples new = 1
       end.
Proof.
  intros Hnow Hwf. pose proof (Record_period_range now Hnow) as Hp.
  fold (HistoryFile.getPeriodIndex now) in Hp.
  rewrite (HistoryFile_current_stats hm) by exact Hnow.
  destruct (HistoryFile.backends hm !! addr) as [h|] eqn:Hh.
  - pose proof (Hwf addr h Hh) as Hlen.
    destruct (lookup_lt_is_Some_2 h (Z.to_nat (HistoryFile.getPeriodIndex now)))
      as [old Hold]; [lia|].
    destruct (HistoryFile_Record_known hm now addr L J h old Hnow Hh Hold)
      as (new & Hrec & Hupd).
    eexists _, new. split; [exact Hrec|].
    rewrite HistoryFile_current_stats by exact Hnow. cbn [HistoryFile.backends].
    rewrite lookup_insert_eq, list_lookup_insert_eq by lia.
    split; [reflexivity|]. rewrite Hold.
    split; [|exact Hupd].
    apply HistoryFile_wf_insert; [exact Hwf|]. rewrite length_insert. exact Hlen.
  - destruct (HistoryFile_Record_absent hm now addr L J Hnow Hh)
      as (new & Hrec & Hnew).
    eexists _, new. split; [exact Hrec|].
    rewrite HistoryFile_current_stats by exact Hnow. cbn [HistoryFile.backends].
    rewrite lookup_insert_eq, list_lookup_insert_eq
      by (rewrite length_replicate; lia).
    split; [reflexivity|]. split; [|exact Hnew].
    apply HistoryFile_wf_insert; [exact Hwf|].
    rewrite length_insert. apply length_replicate.
Qed.

Lemma HistoryDB_Record_ema now addr L J hm :
  valid_time now -> HistoryDB.wf hm ->
  exists hm' new,
    HistoryDB.Record_ now addr L J hm = Some hm'
    /\ HistoryDB.GetCurrentPeriodStats hm' now addr = Some new
    /\ HistoryDB.wf hm'
    /\ match HistoryDB.GetCurrentPeriodStats hm now addr with
       | Some old => HistoryDB_updated L J old new
       | None =>
           HistoryDB.AvgLatency new = L /\ HistoryDB.AvgJitter new = J
           /\ HistoryDB.Samples new = 1
       end.
Proof.
  intros Hnow Hwf. pose proof (Record_period_range now Hnow) as Hp.
  fold (HistoryDB.getPeriodIndex now) in Hp.
  assert (Hfresh : length HistoryDB.freshHistory = 96%nat) by reflexivity.
  rewrite (HistoryDB_current_stats hm) by exact Hnow.
  destruct (HistoryDB.cache hm !! addr) as [h|] eqn:Hh.
  - pose proof (Hwf addr h Hh) as Hlen.
    destruct (lookup_lt_is_Some_2 h (Z.to_nat (HistoryDB.getPeriodIndex now)))
      as [old Hold]; [lia|].
    destruct (HistoryDB_Record_known hm now addr L J h old Hnow Hh Hold)
      as (new & Hrec & Hupd).
    eexists _, new. split; [exact Hrec|].
    rewrite HistoryDB_current_stats by exact Hnow. cbn [HistoryDB.cache].
    rewrite lookup_insert_eq, list_lookup_insert_eq by lia.
    split; [reflexivity|]. rewrite Hold.
    split; [|exact Hupd].
    apply HistoryDB_wf_insert; [exact Hwf|]. rewrite length_insert. exact Hlen.
  - destruct (HistoryDB_Record_absent hm now addr L J Hnow Hh)
      as (new & Hrec & Hnew).
    eexists _, new. split; [exact Hrec|].
    rewrite HistoryDB_current_stats by exact Hnow. cbn [HistoryDB.cache].
    rewrite lookup_insert_eq, list_lookup_insert_eq by (rewrite Hfresh; lia).
    split; [reflexivity|]. split; [|exact Hnew].
    apply HistoryDB_wf_insert; [exact Hwf|].
    rewrite length_insert. exact Hfresh.
Qed.

(** C9. [Record(addr, L, J)] at a valid local time succeeds; if the slot of
    the current period had no sample (or the address was unknown) the new
    averages are [L] and [J], otherwise they are [0.1*L + 0.9*avg] and
    [0.1*J + 0.9*avgJitter] in [float64] arithmetic; the sample counter
    goes up by one (short of [int] overflow). Both versions of the store. *)
Theorem Record_applies_ema (now : Time) (addr : string) (L J : float) :
  valid_time now ->
  (forall hm : HistoryFile.HistoryManager,
     HistoryFile.wf hm ->
     exists hm' new,
       HistoryFile.Record_ now addr L J hm = Some hm'
       /\ HistoryFile.GetCurrentPeriodStats hm' now addr = Some new
       /\ HistoryFile.wf hm'
       /\ match HistoryFile.GetCurrentPeriodStats hm now addr with
          | Some old => HistoryFile_updated L J old new
          | None =>
              HistoryFile.AvgLatency new = L /\ HistoryFile.AvgJitter new = J
              /\ HistoryFile.Samples new = 1
          end)
  /\ (forall hm : HistoryDB.HistoryManager,
        HistoryDB.wf hm ->
        exists hm' new,
          HistoryDB.Record_ now addr L J hm = Some hm'
          /\ HistoryDB.GetCurrentPeriodStats hm' now addr = Some new
          /\ HistoryDB.wf hm'
          /\ match HistoryDB.GetCurrentPeriodStats hm now addr with
             | Some old => HistoryDB_updated L J old new
             | None =>
                 HistoryDB.AvgLatency new = L /\ HistoryDB.AvgJitter new = J
                 /\ HistoryDB.Samples new = 1
             end).
Proof.
  intros Hnow. split; intros hm Hwf.
  - apply HistoryFile_Record_ema; assumption.
  - apply HistoryDB_Record_ema; assumption.
Qed.

Lemma Record_applies_ema_witness :
  valid_time noon
  /\ exists hm' new,
       HistoryFile.Record_ noon "10.0.0.1:25565" 25 3 empty_history = Some hm'
       /\ HistoryFile.GetCurrentPeriodStats hm' noon "10.0.0.1:25565" = Some new
       /\ HistoryFile.AvgLatency new = 25%float.
Proof.
  assert (Hnow : valid_time noon) by (unfold valid_time; cbn; lia).
  split; [exact Hnow|].
  destruct (proj1 (Record_applies_ema noon "10.0.0.1:25565" 25 3 Hnow) empty_history)
    as (hm' & new & Hrec & Hget & _ & Hupd).
  { intros a h Hh. cbn in Hh. rewrite lookup_empty in Hh. discriminate. }
  exists hm', new. split; [exact Hrec|]. split; [exact Hget|].
  rewrite HistoryFile_current_stats in Hupd by exact Hnow.
  cbn in Hupd. rewrite lookup_empty in Hupd. apply Hupd.
Defined.

(** ** Hysteresis: the loop over successive ticks *)

Lemma checkBackend_success cfg p hm b :
  probeErr p = None -> disabled b = false -> 0 < windowSize b ->
  valid_time (recordTime p) -> HistoryFile.wf hm ->
  exists hm' b',
    checkBackend cfg p (hm, b) = Some (hm', b')
    /\ HistoryFile.wf hm' /\ windowSize b' = windowSize b /\ disabled b' = false
    /\ failCount b' = 0
    /\ (healthy b = true ->
        healthy b' = true /\ trustCoeff b' = trustCoeff (IncreaseTrust b))
    /\ (healthy b = false ->
        if int32 (successCount b + 1) >=? int32 (HealthyAfterSuccesses cfg)
        then healthy b' = true /\ trustCoeff b' = 50 /\ successCount b' = 0
        else healthy b' = false /\ trustCoeff b' = trustCoeff b
             /\ successCount b' = int32 (successCount b + 1)).
Proof.
  intros Herr Hd Hws Hnow Hwf.
  unfold checkBackend, IsDisabled. rewrite Hd, Herr.
  destruct (RecordLatency_total (probeLatency p)
              (SetLastCheckTime (UnixNano (probeTime p)) b))
    as (b1 & Hrec & Hws1 & _ & Hh1 & Hd1 & Hf1 & Hs1 & Ht1 & Ha1); [exact Hws|].
  rewrite Hrec. cbn [mbind option_bind].
  destruct (HistoryFile_Record_ema (recordTime p) (Addr b1)
              (GoFloat.of_int (Milliseconds (probeLatency p))) (Jitter b1) hm Hnow Hwf)
    as (hm1 & new & Hrec1 & _ & Hwf1 & _).
  rewrite Hrec1. cbn [mbind option_bind].
  cbn in Hws1, Hh1, Hd1, Hf1, Hs1, Ht1.
  unfold IsHealthy, SuccessCount, RecordHealthCheckSuccess, SetHealthy, ResetTrust,
    ResetSuccessCount.
  cbn [failCount healthy set_failCount set_successCount set_healthy
       set_trustCoeff successCount].
  rewrite Hh1, Hs1.
  destruct (healthy b) eqn:Hh; cbn [negb].
  - eexists _, _. split; [reflexivity|].
    unfold IncreaseTrust.
    cbn [trustCoeff set_failCount set_successCount].
    rewrite Ht1. split; [exact Hwf1|].
    destruct (trustCoeff b <? 100); cbn; rewrite ?Hws1, ?Hd1, ?Hh1, ?Ht1;
      repeat split; try discriminate; try assumption.
  - destruct (int32 (successCount b + 1) >=? int32 (HealthyAfterSuccesses cfg));
      eexists _, _; (split; [reflexivity|]); cbn;
      rewrite ?Hws1, ?Hd1, ?Hh1, ?Ht1; repeat split;
      try discriminate; try assumption.
Qed.

Lemma leadingRun_le (f : Probe -> bool) (ps : list Probe) :
  (leadingRun f ps <= length ps)%nat.
Proof.
  induction ps as [|p ps IH]; cbn [leadingRun length]; [lia|].
  destruct (f p); lia.
Qed.

Lemma streaks_bounds (ps : list Probe) :
  0 <= failureStreak ps <= Z.of_nat (length ps)
  /\ 0 <= successStreak ps <= Z.of_nat (length ps).
Proof.
  unfold failureStreak, successStreak.
  pose proof (leadingRun_le probeFailed (reverse ps)) as H1.
  pose proof (leadingRun_le (fun p => negb (probeFailed p)) (reverse ps)) as H2.
  rewrite length_reverse in H1, H2. lia.
Qed.

Lemma streaks_snoc (ps : list Probe) (p : Probe) :
  (probeErr p <> None ->
     failureStreak (ps ++ [p]) = failureStreak ps + 1
     /\ successStreak (ps ++ [p]) = 0)
  /\ (probeErr p = None ->
     failureStreak (ps ++ [p]) = 0
     /\ successStreak (ps ++ [p]) = successStreak ps + 1).
Proof.
  unfold failureStreak, successStreak, probeFailed.
  rewrite reverse_snoc. cbn [leadingRun].
  destruct (probeErr p) as [e|]; cbn [negb]; split; intros H; try congruence;
    split; lia.
Qed.

(** A successful probe on an enabled backend, read off the result. *)
Lemma checkBackend_success_inv cfg p hm b hm' b' :
  probeErr p = None -> disabled b = false ->
  checkBackend cfg p (hm, b) = Some (hm', b') ->
  failCount b' = 0 /\ disabled b' = false
  /\ (healthy b = true ->
      healthy b' = true /\ successCount b' = int32 (successCount b + 1))
  /\ (healthy b = false ->
      if int32 (successCount b + 1) >=? int32 (HealthyAfterSuccesses cfg)
      then healthy b' = true /\ trustCoeff b' = 50 /\ successCount b' = 0
      else healthy b' = false /\ successCount b' = int32 (successCount b + 1)).
Proof.
  intros Herr Hd. unfold checkBackend, IsDisabled. rewrite Hd, Herr.
  destruct (RecordLatency (probeLatency p) _) as [b1|] eqn:Hrec; [|discriminate].
  apply RecordLatency_inv in Hrec as [w ->]. cbn [mbind option_bind].
  destruct (HistoryFile.Record_ _ _ _ _ hm) as [hm1|]; [|discriminate].
  cbn [mbind option_bind].
  unfold RecordHealthCheckSuccess, SuccessCount, IsHealthy, SetHealthy,
    ResetTrust, ResetSuccessCount, IncreaseTrust, SetLastCheckTime.
  cbn [healthy successCount set_latencyWindow set_lastCheckTime set_failCount
       set_successCount trustCoeff].
  destruct (healthy b) eqn:Hh; cbn [negb].
  - destruct (trustCoeff b <? 100); intros [= <- <-]; cbn; rewrite ?Hd, ?Hh;
      repeat split; intros; congruence.
  - destruct (int32 (successCount b + 1) >=? int32 (HealthyAfterSuccesses cfg));
      intros [= <- <-]; cbn; rewrite ?Hd, ?Hh; repeat split; intros; congruence.
Qed.

(** In the loop the two counters are streaks: after any run of probes on an
    enabled backend whose counters start at zero, the failure counter is the
    number of failed probes since the last success, and the success counter
    of an unhealthy backend the number of successful probes since the last
    failure. *)
Lemma runChecks_streaks cfg ps hm b hm' b' :
  disabled b = false -> failCount b = 0 -> successCount b = 0 ->
  Z.of_nat (length ps) < 2 ^ 31 ->
  runChecks cfg ps (hm, b) = Some (hm', b') ->
  disabled b' = false
  /\ failCount b' = failureStreak ps
  /\ 0 <= successCount b' <= successStreak ps
  /\ (healthy b' = false -> successCount b' = successStreak ps).
Proof.
  intros Hd Hfc Hsc. revert hm' b'.
  induction ps as [|p ps IH] using rev_ind; intros hm' b' Hlen.
  - intros [= <- <-]. unfold failureStreak, successStreak. cbn.
    repeat split; try assumption; lia.
  - rewrite length_app in Hlen. cbn [length] in Hlen.
    change (2 ^ 31) with 2147483648 in *.
    rewrite runChecks_app.
    destruct (runChecks cfg ps (hm, b)) as [[hm1 b1]|] eqn:Hrun;
      cbn [mbind option_bind runChecks]; [|discriminate].
    destruct (checkBackend cfg p (hm1, b1)) as [[hm2 b2]|] eqn:Hstep;
      cbn [mbind option_bind]; [|discriminate].
    intros [= <- <-].
    destruct (IH hm1 b1 ltac:(lia) eq_refl) as (Hd1 & Hf1 & Hs1 & Hu1).
    destruct (streaks_bounds ps) as [Hfb Hsb].
    destruct (streaks_snoc ps p) as [Hfail Hok].
    destruct (probeErr p) as [e|] eqn:Herr.
    + destruct (Hfail ltac:(discriminate)) as [-> ->].
      destruct (checkBackend_failure cfg p hm1 b1 e Herr Hd1)
        as (b3 & Hb3 & Hf3 & Hs3 & Hd3 & _).
      rewrite Hb3 in Hstep. injection Hstep as <- <-.
      rewrite Hf3, Hs3, Hf1.
      rewrite int32_id by (unfold in_int32; change (2 ^ 31) with 2147483648; lia).
      repeat split; try assumption; lia.
    + destruct (Hok eq_refl) as [-> ->].
      destruct (checkBackend_success_inv cfg p hm1 b1 hm2 b2 Herr Hd1 Hstep)
        as (Hf2 & Hd2 & Hhealthy & Hunhealthy).
      split; [exact Hd2|]. split; [exact Hf2|].
      destruct (healthy b1) eqn:Hh1.
      * destruct (Hhealthy eq_refl) as [Hh2 Hs2]. rewrite Hs2.
        rewrite int32_id by (unfold in_int32; change (2 ^ 31) with 2147483648; lia).
        split; [lia|]. intros Hbad. congruence.
      * specialize (Hunhealthy eq_refl). specialize (Hu1 eq_refl).
        destruct (int32 (successCount b1 + 1) >=? int32 (HealthyAfterSuccesses cfg)).
        -- destruct Hunhealthy as (Hh2 & _ & Hs2). rewrite Hs2.
           split; [lia|]. intros Hbad. congruence.
        -- destruct Hunhealthy as (Hh2 & Hs2). rewrite Hs2, Hu1.
           rewrite int32_id
             by (unfold in_int32; change (2 ^ 31) with 2147483648; lia).
           split; [lia|]. intros _. reflexivity.
Qed.

(** C3. In one iteration of the health-check loop a backend goes from
    healthy to unhealthy only on a failed probe that brings the failure
    counter to the threshold [U] or beyond, and from unhealthy to healthy
    only on a successful probe that brings the success counter to [H] or
    beyond, in which case trust is reset to 50 percent and the success
    counter to zero. From a healthy backend with a zero failure counter, [U]
    failing probes in a row make it unhealthy and fewer than [U] do not.
    The counters are consecutive counts: over any run of probes on an
    enabled backend whose counters start at zero, the failure counter is the
    number of failed probes since the last successful one and, while the
    backend is unhealthy, the success counter is the number of successful
    probes since the last failed one; so a flip to unhealthy happens only
    at the end of at least [U] consecutive failures, and a flip to healthy
    only at the end of at least [H] consecutive successes. *)
Theorem health_transitions (cfg : HealthCheckConfig) :
  1 <= UnhealthyAfterFailures cfg < 2 ^ 31 ->
  (* single iteration *)
  (forall p hm b hm' b',
     checkBackend cfg p (hm, b) = Some (hm', b') ->
     (healthy b = true -> healthy b' = false ->
        probeErr p <> None
        /\ FailCount b' = int32 (failCount b + 1)
        /\ FailCount b' >= int32 (UnhealthyAfterFailures cfg))
     /\ (healthy b = false -> healthy b' = true ->
        probeErr p = None
        /\ int32 (successCount b + 1) >= int32 (HealthyAfterSuccesses cfg)
        /\ trustCoeff b' = 50
        /\ SuccessCount b' = 0))
  (* the iteration returns: always on a failed probe, and on a successful
     one when the window has room and the clock is valid *)
  /\ (forall p hm b,
        failing p \/ (0 < windowSize b /\ valid_time (recordTime p)
                      /\ HistoryFile.wf hm) ->
        is_Some (checkBackend cfg p (hm, b)))
  (* runs of failing probes *)
  /\ (forall ps hm b,
        Forall failing ps ->
        disabled b = false -> healthy b = true -> failCount b = 0 ->
        (Z.of_nat (length ps) = UnhealthyAfterFailures cfg ->
           exists b', runChecks cfg ps (hm, b) = Some (hm, b')
                      /\ healthy b' = false)
        /\ (Z.of_nat (length ps) < UnhealthyAfterFailures cfg ->
           exists b', runChecks cfg ps (hm, b) = Some (hm, b')
                      /\ healthy b' = true))
  (* the counters are streaks *)
  /\ (forall ps hm b hm' b',
        disabled b = false -> failCount b = 0 -> successCount b = 0 ->
        Z.of_nat (length ps) < 2 ^ 31 ->
        runChecks cfg ps (hm, b) = Some (hm', b') ->
        FailCount b' = failureStreak ps
        /\ SuccessCount b' <= successStreak ps
        /\ (healthy b' = false -> SuccessCount b' = successStreak ps))
  (* a flip ends a streak that has reached the threshold *)
  /\ (forall ps p hm b hm1 b1 hm2 b2,
        disabled b = false -> failCount b = 0 -> successCount b = 0 ->
        Z.of_nat (length ps) + 1 < 2 ^ 31 ->
        runChecks cfg ps (hm, b) = Some (hm1, b1) ->
        checkBackend cfg p (hm1, b1) = Some (hm2, b2) ->
        (healthy b1 = true -> healthy b2 = false ->
           UnhealthyAfterFailures cfg <= failureStreak (ps ++ [p]))
        /\ (healthy b1 = false -> healthy b2 = true ->
            - 2 ^ 31 <= HealthyAfterSuccesses cfg < 2 ^ 31 ->
            HealthyAfterSuccesses cfg <= successStreak (ps ++ [p])
            /\ trustCoeff b2 = 50 /\ SuccessCount b2 = 0)).
Proof.
  intros HU. split; [|split; [|split; [|split]]].
  - intros p hm b hm' b'. apply checkBackend_flip.
  - intros p hm b Hcase.
    destruct (disabled b) eqn:Hd.
    { rewrite checkBackend_disabled by exact Hd. eexists; reflexivity. }
    destruct Hcase as [Hfail|(Hws & Hnow & Hwf)].
    + destruct (probeErr p) as [e|] eqn:Herr; [|exfalso; apply Hfail, Herr].
      destruct (checkBackend_failure cfg p hm b e Herr Hd) as (b1 & -> & _).
      eexists; reflexivity.
    + destruct (probeErr p) as [e|] eqn:Herr.
      * destruct (checkBackend_failure cfg p hm b e Herr Hd) as (b1 & -> & _).
        eexists; reflexivity.
      * destruct (checkBackend_success cfg p hm b Herr Hd Hws Hnow Hwf)
          as (hm1 & b1 & -> & _).
        eexists; reflexivity.
  - intros ps hm b Hps Hd Hh Hfc. split; intros Hlen.
    + destruct ps as [|p0 ps0] using rev_ind; [cbn in Hlen; lia|].
      clear IHps0. rewrite length_app in Hlen. cbn [length] in Hlen.
      apply Forall_app in Hps as [Hps0 Hp0].
      apply Forall_cons in Hp0 as [Hp0 _].
      destruct (failing_run_below cfg ps0 hm b HU Hps0 Hd Hh)
        as (b1 & Hrun & Hh1 & Hd1 & Hfc1); [lia|lia|].
      rewrite runChecks_app, Hrun. cbn [mbind option_bind runChecks].
      destruct (probeErr p0) as [e|] eqn:Herr; [|exfalso; apply Hp0, Herr].
      destruct (checkBackend_failure cfg p0 hm b1 e Herr Hd1)
        as (b2 & Hb2 & _ & _ & _ & _ & Hh2).
      rewrite Hb2. cbn [mbind option_bind]. exists b2. split; [reflexivity|].
      rewrite Hh2, Hh1, Hfc1, Hfc.
      rewrite !int32_id by (unfold in_int32; lia).
      destruct (Z.geb_spec (0 + Z.of_nat (length ps0) + 1)
                  (UnhealthyAfterFailures cfg)); [reflexivity|lia].
    + destruct (failing_run_below cfg ps hm b HU Hps Hd Hh)
        as (b1 & Hrun & Hh1 & _); [lia|lia|].
      exists b1. split; assumption.
  - intros ps hm b hm' b' Hd Hfc Hsc Hlen Hrun.
    destruct (runChecks_streaks cfg ps hm b hm' b' Hd Hfc Hsc Hlen Hrun)
      as (_ & Hf & [_ Hs] & Hu).
    unfold FailCount, SuccessCount. split; [exact Hf|]. split; [exact Hs|exact Hu].
  - intros ps p hm b hm1 b1 hm2 b2 Hd Hfc Hsc Hlen Hrun Hstep.
    change (2 ^ 31) with 2147483648 in *.
    destruct (runChecks_streaks cfg ps hm b hm1 b1 Hd Hfc Hsc) as (_ & Hf1 & Hs1 & Hu1);
      [change (2 ^ 31) with 2147483648; lia|exact Hrun|].
    destruct (streaks_bounds ps) as [Hfb Hsb].
    destruct (streaks_snoc ps p) as [Hfail Hok].
    destruct (checkBackend_flip cfg p hm1 b1 hm2 b2 Hstep) as [Hdown Hup].
    split.
    + intros Hh1 Hh2. destruct (Hdown Hh1 Hh2) as (Herr & Hf2 & Hge).
      destruct (Hfail Herr) as [-> _]. rewrite Hf2, Hf1 in Hge.
      rewrite !int32_id in Hge
        by (unfold in_int32; change (2 ^ 31) with 2147483648; lia).
      lia.
    + intros Hh1 Hh2 HH. destruct (Hup Hh1 Hh2) as (Herr & Hge & Ht & Hs2).
      destruct (Hok Herr) as [_ ->]. rewrite (Hu1 Hh1) in Hge.
      rewrite !int32_id in Hge
        by (unfold in_int32; change (2 ^ 31) with 2147483648; lia).
      split; [lia|]. split; assumption.
Qed.

Lemma health_transitions_witness :
  1 <= UnhealthyAfterFailures example_cfg < 2 ^ 31
  /\ (exists b', runChecks example_cfg [failed_probe; failed_probe; failed_probe]
                   (empty_history, example_backend) = Some (empty_history, b')
                 /\ healthy b' = false)
  /\ (exists b', runChecks example_cfg [failed_probe; failed_probe]
                   (empty_history, example_backend) = Some (empty_history, b')
                 /\ healthy b' = true)
  /\ (exists hm' b',
        runChecks example_cfg
          [failed_probe; failed_probe; mkProbe 0 None noon noon;
           failed_probe; failed_probe]
          (empty_history, example_backend) = Some (hm', b')
        /\ healthy b' = true /\ FailCount b' = 2).
Proof.
  assert (HU : 1 <= UnhealthyAfterFailures example_cfg < 2 ^ 31) by (cbn; lia).
  split; [exact HU|].
  assert (Hf : failing failed_probe) by (unfold failing; cbn; discriminate).
  destruct (health_transitions example_cfg HU) as (_ & _ & Hruns & Hstreaks & _).
  split; [|split].
  - apply (Hruns [failed_probe; failed_probe; failed_probe]);
      [repeat constructor; exact Hf|reflexivity|reflexivity|reflexivity|reflexivity].
  - apply (Hruns [failed_probe; failed_probe]);
      [repeat constructor; exact Hf|reflexivity|reflexivity|reflexivity|cbn; lia].
  - destruct (runChecks example_cfg
                [failed_probe; failed_probe; mkProbe 0 None noon noon;
                 failed_probe; failed_probe]
                (empty_history, example_backend)) as [[hm' b']|] eqn:Hrun;
      [|vm_compute in Hrun; discriminate].
    exists hm', b'. split; [reflexivity|].
    assert (Hlen : Z.of_nat (length [failed_probe; failed_probe;
                                     mkProbe 0 None noon noon;
                                     failed_probe; failed_probe]) < 2 ^ 31)
      by (cbn; lia).
    destruct (Hstreaks _ empty_history example_backend hm' b'
                eq_refl eq_refl eq_refl Hlen Hrun) as (Hfc & _ & _).
    split; [|rewrite Hfc; reflexivity].
    vm_compute in Hrun. injection Hrun as _ <-. reflexivity.
Defined.

(** ** Historical score adjustment *)

Ltac float_cases :=
  repeat match goal with
         | |- context [if ?c then _ else _] => destruct c eqn:?
         end.

Lemma seeded_history_stats :
  HistoryFile.GetCurrentPeriodStats seeded_history noon "R"
  = Some (HistoryFile.mkPeriodStats 50 5 50 37 "09:15-09:30").
Proof.
  rewrite HistoryFile_current_stats by (unfold valid_time; cbn; lia).
  unfold seeded_history. cbn [HistoryFile.backends].
  rewrite lookup_singleton_eq. reflexivity.
Qed.

(** Counterexample to C6 as stated: with 50 samples and a 50 ms average, a
    current latency of 0 has ratio [0 < 0.70], yet the latency term is 0, not
    [+8], because the code compares only positive values. *)
Lemma HistoricalScore_zero_latency_not_rewarded :
  ~ (forall (hm : HistoryFile.HistoryManager) now addr curL curJ stats,
       HistoryFile.GetCurrentPeriodStats hm now addr = Some stats ->
       20 <= HistoryFile.Samples stats ->
       HistoryFile.HistoricalScore hm now addr curL curJ
       = latency_adjust_spec (curL / HistoryFile.AvgLatency stats)
         + jitter_adjust_spec (curJ / HistoryFile.AvgJitter stats)).
Proof.
  intros H.
  specialize (H seeded_history noon "R" 0%float 5%float _ seeded_history_stats).
  unfold HistoryFile.HistoricalScore in H. rewrite seeded_history_stats in H.
  cbn [HistoryFile.Samples] in H. specialize (H ltac:(lia)).
  vm_compute in H. discriminate.
Qed.

Lemma HistoryFile_score_cases stats curL curJ :
  let score :=
    (if both_positive (HistoryFile.AvgLatency stats) curL
     then latency_adjust_spec (curL / HistoryFile.AvgLatency stats) else 0)
    + (if both_positive (HistoryFile.AvgJitter stats) curJ
       then jitter_adjust_spec (curJ / HistoryFile.AvgJitter stats) else 0) in
  forall hm now addr,
    HistoryFile.GetCurrentPeriodStats hm now addr = Some stats ->
    20 <= HistoryFile.Samples stats ->
    HistoryFile.HistoricalScore hm now addr curL curJ = score
    /\ -12 <= score <= 12.
Proof.
  intros score hm now addr Hget Hs. subst score.
  unfold HistoryFile.HistoricalScore. rewrite Hget.
  unfold HistoryFile.minSamplesForUse.
  destruct (Z.ltb_spec (HistoryFile.Samples stats) 20); [lia|].
  unfold both_positive, latency_adjust_spec, jitter_adjust_spec.
  destruct (0 <? HistoryFile.AvgLatency stats)%float,
           (0 <? curL)%float,
           (0 <? HistoryFile.AvgJitter stats)%float,
           (0 <? curJ)%float; cbn [andb];
    float_cases; vm_compute; (split; [reflexivity|split; discriminate]).
Qed.

Lemma HistoryDB_score_cases stats curL curJ :
  let score :=
    (if both_positive (HistoryDB.AvgLatency stats) curL
     then latency_adjust_spec (curL / HistoryDB.AvgLatency stats) else 0)
    + (if both_positive (HistoryDB.AvgJitter stats) curJ
       then jitter_adjust_spec (curJ / HistoryDB.AvgJitter stats) else 0) in
  forall hm now addr,
    HistoryDB.GetCurrentPeriodStats hm now addr = Some stats ->
    20 <= HistoryDB.Samples stats ->
    HistoryDB.HistoricalScore hm now addr curL curJ = score
    /\ -12 <= score <= 12.
Proof.
  intros score hm now addr Hget Hs. subst score.
  unfold HistoryDB.HistoricalScore. rewrite Hget.
  unfold HistoryDB.minSamplesForUse.
  destruct (Z.ltb_spec (HistoryDB.Samples stats) 20); [lia|].
  unfold both_positive, latency_adjust_spec, jitter_adjust_spec.
  destruct (0 <? HistoryDB.AvgLatency stats)%float,
           (0 <? curL)%float,
           (0 <? HistoryDB.AvgJitter stats)%float,
           (0 <? curJ)%float; cbn [andb];
    float_cases; vm_compute; (split; [reflexivity|split; discriminate]).
Qed.

(** C6 (amended). [HistoricalScore] is 0 when the address has no history or
    the current period holds fewer than 20 samples (19 included); otherwise
    it is the sum of a latency term and a jitter term and lies in
    [[-12, 12]]. Each term applies the thresholds to the ratio [curr/avg]
    only when both the stored average and the current value are positive,
    and is 0 otherwise. Both versions of the store. *)
Theorem HistoricalScore_thresholds (now : Time) (addr : string)
    (curL curJ : float) :
  (forall hm : HistoryFile.HistoryManager,
     (HistoryFile.GetCurrentPeriodStats hm now addr = None ->
        HistoryFile.HistoricalScore hm now addr curL curJ = 0)
     /\ (forall stats,
           HistoryFile.GetCurrentPeriodStats hm now addr = Some stats ->
           HistoryFile.Samples stats < 20 ->
           HistoryFile.HistoricalScore hm now addr curL curJ = 0)
     /\ (forall stats,
           HistoryFile.GetCurrentPeriodStats hm now addr = Some stats ->
           20 <= HistoryFile.Samples stats ->
           HistoryFile.HistoricalScore hm now addr curL curJ
           = (if both_positive (HistoryFile.AvgLatency stats) curL
              then latency_adjust_spec (curL / HistoryFile.AvgLatency stats)
              else 0)
             + (if both_positive (HistoryFile.AvgJitter stats) curJ
                then jitter_adjust_spec (curJ / HistoryFile.AvgJitter stats)
                else 0))
     /\ -12 <= HistoryFile.HistoricalScore hm now addr curL curJ <= 12)
  /\ (forall hm : HistoryDB.HistoryManager,
        (HistoryDB.GetCurrentPeriodStats hm now addr = None ->
           HistoryDB.HistoricalScore hm now addr curL curJ = 0)
        /\ (forall stats,
              HistoryDB.GetCurrentPeriodStats hm now addr = Some stats ->
              HistoryDB.Samples stats < 20 ->
              HistoryDB.HistoricalScore hm now addr curL curJ = 0)
        /\ (forall stats,
              HistoryDB.GetCurrentPeriodStats hm now addr = Some stats ->
              20 <= HistoryDB.Samples stats ->
              HistoryDB.HistoricalScore hm now addr curL curJ
              = (if both_positive (HistoryDB.AvgLatency stats) curL
                 then latency_adjust_spec (curL / HistoryDB.AvgLatency stats)
                 else 0)
                + (if both_positive (HistoryDB.AvgJitter stats) curJ
                   then jitter_adjust_spec (curJ / HistoryDB.AvgJitter stats)
                   else 0))
        /\ -12 <= HistoryDB.HistoricalScore hm now addr curL curJ <= 12).
Proof.
  split; intros hm.
  - assert (Hnone : HistoryFile.GetCurrentPeriodStats hm now addr = None ->
                    HistoryFile.HistoricalScore hm now addr curL curJ = 0).
    { intros Hget. unfold HistoryFile.HistoricalScore. rewrite Hget. reflexivity. }
    assert (Hfew : forall stats,
               HistoryFile.GetCurrentPeriodStats hm now addr = Some stats ->
               HistoryFile.Samples stats < 20 ->
               HistoryFile.HistoricalScore hm now addr curL curJ = 0).
    { intros stats Hget Hs. unfold HistoryFile.HistoricalScore. rewrite Hget.
      unfold HistoryFile.minSamplesForUse.
      destruct (Z.ltb_spec (HistoryFile.Samples stats) 20); [reflexivity|lia]. }
    split; [exact Hnone|]. split; [exact Hfew|]. split.
    + intros stats Hget Hs.
      apply (HistoryFile_score_cases stats curL curJ hm now addr Hget Hs).
    + destruct (HistoryFile.GetCurrentPeriodStats hm now addr) as [stats|] eqn:Hget.
      * destruct (Z.lt_ge_cases (HistoryFile.Samples stats) 20) as [Hs|Hs].
        -- rewrite (Hfew stats eq_refl Hs). lia.
        -- destruct (HistoryFile_score_cases stats curL curJ hm now addr Hget Hs)
             as [-> Hrange]. exact Hrange.
      * rewrite (Hnone eq_refl). lia.
  - assert (Hnone : HistoryDB.GetCurrentPeriodStats hm now addr = None ->
                    HistoryDB.HistoricalScore hm now addr curL curJ = 0).
    { intros Hget. unfold HistoryDB.HistoricalScore. rewrite Hget. reflexivity. }
    assert (Hfew : forall stats,
               HistoryDB.GetCurrentPeriodStats hm now addr = Some stats ->
               HistoryDB.Samples stats < 20 ->
               HistoryDB.HistoricalScore hm now addr curL curJ = 0).
    { intros stats Hget Hs. unfold HistoryDB.HistoricalScore. rewrite Hget.
      unfold HistoryDB.minSamplesForUse.
      destruct (Z.ltb_spec (HistoryDB.Samples stats) 20); [reflexivity|lia]. }
    split; [exact Hnone|]. split; [exact Hfew|]. split.
    + intros stats Hget Hs.
      apply (HistoryDB_score_cases stats curL curJ hm now addr Hget Hs).
    + destruct (HistoryDB.GetCurrentPeriodStats hm now addr) as [stats|] eqn:Hget.
      * destruct (Z.lt_ge_cases (HistoryDB.Samples stats) 20) as [Hs|Hs].
        -- rewrite (Hfew stats eq_refl Hs). lia.
        -- destruct (HistoryDB_score_cases stats curL curJ hm now addr Hget Hs)
             as [-> Hrange]. exact Hrange.
      * rewrite (Hnone eq_refl). lia.
Qed.

(** The seeded scenario: against a 50 ms average, 25 ms earns [+8], 65 ms
    costs 4, 80 ms (ratio 1.6) costs 8, and 0 ms earns nothing. *)
Lemma HistoricalScore_thresholds_witness :
  HistoryFile.HistoricalScore seeded_history noon "R" 25 5 = 8
  /\ HistoryFile.HistoricalScore seeded_history noon "R" 65 5 = -4
  /\ HistoryFile.HistoricalScore seeded_history noon "R" 80 5 = -8
  /\ HistoryFile.HistoricalScore seeded_history noon "R" 0 5 = 0.
Proof.
  split; [|split; [|split]].
  - rewrite (proj1 (proj2 (proj2 (proj1 (HistoricalScore_thresholds noon "R" 25 5)
                                     seeded_history)))
               _ seeded_history_stats ltac:(cbn; lia)).
    vm_compute. reflexivity.
  - rewrite (proj1 (proj2 (proj2 (proj1 (HistoricalScore_thresholds noon "R" 65 5)
                                     seeded_history)))
               _ seeded_history_stats ltac:(cbn; lia)).
    vm_compute. reflexivity.
  - rewrite (proj1 (proj2 (proj2 (proj1 (HistoricalScore_thresholds noon "R" 80 5)
                                     seeded_history)))
               _ seeded_history_stats ltac:(cbn; lia)).
    vm_compute. reflexivity.
  - rewrite (proj1 (proj2 (proj2 (proj1 (HistoricalScore_thresholds noon "R" 0 5)
                                     seeded_history)))
               _ seeded_history_stats ltac:(cbn; lia)).
    vm_compute. reflexivity.
Defined.

(** ** Selection by health score *)



(** The second loop keeps the first backend whose score is the greatest,
    among those that beat the initial [bestScore]. *)
Lemma pickBest_from (score : Backend -> Z) (l : list Backend)
    (best : option Backend) (bestScore : Z) :
  let r := fold_left
             (fun '(best, bestScore) b =>
                if score b >? bestScore then (Some b, score b)
                else (best, bestScore))
             l (best, bestScore) in
  (r = (best, bestScore) /\ forall b, b ∈ l -> score b <= bestScore)
  \/ (exists b, r = (Some b, score b) /\ bestScore < score b /\ first_max score l b).
Proof.
  revert best bestScore.
  induction l as [|a l IH]; intros best bestScore; cbn [fold_left].
  - left. split; [reflexivity|]. intros b Hb. inversion Hb.
  - destruct (Z.gtb_spec (score a) bestScore) as [Hgt|Hle].
    + right. destruct (IH (Some a) (score a)) as [[Hr Hall]|(b & Hr & Hlt & i & Hi & Hmax & Hfirst)].
      * exists a. split; [exact Hr|]. split; [lia|].
        exists 0%nat. split; [reflexivity|]. split.
        -- intros [|j] b' Hj; cbn in Hj.
           ++ injection Hj as <-. lia.
           ++ apply Hall. eapply list_elem_of_lookup_2, Hj.
        -- intros j b' Hj. lia.
      * exists b. split; [exact Hr|]. split; [lia|].
        exists (S i). split; [exact Hi|]. split.
        -- intros [|j] b' Hj; cbn in Hj.
           ++ injection Hj as <-. lia.
           ++ eapply Hmax, Hj.
        -- intros [|j] b' Hji Hj; cbn in Hj.
           ++ injection Hj as <-. lia.
           ++ eapply (Hfirst j); [lia|exact Hj].
    + destruct (IH best bestScore) as [[Hr Hall]|(b & Hr & Hlt & i & Hi & Hmax & Hfirst)].
      * left. split; [exact Hr|]. intros b Hb.
        apply elem_of_cons in Hb as [->|Hb]; [lia|apply Hall, Hb].
      * right. exists b. split; [exact Hr|]. split; [exact Hlt|].
        exists (S i). split; [exact Hi|]. split.
        -- intros [|j] b' Hj; cbn in Hj.
           ++ injection Hj as <-. lia.
           ++ eapply Hmax, Hj.
        -- intros [|j] b' Hji Hj; cbn in Hj.
           ++ injection Hj as <-. lia.
           ++ eapply (Hfirst j); [lia|exact Hj].
Qed.

Lemma Select_unfold backends jitterThreshold history now :
  Select backends jitterThreshold history now
  = if Z.of_nat (length (filterAvailable backends)) =? 0 then None
    else fst (pickBest
                (selectScore history now
                   (fst (selectMinima (filterAvailable backends)))
                   (snd (selectMinima (filterAvailable backends))))
                (filterAvailable backends)).
Proof.
  unfold Select, selectMinima.
  destruct (Z.of_nat (length (filterAvailable backends)) =? 0); [reflexivity|].
  destruct (minima (filterAvailable backends)) as [ml mj]. reflexivity.
Qed.


(** The selection for any history: the first available backend with the
    greatest total score, when that score is not negative. *)
Lemma Select_first_max backends jitterThreshold history now :
  let available := filterAvailable backends in
  let score := selectScore history now (fst (selectMinima available))
                 (snd (selectMinima available)) in
  match Select backends jitterThreshold history now with
  | Some b => first_max score available b /\ 0 <= score b
  | None => forall b, b ∈ available -> score b < 0
  end.
Proof.
  intros available score. rewrite Select_unfold. fold available. fold score.
  destruct (Z.eqb_spec (Z.of_nat (length available)) 0) as [Hlen|Hlen].
  - intros b Hb. destruct available; [inversion Hb|cbn in Hlen; lia].
  - unfold pickBest.
    destruct (pickBest_from score available None (-1))
      as [[-> Hall]|(b & -> & Hlt & Hfirst)]; cbn [fst].
    + intros b Hb. specialize (Hall b Hb). lia.
    + split; [exact Hfirst|lia].
Qed.

(** *** The order of [float64] comparisons *)










(** *** The first loop of [Select] finds the least positive value *)







(** A second way to miss the minimum: a backend without samples has
    [AvgLatency = 0], takes the full latency term, and wins when it comes
    first. *)
Example Select_unsampled_backend_first :
  Select [backend_nodata; backend_10] 0.5%float None noon = Some backend_nodata
  /\ AvgLatency backend_nodata = 0%float
  /\ AvgLatency backend_10 = 10%float
  /\ RelativeHealthScore backend_nodata 10 1 = 100
  /\ RelativeHealthScore backend_10 10 1 = 100.
Proof. repeat split; vm_compute; reflexivity. Qed.

(** The scenario of the design document: [P] scores 100, [Q] 37, in either
    order [P] is selected. *)
Example Select_relative_scoring :
  Select [backend_Q; backend_P] 0.5%float None noon = Some backend_P
  /\ Select [backend_P; backend_Q] 0.5%float None noon = Some backend_P
  /\ selectMinima [backend_Q; backend_P] = (10%float, 1%float).
Proof. repeat split; vm_compute; reflexivity. Qed.



(** ** Status probe *)

Section ProbeFacts.

Variable SplitHostPort : string -> string * string.
Variable Sscanf_d : string -> option Z.

(** Whatever the network does, the latency that [MCPing] returns is the
    time between two adjacent clock readings. *)
Lemma MCPing_latency_zero b timeout n n' latency err :
  MCPing SplitHostPort Sscanf_d b timeout n = Some (n', (latency, err)) ->
  latency = 0.
Proof.
  unfold MCPing, time_Since, time_Now. rewrite Z.sub_diag.
  destruct (DialContext (clock n + timeout) n) as [n1 [e|]].
  - intros [= _ <- _]. reflexivity.
  - destruct (MCPingConn _ _ _ _ _) as [[n2 [e|]]|]; cbn [mbind option_bind];
      [intros [= _ <- _]; reflexivity|intros [= _ <- _]; reflexivity|discriminate].
Qed.

(** A failed dial is a failed probe. *)
Lemma MCPing_dial_failure b timeout n :
  dialOK n = false \/ clock n + timeout < clock n + dialTime n ->
  exists n', MCPing SplitHostPort Sscanf_d b timeout n = Some (n', (0, Some ErrDial)).
Proof.
  intros Hfail. unfold MCPing, time_Since, time_Now, DialContext.
  rewrite Z.sub_diag.
  destruct (dialOK n && (clock n + dialTime n <=? clock n + timeout)) eqn:E.
  - apply andb_true_iff in E as [E1 E2]. apply Z.leb_le in E2.
    destruct Hfail as [Hd|Hlate]; [congruence|lia].
  - eexists. reflexivity.
Qed.

(** An error of the status exchange is an error of the probe. *)
Lemma MCPing_exchange_failure b timeout n n1 n2 e :
  DialContext (clock n + timeout) n = (n1, None) ->
  MCPingConn SplitHostPort Sscanf_d (SetDeadline (clock n + timeout) n1)
    (Addr b) timeout = Some (n2, Some e) ->
  MCPing SplitHostPort Sscanf_d b timeout n = Some (n2, (0, Some e)).
Proof.
  intros Hdial Hconn. unfold MCPing, time_Since, time_Now.
  rewrite Z.sub_diag, Hdial, Hconn. reflexivity.
Qed.

(** The exchange succeeds only on a reply whose packet id is 0 and whose
    JSON length is positive. *)
Lemma MCPingConn_success_reply conn addr timeout conn' :
  MCPingConn SplitHostPort Sscanf_d conn addr timeout = Some (conn', None) ->
  exists conn1 conn2 length packetData reader jsonLen,
    readPacket conn1 = (conn2, inr (length, packetData))
    /\ 0 < length <= 1024 * 1024
    /\ (exists rest, readVarInt packetData = (reader, inr 0)
                     /\ readVarInt reader = (rest, inr jsonLen))
    /\ 0 < jsonLen.
Proof.
  unfold MCPingConn.
  destruct (SplitHostPort addr) as [host portStr].
  destruct (writeVarInt 0) as [id0|]; cbn [mbind option_bind]; [|discriminate].
  destruct (writeVarInt 767) as [version|]; cbn [mbind option_bind]; [|discriminate].
  destruct (writeString host) as [hostBytes|]; cbn [mbind option_bind]; [|discriminate].
  destruct (writeVarInt 1) as [next|]; cbn [mbind option_bind]; [|discriminate].
  destruct (writePacket _ _) as [[c1 [e|]]|]; cbn [mbind option_bind];
    [discriminate| |discriminate].
  destruct (writePacket id0 c1) as [[c2 [e|]]|]; cbn [mbind option_bind];
    [discriminate| |discriminate].
  destruct (readPacket c2) as [c3 [e|[length packetData]]] eqn:Hpkt; [discriminate|].
  destruct (readVarInt packetData) as [reader [e|packetID]] eqn:Hid; [discriminate|].
  destruct (Z.eqb_spec packetID 0) as [->|Hne]; cbn [negb]; [|discriminate].
  destruct (readVarInt reader) as [rest [e|jsonLen]] eqn:Hjson; [discriminate|].
  destruct (Z.leb_spec jsonLen 0); [discriminate|].
  intros [= <-].
  exists c2, c3, length, packetData, reader, jsonLen.
  split; [exact Hpkt|]. split.
  - unfold readPacket in Hpkt.
    destruct (readVarInt c2) as [c4 [e|len]]; [discriminate|].
    destruct ((len <=? 0) || (len >? 1024 * 1024)) eqn:E; [discriminate|].
    apply orb_false_iff in E as [E1 E2].
    apply Z.leb_gt in E1. rewrite Z.gtb_ltb in E2. apply Z.ltb_ge in E2.
    destruct (ReadFull (Z.to_nat len) c4) as [c5 [e|data]]; [discriminate|].
    injection Hpkt as _ <- _. lia.
  - split; [|assumption]. exists rest. split; assumption.
Qed.

End ProbeFacts.

(** The player dial, for comparison, measures the dial: on success the
    sample recorded into the window is the time [DialContext] took. *)
Lemma Dial_records_dial_time name b dialTimeout player n :
  0 < windowSize b -> dialOK n = true -> dialTime n <= dialTimeout ->
  exists n' b' c,
    Dial name (Some b) dialTimeout player n = Some (n', Some b', inr c)
    /\ last (latencyWindow b') = Some (Milliseconds (dialTime n))
    /\ closeOnce c = false.
Proof.
  intros Hws Hok Hfast. unfold Dial, DialContext, time_Since, time_Now.
  rewrite Hok. cbn [andb].
  destruct (Z.leb_spec (clock n + dialTime n) (clock n + dialTimeout)); [|lia].
  cbn [clock set_clock].
  replace (clock n + dialTime n - clock n) with (dialTime n) by lia.
  unfold RecordLatency, RecordSuccess.
  cbn [latencyWindow windowSize set_failCount].
  destruct (Z.geb_spec (Z.of_nat (length (latencyWindow b))) (windowSize b)).
  - destruct (latencyWindow b) as [|v tl] eqn:Hw; [cbn in *; lia|].
    cbn [mbind option_bind]. eexists _, _, _. split; [reflexivity|].
    cbn. split; [apply last_snoc|reflexivity].
  - cbn [mbind option_bind]. eexists _, _, _. split; [reflexivity|].
    cbn. split; [apply last_snoc|reflexivity].
Qed.

(** C1. [MCPing] computes its latency immediately after reading the start
    time, before the dial: the value it returns is 0 whatever the dial and
    the status exchange cost. On a network where the dial takes 50 ms and
    the exchange 45 ms the probe succeeds, 95 ms pass, and the returned
    latency is 0; the player dial on the same network records 50 ms. *)
Theorem MCPing_latency_taken_before_dial :
  (forall SplitHostPort Sscanf_d b timeout n n' latency err,
     MCPing SplitHostPort Sscanf_d b timeout n = Some (n', (latency, err)) ->
     latency = 0)
  /\ (exists n',
        MCPing exampleSplitHostPort exampleSscanf_d example_backend
          (3 * Second) slow_net = Some (n', (0, None))
        /\ clock n' - clock slow_net = 95 * Millisecond)
  /\ (exists n' b' c,
        Dial "lobby" (Some example_backend) (3 * Second) (Some "steve") slow_net
        = Some (n', Some b', inr c)
        /\ latencyWindow b' = [50]).
Proof.
  split; [|split].
  - intros S P b timeout n n' latency err. apply MCPing_latency_zero.
  - eexists. split; [vm_compute; reflexivity|]. vm_compute. reflexivity.
  - unfold Dial, DialContext, time_Since, time_Now, slow_net, example_backend.
    cbn [dialOK clock dialTime andb].
    eexists _, _, _. split; [vm_compute; reflexivity|]. reflexivity.
Qed.

(** *** The probe always returns *)

Lemma writeVarInt_total (v : Z) :
  0 <= v < 2 ^ 31 ->
  exists bs, writeVarInt v = Some bs /\ (length bs <= 5)%nat.
Proof.
  intros Hv. unfold writeVarInt. cbn [writeVarIntLoop].
  assert (H5 : Z.shiftr (Z.shiftr (Z.shiftr (Z.shiftr (Z.shiftr v 7) 7) 7) 7) 7 = 0).
  { rewrite !Z.shiftr_shiftr by lia. cbn [Z.add Pos.add Pos.succ].
    rewrite Z.shiftr_div_pow2 by lia. apply Z.div_small.
    change (2 ^ 31) with 2147483648 in Hv.
    change (2 ^ 35) with 34359738368. lia. }
  repeat match goal with
         | |- context [if ?c =? 0 then _ else _] => destruct (Z.eqb_spec c 0)
         end;
    cbn [mbind option_bind]; try (eexists; split; [reflexivity|cbn; lia]).
  congruence.
Qed.

Lemma bytesOf_length (s : string) : length (bytesOf s) = String.length s.
Proof.
  unfold bytesOf. rewrite length_fmap.
  induction s as [|c s IH]; cbn; [reflexivity|]. rewrite IH. reflexivity.
Qed.

Lemma writePacket_total (data : list Z) (conn : Net) :
  Z.of_nat (length data) < 2 ^ 31 -> is_Some (writePacket data conn).
Proof.
  intros Hlen. unfold writePacket.
  destruct (writeVarInt_total (int32 (Z.of_nat (length data)))) as (lenBuf & -> & _).
  { rewrite int32_id by (unfold in_int32; lia). lia. }
  cbn [mbind option_bind].
  destruct (connWrite lenBuf conn) as [c1 [e|]]; [eexists; reflexivity|].
  destruct (connWrite data c1) as [c2 [e|]]; eexists; reflexivity.
Qed.

Lemma MCPingConn_total SplitHostPort Sscanf_d conn addr timeout :
  Z.of_nat (String.length (fst (SplitHostPort addr))) < 2 ^ 30 ->
  is_Some (MCPingConn SplitHostPort Sscanf_d conn addr timeout).
Proof.
  intros Hhost. unfold MCPingConn.
  destruct (SplitHostPort addr) as [host portStr]. cbn [fst] in Hhost.
  change (2 ^ 30) with 1073741824 in Hhost.
  destruct (writeVarInt_total 0) as (id0 & Hid0 & Lid0); [lia|].
  destruct (writeVarInt_total 767) as (version & Hver & Lver); [lia|].
  destruct (writeVarInt_total 1) as (next & Hnext & Lnext); [lia|].
  destruct (writeVarInt_total (int32 (Z.of_nat (String.length host))))
    as (hlen & Hhlen & Lhlen).
  { rewrite int32_id by (unfold in_int32; change (2 ^ 31) with 2147483648; lia).
    change (2 ^ 31) with 2147483648. lia. }
  rewrite Hid0, Hver. cbn [mbind option_bind].
  unfold writeString. rewrite Hhlen. cbn [mbind option_bind]. rewrite Hnext.
  cbn [mbind option_bind].
  match goal with
  | |- context [writePacket ?d ?c] =>
      destruct (writePacket_total d c) as [[c1 r1] Hw1]
  end.
  { rewrite !length_app, bytesOf_length. cbn [length].
    change (2 ^ 31) with 2147483648. lia. }
  rewrite Hw1. cbn [mbind option_bind].
  destruct r1 as [e|]; [eexists; reflexivity|].
  destruct (writePacket_total id0 c1) as [[c2 r2] Hw2].
  { change (2 ^ 31) with 2147483648. lia. }
  rewrite Hw2. cbn [mbind option_bind].
  destruct r2 as [e|]; [eexists; reflexivity|].
  destruct (readPacket c2) as [c3 [e|[length packetData]]]; [eexists; reflexivity|].
  destruct (readVarInt packetData) as [reader [e|packetID]]; [eexists; reflexivity|].
  destruct (negb (packetID =? 0)); [eexists; reflexivity|].
  destruct (readVarInt reader) as [rest [e|jsonLen]]; [eexists; reflexivity|].
  destruct (jsonLen <=? 0); eexists; reflexivity.
Qed.

Lemma MCPing_total SplitHostPort Sscanf_d b timeout n :
  Z.of_nat (String.length (fst (SplitHostPort (Addr b)))) < 2 ^ 30 ->
  is_Some (MCPing SplitHostPort Sscanf_d b timeout n).
Proof.
  intros Hhost. unfold MCPing.
  destruct (DialContext (time_Now n + timeout) n) as [n1 [e|]]; [eexists; reflexivity|].
  destruct (MCPingConn_total SplitHostPort Sscanf_d
              (SetDeadline (time_Now n + timeout) n1) (Addr b) timeout Hhost)
    as [[n2 r] ->].
  cbn [mbind option_bind]. destruct r; eexists; reflexivity.
Qed.

(* ===================================================================== *)
(** * Further properties of the code *)
(* ===================================================================== *)

(** ** VarInt encoding *)

Lemma low7_high (v : Z) :
  Z.lor (Z.land v 127) (Z.shiftl (Z.shiftr v 7) 7) = v.
Proof.
  apply Z.bits_inj'. intros n Hn.
  rewrite Z.lor_spec, Z.land_spec.
  change 127 with (Z.ones 7). rewrite Z.testbit_ones_nonneg by lia.
  destruct (Z.ltb_spec n 7) as [Hlt|Hge].
  - rewrite Z.shiftl_spec_low by lia. rewrite andb_true_r, orb_false_r. reflexivity.
  - rewrite Z.shiftl_spec by lia. rewrite Z.shiftr_spec by lia.
    rewrite andb_false_r, orb_false_l. f_equal. lia.
Qed.

Lemma low7_range (v : Z) : 0 <= Z.land v 127 < 128.
Proof.
  change 127 with (Z.ones 7). rewrite Z.land_ones by lia.
  apply Z.mod_pos_bound. reflexivity.
Qed.

Lemma low7_le (v : Z) : 0 <= v -> Z.land v 127 <= v.
Proof.
  intros Hv. change 127 with (Z.ones 7). rewrite Z.land_ones by lia.
  apply Z.mod_le; lia.
Qed.

Lemma continuation_bits (b : Z) :
  0 <= b < 128 ->
  Z.land b 127 = b /\ Z.land b 128 = 0
  /\ Z.land (Z.lor b 128) 127 = b /\ Z.land (Z.lor b 128) 128 = 128.
Proof.
  intros Hb.
  assert (Hb7 : Z.land b 127 = b).
  { change 127 with (Z.ones 7). rewrite Z.land_ones by lia.
    apply Z.mod_small. change (2 ^ 7) with 128. lia. }
  assert (H0 : Z.land b 128 = 0).
  { rewrite <- Hb7, <- Z.land_assoc. change (Z.land 127 128) with 0.
    apply Z.land_0_r. }
  split; [exact Hb7|]. split; [exact H0|].
  rewrite !Z.land_lor_distr_l, Hb7, H0.
  change (Z.land 128 127) with 0. change (Z.land 128 128) with 128.
  rewrite Z.lor_0_r, Z.lor_0_l. split; reflexivity.
Qed.

Lemma shiftr7_bound (v k : Z) :
  0 <= k -> 0 <= v < 2 ^ (k + 7) -> 0 <= Z.shiftr v 7 < 2 ^ k.
Proof.
  intros Hk Hv. rewrite Z.shiftr_div_pow2 by lia. change (2 ^ 7) with 128.
  rewrite Z.pow_add_r in Hv by lia. change (2 ^ 7) with 128 in Hv.
  split; [apply Z.div_pos; lia|]. apply Z.div_lt_upper_bound; lia.
Qed.

Lemma delivers_app {R} `{Reader R} (bs1 bs2 : list Z) (r r' : R) :
  delivers (bs1 ++ bs2) r r' <-> exists r1, delivers bs1 r r1 /\ delivers bs2 r1 r'.
Proof.
  revert r. induction bs1 as [|b bs1 IH]; intros r; cbn [app delivers].
  - split.
    + intros Hd. exists r. split; [reflexivity|exact Hd].
    + intros (r1 & -> & Hd). exact Hd.
  - split.
    + intros (r1 & Hr & Hd). apply IH in Hd as (r2 & Hd1 & Hd2).
      exists r2. split; [exists r1; split; assumption|assumption].
    + intros (r2 & (r1 & Hr & Hd1) & Hd2). exists r1. split; [exact Hr|].
      apply IH. exists r2. split; assumption.
Qed.

Lemma bytes_deliver (bs rest : list Z) : delivers bs (bs ++ rest) rest.
Proof.
  induction bs as [|b bs IH]; cbn [app delivers]; [reflexivity|].
  exists (bs ++ rest). split; [reflexivity|exact IH].
Qed.

(** Decoding what [writeVarIntLoop] produced, from any point of the two
    loops and on any reader: [shift] bits are already decoded into
    [result], the rest of the value is [v]. *)
Lemma varint_loops_roundtrip {R} `{Reader R} (fuel : nat) :
  forall (v result shift : Z) (bs : list Z) (r r' : R),
    shift + 7 * Z.of_nat fuel = 35 ->
    0 <= shift -> 0 <= v < 2 ^ (31 - shift) ->
    writeVarIntLoop fuel v = Some bs ->
    delivers bs r r' ->
    readVarIntLoop fuel r result shift
    = (r', inr (Z.lor result (Z.shiftl v shift))).
Proof.
  induction fuel as [|fuel IH]; intros v result shift bs r r' Hfuel Hs Hv Hw Hd.
  - discriminate.
  - cbn [writeVarIntLoop] in Hw. cbn [readVarIntLoop].
    assert (Hshift31 : shift < 31).
    { destruct (Z.lt_ge_cases shift 31); [assumption|].
      rewrite Z.pow_neg_r in Hv by lia. lia. }
    pose proof (low7_range v) as Hb0. pose proof (low7_le v ltac:(lia)) as Hb0v.
    destruct (continuation_bits _ Hb0) as (Hc7 & Hc0 & Hc1 & Hc2).
    assert (Hpart : int32 (Z.shiftl (Z.land v 127) shift)
                    = Z.shiftl (Z.land v 127) shift).
    { apply int32_id. unfold in_int32. rewrite Z.shiftl_mul_pow2 by lia.
      assert (Z.land v 127 * 2 ^ shift < 2 ^ (31 - shift) * 2 ^ shift).
      { apply Z.mul_lt_mono_pos_r; [apply Z.pow_pos_nonneg; lia|lia]. }
      rewrite <- Z.pow_add_r in H0 by lia.
      replace (31 - shift + shift) with 31 in H0 by lia.
      assert (0 <= Z.land v 127 * 2 ^ shift) by (apply Z.mul_nonneg_nonneg; lia).
      lia. }
    destruct (Z.eqb_spec (Z.shiftr v 7) 0) as [Hlast|Hmore].
    + injection Hw as <-. cbn [delivers] in Hd. destruct Hd as (r1 & Hr & <-).
      rewrite Hr, Hc7, Hc0. cbn [Z.eqb].
      rewrite Hpart. do 3 f_equal.
      rewrite <- (low7_high v) at 2. rewrite Hlast.
      rewrite Z.shiftl_0_l, Z.lor_0_r. reflexivity.
    + destruct (writeVarIntLoop fuel (Z.shiftr v 7)) as [bs'|] eqn:Hw';
        [|discriminate].
      cbn [mbind option_bind] in Hw. injection Hw as <-.
      cbn [delivers] in Hd. destruct Hd as (r1 & Hr & Hd).
      rewrite Hr, Hc1, Hc2, Hpart. cbn [Z.eqb].
      assert (Hsmall : shift + 7 < 31).
      { destruct (Z.lt_ge_cases (shift + 7) 31); [assumption|exfalso].
        assert (Hv7 : v < 2 ^ 7).
        { eapply Z.lt_le_trans; [apply Hv|]. apply Z.pow_le_mono_r; lia. }
        apply Hmore. rewrite Z.shiftr_div_pow2 by lia.
        apply Z.div_small. lia. }
      destruct (Z.geb_spec (shift + 7) 32); [lia|].
      rewrite (IH (Z.shiftr v 7) _ (shift + 7) bs' r1 r'); try lia; try assumption.
      * do 2 f_equal. rewrite <- Z.lor_assoc. f_equal.
        rewrite <- (low7_high v) at 3. rewrite Z.shiftl_lor.
        rewrite Z.shiftl_shiftl by lia. f_equal. f_equal. lia.
      * apply shiftr7_bound; [lia|].
        replace (31 - (shift + 7) + 7) with (31 - shift) by lia. exact Hv.
Qed.

Lemma readVarInt_delivered {R} `{Reader R} (v : Z) (bs : list Z) (r r' : R) :
  0 <= v < 2 ^ 31 -> writeVarInt v = Some bs -> delivers bs r r' ->
  readVarInt r = (r', inr v).
Proof.
  intros Hv Hw Hd. unfold readVarInt, writeVarInt in *.
  rewrite (varint_loops_roundtrip 5 v 0 0 bs r r'); try lia; try assumption.
  rewrite Z.shiftl_0_r, Z.lor_0_l. reflexivity.
Qed.

(** X1. VarInt round trip: whatever [writeVarInt] writes for a non-negative
    [int32], [readVarInt] reads back as the same value, consuming exactly
    those bytes. *)
Theorem varint_roundtrip (v : Z) (rest : list Z) :
  0 <= v < 2 ^ 31 ->
  exists bs, writeVarInt v = Some bs
             /\ readVarInt (bs ++ rest) = (rest, inr v).
Proof.
  intros Hv. destruct (writeVarInt_total v Hv) as (bs & Hbs & _).
  exists bs. split; [exact Hbs|].
  apply (readVarInt_delivered v bs); [exact Hv|exact Hbs|apply bytes_deliver].
Qed.

Lemma varint_roundtrip_witness :
  0 <= 767 < 2 ^ 31
  /\ writeVarInt 767 = Some [255; 5]
  /\ readVarInt ([255; 5] ++ [9]) = ([9], inr 767).
Proof.
  assert (H : 0 <= 767 < 2 ^ 31) by (change (2 ^ 31) with 2147483648; lia).
  split; [exact H|].
  destruct (varint_roundtrip 767 [9] H) as (bs & Hw & Hr).
  assert (Hbs : bs = [255; 5]) by (vm_compute in Hw; congruence).
  subst bs. split; [reflexivity|exact Hr].
Defined.

Lemma writeVarIntLoop_negative (fuel : nat) (v : Z) :
  v < 0 -> writeVarIntLoop fuel v = None.
Proof.
  revert v. induction fuel as [|fuel IH]; intros v Hv; cbn [writeVarIntLoop].
  - reflexivity.
  - assert (Hneg : Z.shiftr v 7 < 0) by (apply Z.shiftr_neg; exact Hv).
    destruct (Z.eqb_spec (Z.shiftr v 7) 0); [lia|].
    rewrite (IH _ Hneg). reflexivity.
Qed.

Lemma continuation_byte_range (b : Z) :
  0 <= b < 128 -> 128 <= Z.lor b 128 < 256.
Proof.
  intros Hb. destruct (continuation_bits b Hb) as (_ & H0 & _).
  pose proof (Z.add_lor_land b 128) as Hadd. rewrite H0 in Hadd. lia.
Qed.

Lemma writeVarIntLoop_shape (fuel : nat) (v : Z) (bs : list Z) :
  writeVarIntLoop fuel v = Some bs ->
  (length bs <= fuel)%nat
  /\ exists init final,
       bs = init ++ [final]
       /\ 0 <= final < 128
       /\ Forall (fun b => 128 <= b < 256) init.
Proof.
  revert v bs. induction fuel as [|fuel IH]; intros v bs; cbn [writeVarIntLoop].
  - discriminate.
  - pose proof (low7_range v) as Hb.
    destruct (Z.eqb_spec (Z.shiftr v 7) 0) as [Hlast|Hmore].
    + intros [= <-]. split; [cbn; lia|].
      exists [], (Z.land v 127). repeat split; try lia. constructor.
    + destruct (writeVarIntLoop fuel (Z.shiftr v 7)) as [bs'|] eqn:Hw;
        [|discriminate].
      cbn [mbind option_bind]. intros [= <-].
      destruct (IH _ _ Hw) as (Hlen & init & final & -> & Hfinal & Hinit).
      split; [cbn [length]; lia|].
      exists (Z.lor (Z.land v 127) 128 :: init), final.
      split; [reflexivity|]. split; [exact Hfinal|].
      constructor; [apply continuation_byte_range, Hb|exact Hinit].
Qed.

(** X2. What [writeVarInt] writes: between one and five bytes, every byte
    but the last with the continuation bit set and the last one without;
    and it is written for non-negative values only, since on a negative
    value the arithmetic shift never reaches zero and the loop does not
    end, however many rounds it is given. *)
Theorem writeVarInt_bytes :
  (forall v bs,
     writeVarInt v = Some bs ->
     0 <= v
     /\ (1 <= length bs <= 5)%nat
     /\ exists init final,
          bs = init ++ [final]
          /\ 0 <= final < 128
          /\ Forall (fun b => 128 <= b < 256) init)
  /\ (forall fuel v, v < 0 -> writeVarIntLoop fuel v = None).
Proof.
  split; [|intros fuel v; apply writeVarIntLoop_negative].
  intros v bs Hw. split.
  - destruct (Z.lt_ge_cases v 0) as [Hneg|Hpos]; [|exact Hpos].
    unfold writeVarInt in Hw. rewrite writeVarIntLoop_negative in Hw by exact Hneg.
    discriminate.
  - destruct (writeVarIntLoop_shape 5 v bs Hw) as (Hlen & init & final & -> & Hrest).
    split.
    + rewrite length_app in *. cbn [length] in *. lia.
    + exists init, final. split; [reflexivity|exact Hrest].
Qed.

Ltac varint_step :=
  match goal with
  | |- context [match ?r with [] => _ | _ :: _ => _ end] =>
      is_var r; destruct r as [|? r]
  | |- context [Z.land ?b 128 =? 0] => destruct (Z.land b 128 =? 0) eqn:?
  end; cbn [Z.geb Z.compare Z.add Pos.add Pos.succ Pos.compare Pos.compare_cont].

(** X3. [readVarInt] on a byte reader consumes at most five bytes; it fails
    on an exhausted reader, and after five bytes that all carry the
    continuation bit it fails with "VarInt too big" having consumed exactly
    those five. *)
Theorem readVarInt_limits :
  (forall r : list Z,
     exists k : nat, (k <= 5)%nat /\ fst (readVarInt r) = drop k r)
  /\ readVarInt ([] : list Z) = ([], inl ErrIO)
  /\ (forall b1 b2 b3 b4 b5 rest,
        Forall (fun b => Z.land b 128 <> 0) [b1; b2; b3; b4; b5] ->
        readVarInt (b1 :: b2 :: b3 :: b4 :: b5 :: rest)
        = (rest, inl ErrVarIntTooBig)).
Proof.
  split; [|split].
  - intros r. unfold readVarInt. cbn [readVarIntLoop].
    unfold Read1, bytesReader.
    repeat varint_step; cbn [fst];
      first [ exists 0%nat; split; [lia|reflexivity]
            | exists 1%nat; split; [lia|reflexivity]
            | exists 2%nat; split; [lia|reflexivity]
            | exists 3%nat; split; [lia|reflexivity]
            | exists 4%nat; split; [lia|reflexivity]
            | exists 5%nat; split; [lia|reflexivity] ].
  - reflexivity.
  - intros b1 b2 b3 b4 b5 rest Hall.
    repeat match goal with
           | H : Forall _ (_ :: _) |- _ => apply Forall_cons in H as [? H]
           end.
    unfold readVarInt. cbn [readVarIntLoop]. unfold Read1, bytesReader.
    repeat match goal with
           | H : Z.land ?b 128 <> 0 |- _ =>
               apply Z.eqb_neq in H; rewrite H; clear H
           end.
    reflexivity.
Qed.

(** ** Packet framing *)

Lemma connRead_in_time (k : nat) (conn : Net) (b : Z) (tl : list Z) :
  reads_in_time (S k) conn -> inbound conn = b :: tl ->
  Read1 conn
  = (mkNet (clock conn + ioCost conn) (dialTime conn) (dialOK conn)
       (deadline conn) tl (outbound conn) (ioCost conn) (writeBudget conn),
     inr b)
  /\ reads_in_time k
       (mkNet (clock conn + ioCost conn) (dialTime conn) (dialOK conn)
          (deadline conn) tl (outbound conn) (ioCost conn) (writeBudget conn)).
Proof.
  intros [Hcost Htime] Hin. unfold Read1, connReader. rewrite Hin.
  destruct (Z.leb_spec (clock conn + ioCost conn) (deadline conn)) as [Hle|Hgt].
  - split; [reflexivity|]. split; cbn [ioCost clock deadline]; [exact Hcost|lia].
  - exfalso. rewrite Nat2Z.inj_succ in Htime.
    assert (0 <= Z.of_nat k * ioCost conn) by (apply Z.mul_nonneg_nonneg; lia).
    lia.
Qed.

Lemma conn_delivers (bs rest : list Z) :
  forall conn : Net,
    reads_in_time (length bs) conn -> inbound conn = bs ++ rest ->
    exists conn',
      delivers bs conn conn'
      /\ inbound conn' = rest
      /\ clock conn' = clock conn + Z.of_nat (length bs) * ioCost conn
      /\ ioCost conn' = ioCost conn /\ deadline conn' = deadline conn
      /\ outbound conn' = outbound conn.
Proof.
  induction bs as [|b bs IH]; intros conn Htime Hin; cbn [delivers].
  - exists conn. cbn [app length] in *. repeat split; try assumption. lia.
  - cbn [app length] in *.
    destruct (connRead_in_time (length bs) conn b (bs ++ rest) Htime Hin)
      as [Hread Htime'].
    destruct (IH _ Htime' eq_refl) as (conn' & Hd & Hin' & Hclock & Hcost & Hdl & Hout).
    exists conn'. cbn [clock ioCost deadline outbound] in *.
    split; [eexists; split; [exact Hread|exact Hd]|].
    repeat split; try assumption. lia.
Qed.

Lemma ReadFull_delivered (data : list Z) (conn conn' : Net) :
  delivers data conn conn' -> ReadFull (length data) conn = (conn', inr data).
Proof.
  revert conn. induction data as [|b data IH]; intros conn; cbn [delivers length ReadFull].
  - intros <-. reflexivity.
  - intros (c1 & Hread & Hd). rewrite Hread, (IH _ Hd). reflexivity.
Qed.

Lemma connWrite_ok (data : list Z) (conn conn' : Net) :
  connWrite data conn = (conn', None) -> outbound conn' = outbound conn ++ data.
Proof.
  unfold connWrite. destruct (writeBudget conn); [discriminate|].
  destruct (clock conn + ioCost conn <=? deadline conn); [|discriminate].
  intros [= <-]. reflexivity.
Qed.

Lemma writePacket_sends_frame (data : list Z) (conn conn' : Net) :
  writePacket data conn = Some (conn', None) ->
  exists sent, frame data = Some sent
               /\ outbound conn' = outbound conn ++ sent.
Proof.
  unfold writePacket, frame.
  destruct (writeVarInt (int32 (Z.of_nat (length data)))) as [lenBuf|];
    cbn [mbind option_bind]; [|discriminate].
  destruct (connWrite lenBuf conn) as [c1 [e|]] eqn:Hw1; [discriminate|].
  destruct (connWrite data c1) as [c2 [e|]] eqn:Hw2; [discriminate|].
  intros [= <-]. exists (lenBuf ++ data). split; [reflexivity|].
  rewrite (connWrite_ok _ _ _ Hw2), (connWrite_ok _ _ _ Hw1), app_assoc.
  reflexivity.
Qed.

Lemma readPacket_frame (data sent rest : list Z) (conn : Net) :
  0 < Z.of_nat (length data) <= 1024 * 1024 ->
  frame data = Some sent ->
  inbound conn = sent ++ rest -> reads_in_time (length sent) conn ->
  exists conn',
    readPacket conn = (conn', inr (Z.of_nat (length data), data))
    /\ inbound conn' = rest.
Proof.
  intros Hlen Hframe Hin Htime. unfold frame in Hframe.
  assert (Hlen32 : int32 (Z.of_nat (length data)) = Z.of_nat (length data)).
  { apply int32_id. unfold in_int32. change (2 ^ 31) with 2147483648. lia. }
  rewrite Hlen32 in Hframe.
  destruct (writeVarInt (Z.of_nat (length data))) as [lenBuf|] eqn:Hw;
    cbn [mbind option_bind] in Hframe; [|discriminate].
  injection Hframe as <-. rewrite <- app_assoc in Hin.
  rewrite length_app in Htime. destruct Htime as [Hcost Htime].
  destruct (conn_delivers lenBuf (data ++ rest) conn) as
    (c1 & Hd1 & Hin1 & Hclock1 & Hcost1 & Hdl1 & _); [|exact Hin|].
  { split; [exact Hcost|].
    assert (0 <= Z.of_nat (length data) * ioCost conn)
      by (apply Z.mul_nonneg_nonneg; lia).
    rewrite Nat2Z.inj_add in Htime. lia. }
  destruct (conn_delivers data rest c1) as (c2 & Hd2 & Hin2 & _); [|exact Hin1|].
  { split; [lia|]. rewrite Hclock1, Hcost1, Hdl1.
    rewrite Nat2Z.inj_add in Htime. lia. }
  exists c2. split; [|exact Hin2]. unfold readPacket.
  rewrite (readVarInt_delivered (Z.of_nat (length data)) lenBuf conn c1);
    [|change (2 ^ 31) with 2147483648; lia|exact Hw|exact Hd1].
  destruct (Z.leb_spec (Z.of_nat (length data)) 0); [lia|].
  destruct (Z.gtb_spec (Z.of_nat (length data)) (1024 * 1024)); [lia|].
  cbn [orb]. rewrite Nat2Z.id, (ReadFull_delivered data c1 c2 Hd2). reflexivity.
Qed.

(** X4. Packet round trip: what [writePacket] sends for a payload of 1 to
    1048576 bytes, [readPacket] reads back as that payload and its length
    from a connection that delivers those bytes before its deadline,
    leaving the following bytes unread. A length prefix that is zero,
    negative or above 1 MiB is refused before any payload byte is read; the
    empty payload, framed as the single byte 0, is therefore refused. *)
Theorem packet_roundtrip (data rest : list Z) (sender sender' : Net) :
  0 < Z.of_nat (length data) <= 1024 * 1024 ->
  writePacket data sender = Some (sender', None) ->
  (exists sent,
     outbound sender' = outbound sender ++ sent
     /\ forall receiver : Net,
          inbound receiver = sent ++ rest ->
          reads_in_time (length sent) receiver ->
          exists receiver',
            readPacket receiver
            = (receiver', inr (Z.of_nat (length data), data))
            /\ inbound receiver' = rest)
  /\ (forall conn conn1 n,
        readVarInt conn = (conn1, inr n) -> n <= 0 \/ 1024 * 1024 < n ->
        readPacket conn = (conn1, inl (ErrInvalidPacketLength n)))
  /\ (frame [] = Some [0]
      /\ forall receiver : Net,
           inbound receiver = 0 :: rest -> reads_in_time 1 receiver ->
           exists receiver',
             readPacket receiver = (receiver', inl (ErrInvalidPacketLength 0))
             /\ inbound receiver' = rest).
Proof.
  intros Hlen Hsend. split; [|split].
  - destruct (writePacket_sends_frame data sender sender' Hsend)
      as (sent & Hframe & Hout).
    exists sent. split; [exact Hout|].
    intros receiver Hin Htime.
    exact (readPacket_frame data sent rest receiver Hlen Hframe Hin Htime).
  - intros conn conn1 n Hread Hbad. unfold readPacket. rewrite Hread.
    destruct (Z.leb_spec n 0); destruct (Z.gtb_spec n (1024 * 1024));
      cbn [orb]; try reflexivity; lia.
  - split; [reflexivity|]. intros receiver Hin Htime.
    destruct (conn_delivers [0] rest receiver Htime Hin)
      as (c1 & Hd & Hin1 & _).
    exists c1. split; [|exact Hin1]. unfold readPacket.
    rewrite (readVarInt_delivered 0 [0] receiver c1);
      [reflexivity|change (2 ^ 31) with 2147483648; lia|reflexivity|exact Hd].
Qed.

Lemma packet_roundtrip_witness :
  0 < Z.of_nat (length [0; 2; 123; 125]) <= 1024 * 1024
  /\ (exists sender',
        writePacket [0; 2; 123; 125]
          (mkNet 0 0 true 100 [] [] 1 2) = Some (sender', None)
        /\ outbound sender' = [4; 0; 2; 123; 125])
  /\ exists receiver',
       readPacket (mkNet 0 0 true 100 [4; 0; 2; 123; 125; 7] [] 1 0)
       = (receiver', inr (4, [0; 2; 123; 125]))
       /\ inbound receiver' = [7].
Proof.
  assert (Hlen : 0 < Z.of_nat (length [0; 2; 123; 125]) <= 1024 * 1024)
    by (cbn; lia).
  split; [exact Hlen|].
  destruct (writePacket [0; 2; 123; 125] (mkNet 0 0 true 100 [] [] 1 2))
    as [[sender' [e|]]|] eqn:Hsend; try (vm_compute in Hsend; discriminate).
  split.
  - exists sender'. split; [reflexivity|].
    vm_compute in Hsend. injection Hsend as <-. reflexivity.
  - destruct (packet_roundtrip [0; 2; 123; 125] [7] _ sender' Hlen Hsend)
      as ((sent & Hout & Hread) & _).
    assert (Hsent : sent = [4; 0; 2; 123; 125]).
    { vm_compute in Hsend. injection Hsend as <-. cbn in Hout. congruence. }
    subst sent.
    apply (Hread (mkNet 0 0 true 100 [4; 0; 2; 123; 125; 7] [] 1 0));
      [reflexivity|split; cbn; lia].
Defined.

(** ** The sliding window keeps the most recent samples *)

Lemma lastn_app_lastn {A} (n : nat) (l r : list A) :
  lastn n (lastn n l ++ r) = lastn n (l ++ r).
Proof.
  unfold lastn.
  assert (Hk : drop (length l - n) l ++ r = drop (length l - n) (l ++ r))
    by (symmetry; apply drop_app_le; lia).
  rewrite Hk, drop_drop. f_equal.
  rewrite length_drop, !length_app. lia.
Qed.

Lemma RecordLatency_slides (d : Duration) (b : Backend) :
  0 < windowSize b ->
  Z.of_nat (length (latencyWindow b)) <= windowSize b ->
  RecordLatency d b
  = Some (set_latencyWindow
            (lastn (Z.to_nat (windowSize b)) (latencyWindow b ++ [Milliseconds d]))
            b).
Proof.
  intros Hws Hlen. unfold RecordLatency, lastn.
  destruct (Z.geb_spec (Z.of_nat (length (latencyWindow b))) (windowSize b))
    as [Hfull|Hroom].
  - destruct (latencyWindow b) as [|v tl] eqn:Hw; [cbn in Hfull; lia|].
    cbn [mbind option_bind]. do 2 f_equal.
    rewrite length_app. cbn [length] in *.
    replace (S (length tl) + 1 - Z.to_nat (windowSize b))%nat with 1%nat by lia.
    reflexivity.
  - cbn [mbind option_bind]. do 2 f_equal.
    rewrite length_app. cbn [length].
    replace (length (latencyWindow b) + 1 - Z.to_nat (windowSize b))%nat
      with 0%nat by lia.
    reflexivity.
Qed.

Lemma lastn_length_le {A} (n : nat) (l : list A) : (length (lastn n l) <= n)%nat.
Proof. unfold lastn. rewrite length_drop. lia. Qed.

Lemma lastn_all {A} (n : nat) (l : list A) : (length l <= n)%nat -> lastn n l = l.
Proof.
  intros H. unfold lastn. replace (length l - n)%nat with 0%nat by lia.
  reflexivity.
Qed.

(** X5. Sliding window: with a positive window size [W], recording any
    sequence of latencies never panics, and the window then holds exactly
    the last [W] of the samples (the earlier window followed by the new
    ones, in milliseconds) in arrival order; nothing else of the backend
    changes. *)
Theorem window_keeps_last_samples (ds : list Duration) (b : Backend) :
  0 < windowSize b ->
  Z.of_nat (length (latencyWindow b)) <= windowSize b ->
  exists b',
    recordAll ds b = Some b'
    /\ latencyWindow b'
       = lastn (Z.to_nat (windowSize b)) (latencyWindow b ++ (Milliseconds <$> ds))
    /\ Z.of_nat (length (latencyWindow b')) <= windowSize b
    /\ b' = set_latencyWindow (latencyWindow b') b.
Proof.
  revert b. induction ds as [|d ds IH]; intros b Hws Hlen.
  - exists b. cbn [recordAll fmap list_fmap]. rewrite app_nil_r.
    split; [reflexivity|]. split; [symmetry; apply lastn_all; lia|].
    split; [exact Hlen|]. destruct b; reflexivity.
  - cbn [recordAll]. rewrite (RecordLatency_slides d b Hws Hlen).
    cbn [mbind option_bind].
    set (b1 := set_latencyWindow _ b).
    assert (Hlen1 : Z.of_nat (length (latencyWindow b1)) <= windowSize b1).
    { subst b1. cbn [latencyWindow windowSize set_latencyWindow].
      pose proof (lastn_length_le (Z.to_nat (windowSize b))
                    (latencyWindow b ++ [Milliseconds d])). lia. }
    destruct (IH b1 Hws Hlen1) as (b' & Hrun & Hwin & Hlen' & Hrest).
    exists b'. split; [exact Hrun|].
    subst b1. cbn [latencyWindow windowSize set_latencyWindow] in *.
    split; [|split; [exact Hlen'|]].
    + rewrite Hwin, lastn_app_lastn, <- app_assoc. reflexivity.
    + rewrite Hrest at 1. destruct b; reflexivity.
Qed.

Lemma window_keeps_last_samples_witness :
  0 < windowSize (mkBackend "10.0.0.1:25565" 0 0 0 0 true false [7] 3 0 ∅ 100)
  /\ exists b',
       recordAll [10 * Millisecond; 20 * Millisecond; 30 * Millisecond]
         (mkBackend "10.0.0.1:25565" 0 0 0 0 true false [7] 3 0 ∅ 100) = Some b'
       /\ latencyWindow b' = [10; 20; 30].
Proof.
  split; [cbn; lia|].
  destruct (window_keeps_last_samples
              [10 * Millisecond; 20 * Millisecond; 30 * Millisecond]
              (mkBackend "10.0.0.1:25565" 0 0 0 0 true false [7] 3 0 ∅ 100))
    as (b' & Hrun & Hwin & _); [cbn; lia|cbn; lia|].
  exists b'. split; [exact Hrun|]. rewrite Hwin. reflexivity.
Defined.

(** ** The other strategies *)

Lemma filterAvailable_spec (backends : list Backend) (b : Backend) :
  b ∈ filterAvailable backends <-> b ∈ backends /\ IsAvailable b = true.
Proof.
  unfold filterAvailable. rewrite !list_elem_of_In, filter_In. reflexivity.
Qed.

(** The loop of [LeastConnectionsStrategy.Select] once a first backend has
    been taken and the running minimum is not negative. *)
Lemma leastConns_from (l : list Backend) (b0 : Backend) (m : Z) :
  0 <= m -> (forall b, b ∈ l -> 0 <= CurrentConns b) ->
  let r := fold_left
             (fun '(best, minConns) b =>
                let conns := CurrentConns b in
                if (minConns <? 0) || (conns <? minConns)
                then (Some b, conns) else (best, minConns))
             l (Some b0, m) in
  (r = (Some b0, m) /\ forall b, b ∈ l -> m <= CurrentConns b)
  \/ (exists b, r = (Some b, CurrentConns b) /\ CurrentConns b < m
                /\ first_least_conns l b).
Proof.
  revert b0 m. induction l as [|a l IH]; intros b0 m Hm Hpos; cbn [fold_left].
  - left. split; [reflexivity|]. intros b Hb. inversion Hb.
  - assert (Ha : 0 <= CurrentConns a) by (apply Hpos; set_solver).
    assert (Hl : forall b, b ∈ l -> 0 <= CurrentConns b)
      by (intros b Hb; apply Hpos; set_solver).
    cbv zeta. destruct (Z.ltb_spec m 0); [lia|]. cbn [orb].
    destruct (Z.ltb_spec (CurrentConns a) m) as [Hlt|Hge].
    + right. destruct (IH a (CurrentConns a) Ha Hl)
        as [[Hr Hall]|(b & Hr & Hlt' & i & Hi & Hmin & Hfirst)].
      * exists a. split; [exact Hr|]. split; [exact Hlt|].
        exists 0%nat. split; [reflexivity|]. split.
        -- intros [|j] b' Hj; cbn in Hj.
           ++ injection Hj as <-. lia.
           ++ apply Hall. eapply list_elem_of_lookup_2, Hj.
        -- intros j b' Hj. lia.
      * exists b. split; [exact Hr|]. split; [lia|].
        exists (S i). split; [exact Hi|]. split.
        -- intros [|j] b' Hj; cbn in Hj.
           ++ injection Hj as <-. lia.
           ++ eapply Hmin, Hj.
        -- intros [|j] b' Hji Hj; cbn in Hj.
           ++ injection Hj as <-. lia.
           ++ eapply (Hfirst j); [lia|exact Hj].
    + destruct (IH b0 m Hm Hl)
        as [[Hr Hall]|(b & Hr & Hlt' & i & Hi & Hmin & Hfirst)].
      * left. split; [exact Hr|]. intros b Hb.
        apply elem_of_cons in Hb as [->|Hb]; [lia|apply Hall, Hb].
      * right. exists b. split; [exact Hr|]. split; [exact Hlt'|].
        exists (S i). split; [exact Hi|]. split.
        -- intros [|j] b' Hj; cbn in Hj.
           ++ injection Hj as <-. lia.
           ++ eapply Hmin, Hj.
        -- intros [|j] b' Hji Hj; cbn in Hj.
           ++ injection Hj as <-. lia.
           ++ eapply (Hfirst j); [lia|exact Hj].
Qed.

(** X6. [LeastConnectionsStrategy.Select] returns nothing when no backend
    is available, and otherwise, the connection counters of the available
    backends being non-negative, the first available backend with the
    fewest connections. *)
Theorem least_connections_first_minimum (backends : list Backend) :
  (forall b, b ∈ filterAvailable backends -> 0 <= CurrentConns b) ->
  match LeastConnectionsStrategy.Select backends with
  | Some b => first_least_conns (filterAvailable backends) b
  | None => filterAvailable backends = []
  end.
Proof.
  intros Hpos. unfold LeastConnectionsStrategy.Select.
  destruct (filterAvailable backends) as [|a l] eqn:Hav; [reflexivity|].
  cbn [length]. destruct (Z.eqb_spec (Z.of_nat (S (length l))) 0); [lia|].
  cbn [fold_left]. cbv zeta. change (-1 <? 0) with true. cbn [orb].
  assert (Ha : 0 <= CurrentConns a) by (apply Hpos; set_solver).
  assert (Hl : forall b, b ∈ l -> 0 <= CurrentConns b)
    by (intros b Hb; apply Hpos; set_solver).
  pose proof (leastConns_from l a (CurrentConns a) Ha Hl) as Hloop.
  cbv zeta in Hloop.
  destruct Hloop as [[-> Hall]|(b & -> & Hlt & i & Hi & Hmin & Hfirst)];
    cbn [fst].
  - exists 0%nat. split; [reflexivity|]. split.
    + intros [|j] b' Hj; cbn in Hj.
      * injection Hj as <-. lia.
      * apply Hall. eapply list_elem_of_lookup_2, Hj.
    + intros j b' Hj. lia.
  - exists (S i). split; [exact Hi|]. split.
    + intros [|j] b' Hj; cbn in Hj.
      * injection Hj as <-. lia.
      * eapply Hmin, Hj.
    + intros [|j] b' Hji Hj; cbn in Hj.
      * injection Hj as <-. lia.
      * eapply (Hfirst j); [lia|exact Hj].
Qed.

Lemma least_connections_first_minimum_witness :
  (forall b, b ∈ filterAvailable [backend_101; backend_nodata; backend_10] ->
             0 <= CurrentConns b)
  /\ LeastConnectionsStrategy.Select [backend_101; backend_nodata; backend_10]
     = Some backend_nodata.
Proof.
  assert (Hav : filterAvailable [backend_101; backend_nodata; backend_10]
                = [backend_101; backend_nodata; backend_10]) by reflexivity.
  assert (Hpos : forall b,
             b ∈ filterAvailable [backend_101; backend_nodata; backend_10] ->
             0 <= CurrentConns b).
  { rewrite Hav. intros b Hb.
    rewrite !elem_of_cons, elem_of_nil in Hb.
    destruct Hb as [->|[->|[->|[]]]]; cbn; lia. }
  split; [exact Hpos|].
  pose proof (least_connections_first_minimum _ Hpos) as H.
  destruct (LeastConnectionsStrategy.Select
              [backend_101; backend_nodata; backend_10]) as [b|] eqn:Hsel.
  - vm_compute in Hsel. injection Hsel as <-. vm_compute. reflexivity.
  - rewrite Hav in H. discriminate.
Defined.

Lemma RoundRobin_Select_step (counter : Z) (backends : list Backend) :
  filterAvailable backends <> [] ->
  0 <= counter -> counter + 1 < 2 ^ 64 ->
  RoundRobinStrategy.Select counter backends
  = (counter + 1,
     filterAvailable backends
       !! Z.to_nat ((counter + 1) mod Z.of_nat (length (filterAvailable backends)))).
Proof.
  intros Hne Hc Hmax. unfold RoundRobinStrategy.Select.
  destruct (Z.eqb_spec (Z.of_nat (length (filterAvailable backends))) 0) as [Hz|_].
  { destruct (filterAvailable backends); [congruence|cbn in Hz; lia]. }
  rewrite (Z.mod_small (counter + 1)) by lia. reflexivity.
Qed.

Lemma roundRobinRun_lookup (calls : nat) :
  forall (counter : Z) (backends : list Backend) (i : nat),
    filterAvailable backends <> [] ->
    0 <= counter -> counter + Z.of_nat calls < 2 ^ 64 ->
    (i < calls)%nat ->
    roundRobinRun calls counter backends !! i
    = Some (filterAvailable backends
              !! Z.to_nat ((counter + 1 + Z.of_nat i)
                           mod Z.of_nat (length (filterAvailable backends)))).
Proof.
  induction calls as [|calls IH]; intros counter backends i Hne Hc Hmax Hi; [lia|].
  cbn [roundRobinRun]. rewrite RoundRobin_Select_step by (try assumption; lia).
  destruct i as [|i].
  - cbn [lookup list_lookup]. rewrite Z.add_0_r. reflexivity.
  - match goal with
    | |- (?x :: ?l) !! S i = _ => change ((x :: l) !! S i) with (l !! i)
    end.
    rewrite IH by (try assumption; lia).
    replace (counter + 1 + 1 + Z.of_nat i) with (counter + 1 + Z.of_nat (S i))
      by lia.
    reflexivity.
Qed.

Lemma roundRobinRun_length (calls : nat) (counter : Z) (backends : list Backend) :
  length (roundRobinRun calls counter backends) = calls.
Proof.
  revert counter. induction calls as [|calls IH]; intros counter; [reflexivity|].
  cbn [roundRobinRun].
  destruct (RoundRobinStrategy.Select counter backends) as [c r].
  cbn [length]. rewrite IH. reflexivity.
Qed.

(** X7. Round-robin is fair: on an unchanged pool with [n > 0] available
    backends, any [n] consecutive [Select] calls (the 64-bit counter not
    wrapping) return the available backends in declaration order, cyclically
    shifted; every available backend exactly once. *)
Theorem round_robin_rotation (counter : Z) (backends : list Backend) :
  filterAvailable backends <> [] ->
  0 <= counter ->
  counter + Z.of_nat (length (filterAvailable backends)) < 2 ^ 64 ->
  roundRobinRun (length (filterAvailable backends)) counter backends
  = Some <$> rotate (Z.to_nat ((counter + 1)
                               mod Z.of_nat (length (filterAvailable backends))))
               (filterAvailable backends)
  /\ roundRobinRun (length (filterAvailable backends)) counter backends
     ≡ₚ Some <$> filterAvailable backends.
Proof.
  intros Hne Hc Hmax.
  set (av := filterAvailable backends) in *.
  assert (Hn : (0 < length av)%nat).
  { destruct av; [congruence|cbn; lia]. }
  assert (Heq : roundRobinRun (length av) counter backends
                = Some <$> rotate (Z.to_nat ((counter + 1) mod Z.of_nat (length av))) av).
  { apply list_eq. intros i.
    destruct (decide (i < length av)%nat) as [Hi|Hi].
    - rewrite roundRobinRun_lookup by (try assumption; lia). fold av.
      rewrite list_lookup_fmap, lookup_rotate_r by exact Hi.
      unfold rotate_nat_add.
      rewrite Z2Nat.id by (apply Z.mod_pos_bound; lia).
      rewrite Zplus_mod_idemp_l.
      destruct (av !! Z.to_nat ((counter + 1 + Z.of_nat i) mod Z.of_nat (length av)))
        as [b|] eqn:Hb; [reflexivity|].
      exfalso. apply lookup_ge_None in Hb.
      pose proof (Z.mod_pos_bound (counter + 1 + Z.of_nat i) (Z.of_nat (length av))).
      lia.
    - rewrite !lookup_ge_None_2; [reflexivity| |].
      + rewrite length_fmap, length_rotate. lia.
      + rewrite roundRobinRun_length. lia. }
  split; [exact Heq|].
  rewrite Heq. apply fmap_Permutation.
  unfold rotate. rewrite Permutation_app_comm, take_drop. reflexivity.
Qed.

Lemma round_robin_rotation_witness :
  filterAvailable [backend_P; backend_Q; backend_10] <> []
  /\ roundRobinRun 3 7 [backend_P; backend_Q; backend_10]
     = [Some backend_10; Some backend_P; Some backend_Q].
Proof.
  assert (Hne : filterAvailable [backend_P; backend_Q; backend_10] <> [])
    by discriminate.
  split; [exact Hne|].
  destruct (round_robin_rotation 7 [backend_P; backend_Q; backend_10] Hne)
    as [Heq _]; [lia|change (2 ^ 64) with 18446744073709551616; cbn; lia|].
  change (length (filterAvailable [backend_P; backend_Q; backend_10])) with 3%nat in Heq.
  rewrite Heq. reflexivity.
Defined.

(** X8. [SequentialStrategy.Select] returns the first available backend in
    declaration order: every backend before it is unavailable; it returns
    nothing exactly when no backend is available. *)
Theorem sequential_first_available (backends : list Backend) :
  match SequentialStrategy.Select backends with
  | Some b =>
      exists i : nat,
        backends !! i = Some b /\ IsAvailable b = true
        /\ (forall (j : nat) b', (j < i)%nat -> backends !! j = Some b' ->
              IsAvailable b' = false)
  | None => forall b, b ∈ backends -> IsAvailable b = false
  end
  /\ SequentialStrategy.Select backends = head (filterAvailable backends).
Proof.
  induction backends as [|a l [IH1 IH2]]; cbn [SequentialStrategy.Select].
  - split; [intros b Hb; inversion Hb|reflexivity].
  - unfold filterAvailable in *. cbn [List.filter].
    destruct (IsAvailable a) eqn:Ha.
    + split; [|reflexivity]. exists 0%nat. split; [reflexivity|].
      split; [exact Ha|]. intros j b' Hj. lia.
    + split; [|exact IH2].
      destruct (SequentialStrategy.Select l) as [b|].
      * destruct IH1 as (i & Hi & Hb & Hbefore). exists (S i).
        split; [exact Hi|]. split; [exact Hb|].
        intros [|j] b' Hji Hj; cbn in Hj.
        -- injection Hj as <-. exact Ha.
        -- eapply (Hbefore j); [lia|exact Hj].
      * intros b Hb. apply elem_of_cons in Hb as [->|Hb]; [exact Ha|apply IH1, Hb].
Qed.

Lemma SequentialStrategy_head (backends : list Backend) :
  SequentialStrategy.Select backends = head (filterAvailable backends).
Proof.
  unfold filterAvailable.
  induction backends as [|a l IH]; cbn [SequentialStrategy.Select List.filter];
    [reflexivity|].
  destruct (IsAvailable a); [reflexivity|exact IH].
Qed.

Lemma leastConns_picks (l : list Backend) (best : option Backend) (m : Z) :
  let r := fold_left
             (fun '(best, minConns) b =>
                let conns := CurrentConns b in
                if (minConns <? 0) || (conns <? minConns)
                then (Some b, conns) else (best, minConns))
             l (best, m) in
  (fst r = best \/ exists b, fst r = Some b /\ b ∈ l)
  /\ (is_Some best -> is_Some (fst r)).
Proof.
  revert best m. induction l as [|a l IH]; intros best m; cbn [fold_left].
  - split; [left; reflexivity|intros H; exact H].
  - cbv zeta.
    destruct ((m <? 0) || (CurrentConns a <? m)).
    + pose proof (IH (Some a) (CurrentConns a)) as [[Hr|(b & Hr & Hb)] Hsome];
        cbv zeta in *.
      * split; [right; exists a; split; [exact Hr|set_solver]|].
        intros _. apply Hsome. eexists; reflexivity.
      * split; [right; exists b; split; [exact Hr|set_solver]|].
        intros _. apply Hsome. eexists; reflexivity.
    + pose proof (IH best m) as [[Hr|(b & Hr & Hb)] Hsome]; cbv zeta in *.
      * split; [left; exact Hr|exact Hsome].
      * split; [right; exists b; split; [exact Hr|set_solver]|exact Hsome].
Qed.

Lemma head_elem_of {A} (l : list A) (x : A) : head l = Some x -> x ∈ l.
Proof. destruct l; [discriminate|]. intros [= ->]. set_solver. Qed.

(** X9. Whatever the strategy, [Select] never panics on a proper random
    draw, never returns a backend that is not available (healthy, enabled,
    below its connection limit) or not of the pool, and returns nothing
    when no backend is available; every strategy but health-score returns a
    backend as soon as one is available. *)
Theorem strategies_select_available (s : Strategy) (rnd : option Z)
    (backends : list Backend) (jitterThreshold : float)
    (history : option HistoryFile.HistoryManager) (now : Time) :
  match rnd with
  | Some n => 0 <= n < Z.max 1 (Z.of_nat (length (filterAvailable backends)))
  | None => True
  end ->
  exists s' r,
    Strategy_Select s rnd backends jitterThreshold history now = Some (s', r)
    /\ (forall b, r = Some b -> b ∈ backends /\ IsAvailable b = true)
    /\ (filterAvailable backends = [] -> r = None /\ s' = s)
    /\ (s <> HealthScore -> filterAvailable backends <> [] -> is_Some r).
Proof.
  intros Hrnd.
  assert (Hlen0 : filterAvailable backends = [] <->
                  Z.of_nat (length (filterAvailable backends)) = 0).
  { destruct (filterAvailable backends); cbn; split; intros; try congruence; lia. }
  destruct s as [counter| | | |]; cbn [Strategy_Select].
  - (* round-robin *)
    unfold RoundRobinStrategy.Select.
    destruct (Z.eqb_spec (Z.of_nat (length (filterAvailable backends))) 0) as [Hz|Hnz].
    + eexists _, _. split; [reflexivity|]. split; [intros b Hb; discriminate|].
      split; [intros _; split; reflexivity|]. intros _ Hne. tauto.
    + eexists _, _. split; [reflexivity|].
      pose proof (Z.mod_pos_bound ((counter + 1) mod 2 ^ 64)
                    (Z.of_nat (length (filterAvailable backends))) ltac:(lia)) as Hidx.
      split; [|split].
      * intros b Hb. apply list_elem_of_lookup_2 in Hb.
        apply filterAvailable_spec, Hb.
      * intros Hnil. apply Hlen0 in Hnil. lia.
      * intros _ _. apply lookup_lt_is_Some_2. lia.
  - (* least-connections *)
    unfold LeastConnectionsStrategy.Select.
    destruct (Z.eqb_spec (Z.of_nat (length (filterAvailable backends))) 0) as [Hz|Hnz].
    + eexists _, _. split; [reflexivity|]. split; [intros b Hb; discriminate|].
      split; [intros _; split; reflexivity|]. intros _ Hne. tauto.
    + eexists _, _. split; [reflexivity|].
      pose proof (leastConns_picks (filterAvailable backends) None (-1)) as Hpick.
      cbv zeta in Hpick. destruct Hpick as [Hmem _].
      split; [|split].
      * intros b Hb. destruct Hmem as [Hnone|(b' & Hb' & Hin)]; [congruence|].
        rewrite Hb in Hb'. injection Hb' as <-. apply filterAvailable_spec, Hin.
      * intros Hnil. apply Hlen0 in Hnil. lia.
      * intros _ _.
        destruct (filterAvailable backends) as [|a l]; [cbn in Hnz; lia|].
        cbn [fold_left]. cbv zeta. change (-1 <? 0) with true. cbn [orb].
        pose proof (leastConns_picks l (Some a) (CurrentConns a)) as [_ Hsome].
        cbv zeta in Hsome. apply Hsome. eexists; reflexivity.
  - (* health-score *)
    eexists _, _. split; [reflexivity|].
    pose proof (Select_first_max backends jitterThreshold history now) as Hsel.
    cbv zeta in Hsel. split; [|split].
    + intros b Hb. rewrite Hb in Hsel. destruct Hsel as [(i & Hi & _) _].
      apply list_elem_of_lookup_2 in Hi. apply filterAvailable_spec, Hi.
    + intros Hnil. split; [|reflexivity].
      rewrite Select_unfold, Hnil. reflexivity.
    + intros Hs. exfalso. apply Hs. reflexivity.
  - (* sequential *)
    eexists _, _. split; [reflexivity|]. rewrite SequentialStrategy_head.
    split; [|split].
    + intros b Hb. apply head_elem_of in Hb. apply filterAvailable_spec, Hb.
    + intros ->. split; reflexivity.
    + intros _ Hne. destruct (filterAvailable backends); [congruence|].
      eexists; reflexivity.
  - (* random *)
    unfold RandomStrategy.Select.
    destruct (Z.eqb_spec (Z.of_nat (length (filterAvailable backends))) 0) as [Hz|Hnz].
    + eexists _, _. split; [reflexivity|]. split; [intros b Hb; discriminate|].
      split; [intros _; split; reflexivity|]. intros _ Hne. tauto.
    + destruct rnd as [n|].
      * destruct (Z.ltb_spec n 0); [lia|].
        destruct (lookup_lt_is_Some_2 (filterAvailable backends) (Z.to_nat n))
          as [b Hb]; [lia|].
        rewrite Hb. cbn [mbind option_bind].
        eexists _, _. split; [reflexivity|]. split; [|split].
        -- intros b' [= <-]. apply list_elem_of_lookup_2 in Hb.
           apply filterAvailable_spec, Hb.
        -- intros Hnil. apply Hlen0 in Hnil. lia.
        -- intros _ _. eexists; reflexivity.
      * cbn [mbind option_bind]. eexists _, _. split; [reflexivity|].
        split; [|split].
        -- intros b Hb. apply list_elem_of_lookup_2 in Hb.
           apply filterAvailable_spec, Hb.
        -- intros Hnil. apply Hlen0 in Hnil. lia.
        -- intros _ _. apply lookup_lt_is_Some_2. lia.
Qed.

Lemma strategies_select_available_witness :
  0 <= 1 < Z.max 1 (Z.of_nat (length (filterAvailable [backend_P; backend_Q])))
  /\ Strategy_Select Random (Some 1) [backend_P; backend_Q] 0.5%float None noon
     = Some (Random, Some backend_Q).
Proof.
  assert (H : 0 <= 1 < Z.max 1 (Z.of_nat (length (filterAvailable [backend_P; backend_Q]))))
    by (vm_compute; split; [discriminate|reflexivity]).
  split; [exact H|].
  destruct (strategies_select_available Random (Some 1) [backend_P; backend_Q]
              0.5%float None noon H) as (s' & r & Hsel & _).
  rewrite Hsel. vm_compute in Hsel. injection Hsel as <- <-.
  vm_compute. reflexivity.
Defined.

(** X10. [GetStrategy] and [Name]: each of the five strategy names selects
    the strategy that reports that name, any other name selects
    health-score, and a round-robin strategy starts with a zero counter. *)
Theorem GetStrategy_names (n : string) :
  (n ∈ ["round-robin"; "least-connections"; "health-score"; "sequential"; "random"]
   -> Strategy_Name (GetStrategy n) = n)
  /\ (n ∉ ["round-robin"; "least-connections"; "health-score"; "sequential"; "random"]
      -> GetStrategy n = HealthScore)
  /\ (forall s, Strategy_Name (GetStrategy (Strategy_Name s)) = Strategy_Name s)
  /\ (forall c, GetStrategy n = RoundRobin c -> c = 0).
Proof.
  unfold GetStrategy.
  split; [|split; [|split]].
  - rewrite !elem_of_cons, elem_of_nil.
    intros [->|[->|[->|[->|[->|[]]]]]]; reflexivity.
  - rewrite !elem_of_cons, elem_of_nil. intros Hn.
    repeat match goal with
           | |- context [String.eqb n ?x] =>
               destruct (String.eqb_spec n x) as [->|?]; [exfalso; tauto|]
           end.
    reflexivity.
  - intros [c| | | |]; reflexivity.
  - intros c.
    repeat match goal with
           | |- context [String.eqb n ?x] => destruct (String.eqb n x)
           end; congruence.
Qed.

(** ** Recovery, trust ramp and streaks *)

(** Successful probes on an unhealthy backend, below the recovery
    threshold. *)
Lemma succeeding_run_below cfg ps hm b :
  1 <= HealthyAfterSuccesses cfg < 2 ^ 31 ->
  Forall succeeding ps ->
  disabled b = false -> healthy b = false -> 0 < windowSize b ->
  HistoryFile.wf hm -> 0 <= successCount b ->
  successCount b + Z.of_nat (length ps) < HealthyAfterSuccesses cfg ->
  exists hm' b',
    runChecks cfg ps (hm, b) = Some (hm', b')
    /\ HistoryFile.wf hm'
    /\ healthy b' = false /\ disabled b' = false
    /\ windowSize b' = windowSize b /\ trustCoeff b' = trustCoeff b
    /\ successCount b' = successCount b + Z.of_nat (length ps).
Proof.
  intros HH Hps. revert hm b.
  induction Hps as [|p ps [Herr Hnow] Hps IH]; intros hm b Hd Hh Hws Hwf Hsc Hlt.
  - exists hm, b. cbn. repeat split; try assumption. lia.
  - cbn [length] in Hlt. cbn [runChecks].
    destruct (checkBackend_success cfg p hm b Herr Hd Hws Hnow Hwf)
      as (hm1 & b1 & Hstep & Hwf1 & Hws1 & Hd1 & _ & _ & Hunhealthy).
    specialize (Hunhealthy Hh).
    rewrite !int32_id in Hunhealthy by (unfold in_int32; lia).
    destruct (Z.geb_spec (successCount b + 1) (HealthyAfterSuccesses cfg)); [lia|].
    destruct Hunhealthy as (Hh1 & Ht1 & Hsc1).
    rewrite Hstep. cbn [mbind option_bind].
    destruct (IH hm1 b1) as (hm' & b' & Hrun & Hwf' & Hh' & Hd' & Hws' & Ht' & Hsc');
      try assumption; try lia.
    exists hm', b'. split; [exact Hrun|]. cbn [length].
    repeat split; try assumption; try congruence. lia.
Qed.

(** X11. Recovery: on an unhealthy, enabled backend whose success counter is
    zero, [H] successful probes in a row make it healthy again with trust
    50 percent and both counters at zero, and fewer than [H] leave it unhealthy
    with its trust untouched. *)
Theorem recovery_after_H_successes (cfg : HealthCheckConfig)
    (ps : list Probe) (hm : HistoryFile.HistoryManager) (b : Backend) :
  1 <= HealthyAfterSuccesses cfg < 2 ^ 31 ->
  Forall succeeding ps ->
  disabled b = false -> healthy b = false -> successCount b = 0 ->
  0 < windowSize b -> HistoryFile.wf hm ->
  (Z.of_nat (length ps) < HealthyAfterSuccesses cfg ->
     exists hm' b',
       runChecks cfg ps (hm, b) = Some (hm', b')
       /\ healthy b' = false /\ trustCoeff b' = trustCoeff b
       /\ successCount b' = Z.of_nat (length ps))
  /\ (Z.of_nat (length ps) = HealthyAfterSuccesses cfg ->
     exists hm' b',
       runChecks cfg ps (hm, b) = Some (hm', b')
       /\ healthy b' = true /\ trustCoeff b' = 50
       /\ successCount b' = 0 /\ failCount b' = 0).
Proof.
  intros HH Hps Hd Hh Hsc Hws Hwf. split; intros Hlen.
  - destruct (succeeding_run_below cfg ps hm b HH Hps Hd Hh Hws Hwf)
      as (hm' & b' & Hrun & _ & Hh' & _ & _ & Ht' & Hsc'); [lia|lia|].
    exists hm', b'. repeat split; try assumption. lia.
  - destruct ps as [|p0 ps0] using rev_ind; [cbn in Hlen; lia|].
    clear IHps0. rewrite length_app in Hlen. cbn [length] in Hlen.
    apply Forall_app in Hps as [Hps0 Hp0].
    apply Forall_cons in Hp0 as [[Herr Hnow] _].
    destruct (succeeding_run_below cfg ps0 hm b HH Hps0 Hd Hh Hws Hwf)
      as (hm1 & b1 & Hrun & Hwf1 & Hh1 & Hd1 & Hws1 & _ & Hsc1); [lia|lia|].
    rewrite runChecks_app, Hrun. cbn [mbind option_bind runChecks].
    destruct (checkBackend_success cfg p0 hm1 b1 Herr Hd1 ltac:(lia) Hnow Hwf1)
      as (hm2 & b2 & Hstep & _ & _ & _ & Hfc2 & _ & Hunhealthy).
    specialize (Hunhealthy Hh1).
    rewrite !int32_id in Hunhealthy by (unfold in_int32; lia).
    destruct (Z.geb_spec (successCount b1 + 1) (HealthyAfterSuccesses cfg)); [|lia].
    destruct Hunhealthy as (Hh2 & Ht2 & Hsc2).
    rewrite Hstep. cbn [mbind option_bind].
    exists hm2, b2. repeat split; assumption.
Qed.

Lemma recovery_after_H_successes_witness :
  1 <= HealthyAfterSuccesses example_cfg < 2 ^ 31
  /\ exists hm' b',
       runChecks example_cfg
         [mkProbe 0 None noon noon; mkProbe 0 None noon noon; mkProbe 0 None noon noon]
         (empty_history,
          mkBackend "10.0.0.1:25565" 0 0 3 0 false false [] 20 0 ∅ 100)
       = Some (hm', b')
       /\ healthy b' = true /\ trustCoeff b' = 50.
Proof.
  assert (HH : 1 <= HealthyAfterSuccesses example_cfg < 2 ^ 31) by (cbn; lia).
  split; [exact HH|].
  assert (Hok : succeeding (mkProbe 0 None noon noon)).
  { split; [reflexivity|]. unfold valid_time. cbn. lia. }
  destruct (recovery_after_H_successes example_cfg
              [mkProbe 0 None noon noon; mkProbe 0 None noon noon;
               mkProbe 0 None noon noon]
              empty_history
              (mkBackend "10.0.0.1:25565" 0 0 3 0 false false [] 20 0 ∅ 100) HH)
    as [_ Hflip]; try reflexivity.
  - repeat (constructor; [exact Hok|]); constructor.
  - intros a h Hh. cbn in Hh. rewrite lookup_empty in Hh. discriminate.
  - destruct (Hflip eq_refl) as (hm' & b' & Hrun & Hh' & Ht' & _).
    exists hm', b'. repeat split; assumption.
Defined.






(** ** What a health check leaves alone *)

Lemma checkBackend_frame cfg p hm b hm' b' :
  checkBackend cfg p (hm, b) = Some (hm', b') ->
  Addr b' = Addr b /\ MaxConnections b' = MaxConnections b
  /\ currentConns b' = currentConns b /\ players b' = players b
  /\ windowSize b' = windowSize b /\ disabled b' = disabled b
  /\ (disabled b = true -> hm' = hm /\ b' = b)
  /\ (probeErr p <> None -> hm' = hm /\ latencyWindow b' = latencyWindow b).
Proof.
  unfold checkBackend, IsDisabled.
  destruct (disabled b) eqn:Hd.
  - intros [= <- <-]. rewrite Hd. repeat split; reflexivity.
  - destruct (probeErr p) as [e|] eqn:He.
    + unfold RecordHealthCheckFailure, FailCount, IsHealthy, SetHealthy,
        SetLastCheckTime.
      repeat match goal with
             | |- context [if ?c then _ else _] => destruct c
             end; intros [= <- <-]; cbn; rewrite ?Hd;
        repeat split; try reflexivity; intros; discriminate.
    + destruct (RecordLatency (probeLatency p) _) as [b1|] eqn:Hrec;
        [|discriminate].
      apply RecordLatency_inv in Hrec as [w ->].
      cbn [mbind option_bind].
      destruct (HistoryFile.Record_ _ _ _ _ hm) as [hm1|]; [|discriminate].
      cbn [mbind option_bind].
      unfold RecordHealthCheckSuccess, SuccessCount, IsHealthy, SetHealthy,
        ResetTrust, ResetSuccessCount, IncreaseTrust, SetLastCheckTime.
      repeat match goal with
             | |- context [if ?c then _ else _] => destruct c
             end; intros [= <- <-]; cbn; rewrite ?Hd;
        repeat split; try reflexivity; intros; try discriminate; congruence.
Qed.

(** X14. Health checks never touch the connection accounting or the
    administrative state of a backend: whatever the probes return, the
    address, the connection limit, the connection count, the player set, the
    window capacity and the disabled flag stay as they were. A disabled
    backend is skipped altogether (backend and history unchanged), and
    failed probes change neither the history nor the latency window. *)
Theorem health_checks_frame (cfg : HealthCheckConfig) (ps : list Probe)
    (hm hm' : HistoryFile.HistoryManager) (b b' : Backend) :
  runChecks cfg ps (hm, b) = Some (hm', b') ->
  Addr b' = Addr b /\ MaxConnections b' = MaxConnections b
  /\ currentConns b' = currentConns b /\ players b' = players b
  /\ windowSize b' = windowSize b /\ disabled b' = disabled b
  /\ (disabled b = true -> hm' = hm /\ b' = b)
  /\ (Forall failing ps -> hm' = hm /\ latencyWindow b' = latencyWindow b).
Proof.
  revert hm b. induction ps as [|p ps IH]; intros hm b; cbn [runChecks].
  - intros [= <- <-]. repeat split; reflexivity.
  - destruct (checkBackend cfg p (hm, b)) as [[hm1 b1]|] eqn:Hstep;
      [|discriminate].
    cbn [mbind option_bind]. intros Hrun.
    destruct (checkBackend_frame _ _ _ _ _ _ Hstep)
      as (Ha & Hm & Hc & Hp & Hw & Hd & Hskip & Hfail).
    destruct (IH _ _ Hrun) as (Ha' & Hm' & Hc' & Hp' & Hw' & Hd' & Hskip' & Hfail').
    do 6 (split; [congruence|]). split.
    + intros Hdis. destruct (Hskip Hdis) as [-> ->].
      destruct (Hskip' Hdis) as [-> ->]. split; reflexivity.
    + intros Hall. apply Forall_cons in Hall as [Hp0 Hps].
      destruct (Hfail Hp0) as [-> <-]. destruct (Hfail' Hps) as [-> <-].
      split; reflexivity.
Qed.

Lemma health_checks_frame_witness :
  exists hm' b',
    runChecks example_cfg [failed_probe; mkProbe 0 None noon noon]
      (empty_history, example_backend) = Some (hm', b')
    /\ currentConns b' = currentConns example_backend
    /\ players b' = players example_backend.
Proof.
  destruct (runChecks example_cfg [failed_probe; mkProbe 0 None noon noon]
              (empty_history, example_backend)) as [[hm' b']|] eqn:Hrun;
    [|vm_compute in Hrun; discriminate].
  exists hm', b'. split; [reflexivity|].
  destruct (health_checks_frame _ _ _ _ _ _ Hrun) as (_ & _ & Hc & Hp & _).
  split; assumption.
Defined.

(** ** Pool administration *)

Lemma Strategy_Select_from_available (s s' : Strategy) (rnd : option Z)
    (backends : list Backend) (jitterThreshold : float)
    (history : option HistoryFile.HistoryManager) (now : Time) (r : Backend) :
  Strategy_Select s rnd backends jitterThreshold history now = Some (s', Some r) ->
  r ∈ filterAvailable backends.
Proof.
  destruct s as [counter| | | |]; cbn [Strategy_Select].
  - unfold RoundRobinStrategy.Select.
    destruct (Z.of_nat (length (filterAvailable backends)) =? 0);
      [discriminate|].
    intros [= _ Hr]. eapply list_elem_of_lookup_2, Hr.
  - unfold LeastConnectionsStrategy.Select.
    destruct (Z.of_nat (length (filterAvailable backends)) =? 0);
      [discriminate|].
    intros [= _ Hr].
    pose proof (leastConns_picks (filterAvailable backends) None (-1)) as Hpick.
    cbv zeta in Hpick. destruct Hpick as [[Hnone|(b' & Hb' & Hin)] _];
      [congruence|].
    rewrite Hr in Hb'. injection Hb' as <-. exact Hin.
  - intros [= _ Hr].
    pose proof (Select_first_max backends jitterThreshold history now) as Hsel.
    cbv zeta in Hsel. rewrite Hr in Hsel. destruct Hsel as [(i & Hi & _) _].
    eapply list_elem_of_lookup_2, Hi.
  - rewrite SequentialStrategy_head. intros [= _ Hr]. apply head_elem_of, Hr.
  - unfold RandomStrategy.Select.
    destruct (Z.of_nat (length (filterAvailable backends)) =? 0);
      [discriminate|].
    destruct rnd as [n|].
    + destruct (n <? 0); [discriminate|].
      destruct (filterAvailable backends !! Z.to_nat n) as [b|] eqn:Hb;
        [|discriminate].
      intros [= _ <-]. eapply list_elem_of_lookup_2, Hb.
    + cbn [mbind option_bind]. intros [= _ Hr]. eapply list_elem_of_lookup_2, Hr.
Qed.

Lemma setDisabledByAddr_Some (addr : string) (v : bool) (bs bs' : list Backend) :
  setDisabledByAddr addr v bs = Some bs' <->
  exists (i : nat) b,
    bs !! i = Some b /\ Addr b = addr
    /\ (forall (j : nat) c, (j < i)%nat -> bs !! j = Some c -> Addr c <> addr)
    /\ bs' = <[i := SetDisabled v b]> bs.
Proof.
  revert bs'. induction bs as [|a l IH]; intros bs'; cbn [setDisabledByAddr].
  - split; [discriminate|]. intros (i & b & Hi & _). discriminate.
  - destruct (String.eqb_spec (Addr a) addr) as [Heq|Hne].
    + split.
      * intros [= <-]. exists 0%nat, a. repeat split; try assumption.
        intros j c Hj. lia.
      * intros ([|i] & b & Hi & Hb & Hfirst & ->).
        -- cbn in Hi. injection Hi as <-. reflexivity.
        -- exfalso. apply (Hfirst 0%nat a); [lia|reflexivity|exact Heq].
    + destruct (setDisabledByAddr addr v l) as [l'|] eqn:Hl; cbn [mbind option_bind].
      * destruct (proj1 (IH l') eq_refl) as (i & b & Hi & Hb & Hfirst & ->).
        split.
        -- intros [= <-]. exists (S i), b. repeat split; try assumption.
           intros [|j] c Hj Hc; cbn in Hc.
           ++ injection Hc as <-. exact Hne.
           ++ apply (Hfirst j c); [lia|exact Hc].
        -- intros ([|k] & c & Hk & Hc & Hfirst' & ->).
           ++ cbn in Hk. injection Hk as <-. contradiction.
           ++ cbn in Hk.
              destruct (Nat.lt_trichotomy i k) as [Hlt|[<-|Hgt]].
              ** exfalso. apply (Hfirst' (S i) b); [lia|exact Hi|exact Hb].
              ** pose proof (eq_trans (eq_sym Hi) Hk) as E. injection E as ->.
                 reflexivity.
              ** exfalso. apply (Hfirst k c); [lia|exact Hk|exact Hc].
      * split; [discriminate|].
        intros ([|k] & c & Hk & Hc & Hfirst' & ->).
        -- cbn in Hk. injection Hk as <-. contradiction.
        -- exfalso. cbn in Hk.
           enough (@None (list Backend) = Some (<[k := SetDisabled v c]> l))
             by discriminate.
           apply IH. exists k, c. repeat split; try assumption.
           intros j d Hj Hd. apply (Hfirst' (S j) d); [lia|exact Hd].
Qed.

Lemma setDisabledByAddr_None (addr : string) (v : bool) (bs : list Backend) :
  setDisabledByAddr addr v bs = None <-> forall b, b ∈ bs -> Addr b <> addr.
Proof.
  induction bs as [|a l IH]; cbn [setDisabledByAddr].
  - split; [|reflexivity]. intros _ b Hb. inversion Hb.
  - destruct (String.eqb_spec (Addr a) addr) as [Heq|Hne].
    + split; [discriminate|]. intros H. exfalso. apply (H a); [set_solver|exact Heq].
    + destruct (setDisabledByAddr addr v l) as [l'|]; cbn [mbind option_bind].
      * split; [discriminate|]. intros H.
        enough (Some l' = None) by discriminate.
        apply IH. intros b Hb. apply H. set_solver.
      * split; [|reflexivity]. intros _ b Hb.
        apply elem_of_cons in Hb as [->|Hb]; [exact Hne|].
        apply (proj1 IH eq_refl), Hb.
Qed.

Lemma DisableBackend_body servers serverName backendAddr :
  DisableBackend servers serverName backendAddr
  = setBackendDisabled true servers serverName backendAddr.
Proof. reflexivity. Qed.

Lemma EnableBackend_body servers serverName backendAddr :
  EnableBackend servers serverName backendAddr
  = setBackendDisabled false servers serverName backendAddr.
Proof. reflexivity. Qed.

(** The registry after [b.SetDisabled(v)] on the first backend of the pool
    [serverName] whose address is [backendAddr]. *)
Lemma set_disabled_registry (v : bool)
    (servers : gmap string LoadBalancedServerInfo)
    (serverName backendAddr : string) :
  let r := setBackendDisabled v servers serverName backendAddr in
  (snd r = true <->
     exists server b,
       servers !! serverName = Some server
       /\ b ∈ backends server /\ Addr b = backendAddr)
  /\ (snd r = false -> fst r = servers)
  /\ (forall other, other <> serverName -> fst r !! other = servers !! other)
  /\ (forall server (i : nat) b,
        servers !! serverName = Some server ->
        backends server !! i = Some b -> Addr b = backendAddr ->
        (forall (j : nat) c, (j < i)%nat -> backends server !! j = Some c ->
                             Addr c <> backendAddr) ->
        fst r !! serverName
        = Some (with_backends (<[i := SetDisabled v b]> (backends server)) server)).
Proof.
  unfold setBackendDisabled, GetServer. cbv zeta.
  destruct (servers !! serverName) as [server|] eqn:Hs.
  - destruct (setDisabledByAddr backendAddr v (backends server)) as [bs|] eqn:Hset.
    + cbn [fst snd]. split; [|split; [|split]].
      * split; [|reflexivity]. intros _.
        apply setDisabledByAddr_Some in Hset as (i & b & Hi & Hb & _).
        exists server, b. split; [reflexivity|]. split; [|exact Hb].
        eapply list_elem_of_lookup_2, Hi.
      * discriminate.
      * intros other Hne. apply lookup_insert_ne. congruence.
      * intros server0 i b [= <-] Hi Hb Hfirst.
        rewrite lookup_insert_eq. do 2 f_equal.
        assert (Hsome : setDisabledByAddr backendAddr v (backends server)
                        = Some (<[i := SetDisabled v b]> (backends server))).
        { apply setDisabledByAddr_Some. exists i, b. repeat split; assumption. }
        congruence.
    + cbn [fst snd]. split; [|split; [|split]].
      * split; [discriminate|]. intros (server0 & b & [= <-] & Hin & Hb).
        exfalso. eapply setDisabledByAddr_None; eassumption.
      * reflexivity.
      * reflexivity.
      * intros server0 i b [= <-] Hi Hb _. exfalso.
        eapply setDisabledByAddr_None; [exact Hset| |exact Hb].
        eapply list_elem_of_lookup_2, Hi.
  - cbn [fst snd]. split; [|split; [|split]].
    + split; [discriminate|]. intros (server0 & b & Hs0 & _). discriminate.
    + reflexivity.
    + reflexivity.
    + intros server0 i b Hs0. discriminate.
Qed.

(** X15. [DisableBackend] and [EnableBackend] report [true] exactly when the
    pool exists and one of its backends has the address; then the flag of
    the first backend with that address, and nothing else in the registry,
    is set; when they report [false] the registry is unchanged. *)
Theorem DisableBackend_EnableBackend_first_match
    (servers : gmap string LoadBalancedServerInfo)
    (serverName backendAddr : string) :
  let found :=
    exists server b,
      servers !! serverName = Some server
      /\ b ∈ backends server /\ Addr b = backendAddr in
  let first_set (v : bool) (servers' : gmap string LoadBalancedServerInfo) :=
    forall server (i : nat) b,
      servers !! serverName = Some server ->
      backends server !! i = Some b -> Addr b = backendAddr ->
      (forall (j : nat) c, (j < i)%nat -> backends server !! j = Some c ->
                           Addr c <> backendAddr) ->
      servers' !! serverName
      = Some (with_backends (<[i := SetDisabled v b]> (backends server)) server) in
  let others_kept (servers' : gmap string LoadBalancedServerInfo) :=
    forall other, other <> serverName -> servers' !! other = servers !! other in
  let d := DisableBackend servers serverName backendAddr in
  let e := EnableBackend servers serverName backendAddr in
  (snd d = true <-> found) /\ (snd e = true <-> found)
  /\ (snd d = false -> fst d = servers) /\ (snd e = false -> fst e = servers)
  /\ others_kept (fst d) /\ others_kept (fst e)
  /\ first_set true (fst d) /\ first_set false (fst e).
Proof.
  cbv zeta. rewrite DisableBackend_body, EnableBackend_body.
  destruct (set_disabled_registry true servers serverName backendAddr)
    as (Hd1 & Hd2 & Hd3 & Hd4).
  destruct (set_disabled_registry false servers serverName backendAddr)
    as (He1 & He2 & He3 & He4).
  repeat split; try apply Hd1; try apply He1; assumption.
Qed.

Lemma SetDisabled_true_unavailable (b : Backend) :
  IsAvailable (SetDisabled true b) = false.
Proof. reflexivity. Qed.

Lemma filterAvailable_cons (b : Backend) (bs : list Backend) :
  filterAvailable (b :: bs)
  = if IsAvailable b then b :: filterAvailable bs else filterAvailable bs.
Proof. reflexivity. Qed.

Lemma filter_other_addr_id (addr : string) (bs : list Backend) :
  (forall b, b ∈ bs -> Addr b <> addr) ->
  List.filter (fun b => negb (String.eqb (Addr b) addr)) bs = bs.
Proof.
  induction bs as [|a l IH]; intros H; cbn [List.filter]; [reflexivity|].
  destruct (String.eqb_spec (Addr a) addr) as [Heq|Hne].
  - exfalso. apply (H a); [set_solver|exact Heq].
  - cbn [negb]. rewrite IH; [reflexivity|]. intros b Hb. apply H. set_solver.
Qed.

Lemma setDisabledByAddr_true_available (addr : string) (bs bs' : list Backend) :
  NoDup (Addr <$> bs) ->
  setDisabledByAddr addr true bs = Some bs' ->
  filterAvailable bs'
  = List.filter (fun b => negb (String.eqb (Addr b) addr)) (filterAvailable bs).
Proof.
  revert bs'. induction bs as [|a l IH]; intros bs' Hnd; cbn [setDisabledByAddr].
  - discriminate.
  - rewrite fmap_cons in Hnd. apply NoDup_cons in Hnd as [Hnotin Hnd].
    destruct (String.eqb_spec (Addr a) addr) as [Heq|Hne].
    + intros [= <-]. rewrite !filterAvailable_cons, SetDisabled_true_unavailable.
      assert (Hl : forall b, b ∈ filterAvailable l -> Addr b <> addr).
      { intros b Hb Hbad. apply filterAvailable_spec in Hb as [Hb _].
        apply Hnotin. rewrite Heq, <- Hbad. apply list_elem_of_fmap_2, Hb. }
      destruct (IsAvailable a).
      * cbn [List.filter]. rewrite (proj2 (String.eqb_eq _ _) Heq). cbn [negb].
        symmetry. apply filter_other_addr_id, Hl.
      * symmetry. apply filter_other_addr_id, Hl.
    + destruct (setDisabledByAddr addr true l) as [l'|]; [|discriminate].
      cbn [mbind option_bind]. intros [= <-].
      rewrite !filterAvailable_cons. destruct (IsAvailable a).
      * cbn [List.filter]. rewrite (proj2 (String.eqb_neq _ _) Hne). cbn [negb].
        f_equal. apply IH; [exact Hnd|reflexivity].
      * apply IH; [exact Hnd|reflexivity].
Qed.

(** X16. In a pool whose backends have distinct addresses, once
    [DisableBackend] has reported [true] the available backends of the pool
    are the former ones without the one at that address, and no strategy
    returns a backend with that address. *)
Theorem disabled_backend_never_selected
    (servers servers' : gmap string LoadBalancedServerInfo)
    (serverName backendAddr : string) (server : LoadBalancedServerInfo) :
  servers !! serverName = Some server ->
  NoDup (Addr <$> backends server) ->
  DisableBackend servers serverName backendAddr = (servers', true) ->
  exists server',
    servers' !! serverName = Some server'
    /\ name server' = name server /\ strategy server' = strategy server
    /\ filterAvailable (backends server')
       = List.filter (fun b => negb (String.eqb (Addr b) backendAddr))
           (filterAvailable (backends server))
    /\ forall s s' rnd jitterThreshold history now r,
         Strategy_Select s rnd (backends server') jitterThreshold history now
         = Some (s', Some r) ->
         Addr r <> backendAddr.
Proof.
  intros Hs Hnd. unfold DisableBackend, GetServer. rewrite Hs.
  destruct (setDisabledByAddr backendAddr true (backends server)) as [bs|] eqn:Hset;
    [|discriminate].
  intros [= <-]. exists (with_backends bs server).
  split; [apply lookup_insert_eq|]. split; [reflexivity|]. split; [reflexivity|].
  pose proof (setDisabledByAddr_true_available _ _ _ Hnd Hset) as Havail.
  split; [exact Havail|].
  intros s s' rnd jt history now r Hsel.
  apply Strategy_Select_from_available in Hsel. cbn [backends with_backends] in Hsel.
  rewrite Havail in Hsel. apply list_elem_of_In, filter_In in Hsel as [_ Hr].
  destruct (String.eqb_spec (Addr r) backendAddr); [discriminate|assumption].
Qed.

Lemma disabled_backend_never_selected_witness :
  exists servers' server',
    DisableBackend
      {[ "lobby" := mkLoadBalancedServerInfo "lobby" [backend_P; backend_Q]
                      Sequential 0.5%float 5000000000 ]}
      "lobby" (Addr backend_P) = (servers', true)
    /\ servers' !! "lobby" = Some server'
    /\ filterAvailable (backends server') = [backend_Q].
Proof.
  destruct (DisableBackend
              {[ "lobby" := mkLoadBalancedServerInfo "lobby" [backend_P; backend_Q]
                              Sequential 0.5%float 5000000000 ]}
              "lobby" (Addr backend_P)) as [servers' ok] eqn:Hd.
  assert (Hok : ok = true) by (vm_compute in Hd; congruence).
  subst ok.
  assert (Hnd : NoDup (Addr <$> [backend_P; backend_Q])).
  { apply NoDup_cons. split; [|apply NoDup_singleton].
    rewrite list_elem_of_singleton. discriminate. }
  destruct (disabled_backend_never_selected _ servers' "lobby" (Addr backend_P)
              (mkLoadBalancedServerInfo "lobby" [backend_P; backend_Q]
                 Sequential 0.5%float 5000000000)
              (lookup_singleton_eq _ _) Hnd Hd)
    as (server' & Hs' & _ & _ & Havail & _).
  exists servers', server'. split; [reflexivity|]. split; [exact Hs'|].
  rewrite Havail. vm_compute. reflexivity.
Defined.

Lemma setDisabledByAddr_twice (addr : string) (v w : bool) (bs bs' : list Backend) :
  setDisabledByAddr addr w bs = Some bs' ->
  setDisabledByAddr addr v bs' = setDisabledByAddr addr v bs.
Proof.
  revert bs'. induction bs as [|a l IH]; intros bs'; cbn [setDisabledByAddr].
  - discriminate.
  - destruct (String.eqb_spec (Addr a) addr) as [Heq|Hne].
    + intros [= <-]. cbn [setDisabledByAddr].
      change (Addr (SetDisabled w a)) with (Addr a).
      rewrite (proj2 (String.eqb_eq _ _) Heq). reflexivity.
    + destruct (setDisabledByAddr addr w l) as [l'|]; [|discriminate].
      cbn [mbind option_bind]. intros [= <-]. cbn [setDisabledByAddr].
      rewrite (proj2 (String.eqb_neq _ _) Hne). rewrite (IH l' eq_refl).
      reflexivity.
Qed.

Lemma setDisabledByAddr_same_flag (addr : string) (v : bool) (bs bs' : list Backend) :
  setDisabledByAddr addr v bs = Some bs' ->
  (forall b, b ∈ bs -> Addr b = addr -> disabled b = v) ->
  bs' = bs.
Proof.
  revert bs'. induction bs as [|a l IH]; intros bs'; cbn [setDisabledByAddr].
  - discriminate.
  - destruct (String.eqb_spec (Addr a) addr) as [Heq|Hne].
    + intros [= <-] H. f_equal. specialize (H a ltac:(set_solver) Heq).
      destruct a; cbn in *. subst. reflexivity.
    + destruct (setDisabledByAddr addr v l) as [l'|]; [|discriminate].
      cbn [mbind option_bind]. intros [= <-] H. f_equal.
      apply IH; [reflexivity|]. intros b Hb. apply H. set_solver.
Qed.

Lemma with_backends_same (s : LoadBalancedServerInfo) :
  with_backends (backends s) s = s.
Proof. destruct s; reflexivity. Qed.

Lemma setBackendDisabled_twice (v w : bool)
    (servers : gmap string LoadBalancedServerInfo)
    (serverName backendAddr : string) :
  fst (setBackendDisabled v
         (fst (setBackendDisabled w servers serverName backendAddr))
         serverName backendAddr)
  = fst (setBackendDisabled v servers serverName backendAddr).
Proof.
  unfold setBackendDisabled, GetServer.
  destruct (servers !! serverName) as [server|] eqn:Hs; cbn [fst].
  - destruct (setDisabledByAddr backendAddr w (backends server)) as [bs|] eqn:Hw;
      cbn [fst].
    + rewrite lookup_insert_eq. cbn [backends with_backends].
      rewrite (setDisabledByAddr_twice _ v w _ _ Hw).
      destruct (setDisabledByAddr backendAddr v (backends server)) as [bs2|] eqn:Hv;
        cbn [fst].
      * rewrite insert_insert_eq. reflexivity.
      * exfalso.
        assert (Hn : setDisabledByAddr backendAddr w (backends server) = None).
        { apply setDisabledByAddr_None.
          exact (proj1 (setDisabledByAddr_None _ v _) Hv). }
        congruence.
    + rewrite Hs.
      assert (Hn : setDisabledByAddr backendAddr v (backends server) = None).
      { apply setDisabledByAddr_None.
        exact (proj1 (setDisabledByAddr_None _ w _) Hw). }
      rewrite Hn. reflexivity.
  - rewrite Hs. reflexivity.
Qed.

(** X17. Disabling and enabling compose as two writes of one flag: enabling
    after disabling gives the registry that enabling alone gives, and the
    reverse; and when the backends at that address are enabled to begin
    with, [DisableBackend] followed by [EnableBackend] gives back the
    registry unchanged. *)
Theorem disable_enable_compose
    (servers : gmap string LoadBalancedServerInfo)
    (serverName backendAddr : string) :
  fst (EnableBackend (fst (DisableBackend servers serverName backendAddr))
         serverName backendAddr)
  = fst (EnableBackend servers serverName backendAddr)
  /\ fst (DisableBackend (fst (EnableBackend servers serverName backendAddr))
            serverName backendAddr)
     = fst (DisableBackend servers serverName backendAddr)
  /\ ((forall server b,
         servers !! serverName = Some server -> b ∈ backends server ->
         Addr b = backendAddr -> disabled b = false) ->
      fst (EnableBackend (fst (DisableBackend servers serverName backendAddr))
             serverName backendAddr)
      = servers).
Proof.
  rewrite !DisableBackend_body, !EnableBackend_body.
  split; [apply setBackendDisabled_twice|].
  split; [apply setBackendDisabled_twice|].
  intros Hen.
  rewrite setBackendDisabled_twice.
  unfold setBackendDisabled, GetServer.
  destruct (servers !! serverName) as [server|] eqn:Hs; [|reflexivity].
  destruct (setDisabledByAddr backendAddr false (backends server)) as [bs|] eqn:Hset;
    [|reflexivity].
  cbn [fst]. apply setDisabledByAddr_same_flag in Hset.
  - subst bs. rewrite with_backends_same. apply insert_id, Hs.
  - intros b Hb Hab. eapply Hen; [reflexivity|exact Hb|exact Hab].
Qed.

(** ** Player dial and close *)







(** X20. The connection limit holds across a dial: when [Dial] succeeds on a
    backend that [IsAvailable] accepted and whose limit is positive, the
    connection count afterwards does not exceed [MaxConnections]. *)
Theorem Dial_respects_connection_limit (name : string) (b b' : Backend)
    (dialTimeout : Duration) (player : option string) (n n' : Net)
    (c : trackedConn) :
  IsAvailable b = true ->
  0 < MaxConnections b < 2 ^ 31 -> in_int32 (currentConns b) ->
  Dial name (Some b) dialTimeout player n = Some (n', Some b', inr c) ->
  MaxConnections b' = MaxConnections b
  /\ currentConns b' = currentConns b + 1
  /\ currentConns b' <= MaxConnections b'.
Proof.
  intros Hav Hmax Hrange. unfold IsAvailable in Hav.
  destruct (disabled b); [discriminate|].
  destruct (healthy b); [|discriminate]. cbn [negb] in Hav.
  destruct (Z.gtb_spec (MaxConnections b) 0) as [_|]; [|lia].
  cbn [andb] in Hav.
  change (2 ^ 31) with 2147483648 in Hmax. unfold in_int32 in Hrange.
  change (2 ^ 31) with 2147483648 in Hrange.
  rewrite int32_id in Hav by (unfold in_int32; change (2 ^ 31) with 2147483648; lia).
  destruct (Z.geb_spec (currentConns b) (MaxConnections b)) as [|Hlt];
    [discriminate|].
  unfold Dial.
  destruct (DialContext _ n) as [n1 [err|]].
  - destruct (RecordLatency _ _); cbn [mbind option_bind]; discriminate.
  - destruct (RecordLatency _ (RecordSuccess b)) as [b1|] eqn:Hrec;
      cbn [mbind option_bind]; [|discriminate].
    apply RecordLatency_inv in Hrec as [w ->].
    intros [= _ <- _]. cbn.
    rewrite int32_id by (unfold in_int32; change (2 ^ 31) with 2147483648; lia).
    repeat split; lia.
Qed.

Lemma Dial_respects_connection_limit_witness :
  exists n' b' c,
    Dial "lobby"
      (Some (mkBackend "10.0.0.1:25565" 20 19 0 0 true false [] 20 0 ∅ 100))
      5000000000 (Some "steve") slow_net
    = Some (n', Some b', inr c)
    /\ currentConns b' <= MaxConnections b'.
Proof.
  destruct (Dial "lobby"
              (Some (mkBackend "10.0.0.1:25565" 20 19 0 0 true false [] 20 0 ∅ 100))
              5000000000 (Some "steve") slow_net)
    as [[[n' [b'|]] [e|c]]|] eqn:Hdial; try (vm_compute in Hdial; discriminate).
  exists n', b', c. split; [reflexivity|].
  destruct (Dial_respects_connection_limit "lobby"
              (mkBackend "10.0.0.1:25565" 20 19 0 0 true false [] 20 0 ∅ 100)
              b' 5000000000 (Some "steve") slow_net n' c) as (_ & _ & Hle).
  - reflexivity.
  - cbn. lia.
  - unfold in_int32. cbn. lia.
  - exact Hdial.
  - exact Hle.
Defined.

(** ** History store: what a record leaves alone, and the warm-up *)

Lemma HistoryFile_Record_explicit now addr L J hm :
  valid_time now -> HistoryFile.wf hm ->
  exists h old new,
    (match HistoryFile.backends hm !! addr with
     | Some h' => h = h'
     | None => h = replicate 96 HistoryFile.zeroStats
     end)
    /\ length h = 96%nat
    /\ h !! Z.to_nat (HistoryFile.getPeriodIndex now) = Some old
    /\ HistoryFile.Record_ now addr L J hm
       = Some (HistoryFile.mkHistoryManager
                 (<[addr := <[Z.to_nat (HistoryFile.getPeriodIndex now) := new]> h]>
                    (HistoryFile.backends hm))
                 (HistoryFile.filePath hm) true)
    /\ HistoryFile_updated L J old new.
Proof.
  intros Hnow Hwf. pose proof (Record_period_range now Hnow) as Hp.
  fold (HistoryFile.getPeriodIndex now) in Hp.
  destruct (HistoryFile.backends hm !! addr) as [h|] eqn:Hh.
  - pose proof (Hwf _ _ Hh) as Hlen.
    destruct (lookup_lt_is_Some_2 h (Z.to_nat (HistoryFile.getPeriodIndex now)))
      as [old Hold]; [lia|].
    destruct (HistoryFile_Record_known hm now addr L J h old Hnow Hh Hold)
      as (new & Hrec & Hupd).
    exists h, old, new. split; [reflexivity|]. split; [exact Hlen|].
    split; [exact Hold|]. split; [exact Hrec|exact Hupd].
  - destruct (HistoryFile_Record_absent hm now addr L J Hnow Hh)
      as (new & Hrec & HL & HJ & Hrest).
    exists (replicate 96 HistoryFile.zeroStats), HistoryFile.zeroStats, new.
    split; [reflexivity|]. split; [apply length_replicate|].
    split; [apply lookup_replicate_2; lia|]. split; [exact Hrec|].
    unfold HistoryFile_updated. cbn [HistoryFile.Samples HistoryFile.zeroStats].
    split; [intros _; split; assumption|]. split; [intros Hbad; congruence|].
    split; [exact Hrest|]. intros _. exact Hrest.
Qed.

(** X21. A record touches one slot: after [Record] for an address at the
    current period, the statistics of every other address are unchanged, the
    other periods of the same address keep their statistics (zeroed slots
    when the address was new), and therefore the historical score of any
    other address or period is unchanged; the store is marked dirty. *)
Theorem HistoryFile_Record_frame (now : Time) (addr : string)
    (latency jitter : float) (hm : HistoryFile.HistoryManager) :
  valid_time now -> HistoryFile.wf hm ->
  exists hm',
    HistoryFile.Record_ now addr latency jitter hm = Some hm'
    /\ HistoryFile.dirty hm' = true
    /\ HistoryFile.filePath hm' = HistoryFile.filePath hm
    /\ (forall addr' period, addr' <> addr ->
          HistoryFile.GetPeriodStats hm' addr' period
          = HistoryFile.GetPeriodStats hm addr' period)
    /\ (forall period,
          0 <= period <= 95 -> period <> HistoryFile.getPeriodIndex now ->
          HistoryFile.GetPeriodStats hm' addr period
          = Some (default HistoryFile.zeroStats
                    (HistoryFile.GetPeriodStats hm addr period)))
    /\ (forall other addr' cl cj,
          valid_time other ->
          addr' <> addr
          \/ HistoryFile.getPeriodIndex other <> HistoryFile.getPeriodIndex now ->
          HistoryFile.HistoricalScore hm' other addr' cl cj
          = HistoryFile.HistoricalScore hm other addr' cl cj).
Proof.
  intros Hnow Hwf. pose proof (Record_period_range now Hnow) as Hp.
  fold (HistoryFile.getPeriodIndex now) in Hp.
  destruct (HistoryFile_Record_explicit now addr latency jitter hm Hnow Hwf)
    as (h & old & new & Hh & Hlen & Hold & Hrec & _).
  eexists. split; [exact Hrec|]. split; [reflexivity|]. split; [reflexivity|].
  assert (Hother : forall addr' period, addr' <> addr ->
            HistoryFile.GetPeriodStats
              (HistoryFile.mkHistoryManager
                 (<[addr := <[Z.to_nat (HistoryFile.getPeriodIndex now) := new]> h]>
                    (HistoryFile.backends hm))
                 (HistoryFile.filePath hm) true) addr' period
            = HistoryFile.GetPeriodStats hm addr' period).
  { intros addr' period Hne. unfold HistoryFile.GetPeriodStats.
    cbn [HistoryFile.backends]. rewrite lookup_insert_ne by congruence.
    reflexivity. }
  assert (Hperiod : forall period,
            0 <= period <= 95 -> period <> HistoryFile.getPeriodIndex now ->
            HistoryFile.GetPeriodStats
              (HistoryFile.mkHistoryManager
                 (<[addr := <[Z.to_nat (HistoryFile.getPeriodIndex now) := new]> h]>
                    (HistoryFile.backends hm))
                 (HistoryFile.filePath hm) true) addr period
            = Some (default HistoryFile.zeroStats
                      (HistoryFile.GetPeriodStats hm addr period))).
  { intros period Hrange Hne. unfold HistoryFile.GetPeriodStats.
    cbn [HistoryFile.backends]. rewrite lookup_insert_eq.
    destruct (Z.ltb_spec period 0); [lia|].
    destruct (Z.gtb_spec period 95); [lia|]. cbn [orb].
    rewrite list_lookup_insert_ne by lia.
    destruct (HistoryFile.backends hm !! addr) as [h'|].
    - subst h'.
      destruct (lookup_lt_is_Some_2 h (Z.to_nat period)) as [x Hx]; [lia|].
      rewrite Hx. reflexivity.
    - subst h. rewrite lookup_replicate_2 by lia. reflexivity. }
  split; [exact Hother|]. split; [exact Hperiod|].
  intros other addr' cl cj Hvalid Hdiff.
  pose proof (Record_period_range other Hvalid) as Hq.
  fold (HistoryFile.getPeriodIndex other) in Hq.
  unfold HistoryFile.HistoricalScore, HistoryFile.GetCurrentPeriodStats.
  destruct (decide (addr' = addr)) as [->|Hne].
  - destruct Hdiff as [Hbad|Hdiff]; [congruence|].
    rewrite Hperiod by assumption.
    destruct (HistoryFile.GetPeriodStats hm addr (HistoryFile.getPeriodIndex other));
      reflexivity.
  - rewrite Hother by exact Hne. reflexivity.
Qed.

Lemma HistoryFile_Record_frame_witness :
  exists hm',
    HistoryFile.Record_ noon "10.0.0.1:25565" 50 2 seeded_history = Some hm'
    /\ forall period,
         HistoryFile.GetPeriodStats hm' "R" period
         = HistoryFile.GetPeriodStats seeded_history "R" period.
Proof.
  destruct (HistoryFile_Record_frame noon "10.0.0.1:25565" 50 2 seeded_history)
    as (hm' & Hrec & _ & _ & Hother & _).
  - unfold valid_time. cbn. lia.
  - intros a h Hh. unfold seeded_history in Hh. cbn [HistoryFile.backends] in Hh.
    apply lookup_singleton_Some in Hh as [_ <-].
    rewrite length_insert. apply length_replicate.
  - exists hm'. split; [exact Hrec|]. intros period. apply Hother. discriminate.
Defined.

Lemma recordSamples_known now addr samples hm st :
  valid_time now -> HistoryFile.wf hm ->
  HistoryFile.GetCurrentPeriodStats hm now addr = Some st ->
  0 < HistoryFile.Samples st ->
  HistoryFile.Samples st + Z.of_nat (length samples) < 2 ^ 63 ->
  exists hm' st',
    recordSamples now addr samples hm = Some hm'
    /\ HistoryFile.GetCurrentPeriodStats hm' now addr = Some st'
    /\ HistoryFile.Samples st'
       = HistoryFile.Samples st + Z.of_nat (length samples)
    /\ HistoryFile.AvgLatency st'
       = fold_left ema (fst <$> samples) (HistoryFile.AvgLatency st)
    /\ HistoryFile.AvgJitter st'
       = fold_left ema (snd <$> samples) (HistoryFile.AvgJitter st).
Proof.
  intros Hnow. revert hm st.
  induction samples as [|[L J] rest IH]; intros hm st Hwf Hst Hpos Hlt.
  - exists hm, st. cbn. repeat split; try assumption. lia.
  - cbn [length] in Hlt. cbn [recordSamples].
    destruct (HistoryFile_Record_ema now addr L J hm Hnow Hwf)
      as (hm1 & st1 & Hrec & Hst1 & Hwf1 & Hupd).
    rewrite Hst in Hupd. destruct Hupd as (_ & Hema & _ & Hcount).
    destruct (Hema ltac:(lia)) as [HL HJ].
    assert (Hs1 : HistoryFile.Samples st1 = HistoryFile.Samples st + 1).
    { apply Hcount. unfold in_int64. change (2 ^ 63) with 9223372036854775808 in *.
      lia. }
    rewrite Hrec. cbn [mbind option_bind].
    destruct (IH hm1 st1 Hwf1 Hst1) as (hm' & st' & Hrun & Hst' & Hn & HL' & HJ');
      [lia|lia|].
    exists hm', st'. split; [exact Hrun|]. split; [exact Hst'|].
    split; [cbn [length]; lia|].
    cbn [fmap list_fmap fold_left fst snd]. unfold ema at 2 4.
    rewrite <- HL, <- HJ. split; assumption.
Qed.

(** X22. Warm-up of a new address: after [k] records within one period the
    slot holds [k] samples, its averages are the first sample folded with
    the later ones by the exponential moving average (weight 0.1 on the new
    sample), and as long as [k < 20] the historical score of that address
    is 0 whatever the current latency and jitter. *)
Theorem history_warm_up (now : Time) (addr : string) (latency jitter : float)
    (rest : list (float * float)) (hm : HistoryFile.HistoryManager) :
  valid_time now -> HistoryFile.wf hm ->
  HistoryFile.backends hm !! addr = None ->
  1 + Z.of_nat (length rest) < 2 ^ 63 ->
  exists hm' st,
    recordSamples now addr ((latency, jitter) :: rest) hm = Some hm'
    /\ HistoryFile.GetCurrentPeriodStats hm' now addr = Some st
    /\ HistoryFile.Samples st = 1 + Z.of_nat (length rest)
    /\ HistoryFile.AvgLatency st = fold_left ema (fst <$> rest) latency
    /\ HistoryFile.AvgJitter st = fold_left ema (snd <$> rest) jitter
    /\ (1 + Z.of_nat (length rest) < 20 ->
        forall cl cj, HistoryFile.HistoricalScore hm' now addr cl cj = 0).
Proof.
  intros Hnow Hwf Hnew Hlt. cbn [recordSamples].
  destruct (HistoryFile_Record_ema now addr latency jitter hm Hnow Hwf)
    as (hm1 & st1 & Hrec & Hst1 & Hwf1 & Hupd).
  rewrite (HistoryFile_current_stats hm) in Hupd by exact Hnow.
  rewrite Hnew in Hupd. destruct Hupd as (HL & HJ & Hs1).
  rewrite Hrec. cbn [mbind option_bind].
  destruct (recordSamples_known now addr rest hm1 st1 Hnow Hwf1 Hst1)
    as (hm' & st' & Hrun & Hst' & Hn & HL' & HJ'); [lia|lia|].
  exists hm', st'. split; [exact Hrun|]. split; [exact Hst'|].
  split; [lia|]. split; [congruence|]. split; [congruence|].
  intros Hfew cl cj. unfold HistoryFile.HistoricalScore. rewrite Hst'.
  unfold HistoryFile.minSamplesForUse.
  destruct (Z.ltb_spec (HistoryFile.Samples st') 20); [reflexivity|lia].
Qed.

Lemma history_warm_up_witness :
  exists hm' st,
    recordSamples noon "10.0.0.1:25565" [(50, 2); (60, 3); (40, 1)]%float
      empty_history = Some hm'
    /\ HistoryFile.GetCurrentPeriodStats hm' noon "10.0.0.1:25565" = Some st
    /\ HistoryFile.Samples st = 3
    /\ forall cl cj, HistoryFile.HistoricalScore hm' noon "10.0.0.1:25565" cl cj = 0.
Proof.
  destruct (history_warm_up noon "10.0.0.1:25565" 50 2 [(60, 3); (40, 1)]%float
              empty_history)
    as (hm' & st & Hrun & Hst & Hn & _ & _ & Hscore).
  - unfold valid_time. cbn. lia.
  - intros a h Hh. cbn in Hh. rewrite lookup_empty in Hh. discriminate.
  - apply lookup_empty.
  - cbn. lia.
  - exists hm', st. split; [exact Hrun|]. split; [exact Hst|].
    split; [exact Hn|]. apply Hscore. cbn. lia.
Defined.

(** ** The SQLite-backed store across a restart *)

Lemma freshHistory_lookup (i : nat) :
  (i < 96)%nat -> HistoryDB.freshHistory !! i = Some (HistoryLoad.freshSlot i).
Proof.
  intros Hi. unfold HistoryDB.freshHistory.
  rewrite list_lookup_fmap, lookup_seq_lt by lia. reflexivity.
Qed.

Lemma freshHistory_length : length HistoryDB.freshHistory = 96%nat.
Proof. reflexivity. Qed.

Lemma loadRow_in_range c a k s :
  0 <= k < 96 -> HistoryDB.PeriodIndex s = k ->
  HistoryLoad.loadRow c (HistoryLoad.toRow (a, k, s))
  = <[a := <[Z.to_nat k := s]>
             (match c !! a with
              | Some h => h
              | None => HistoryDB.freshHistory
              end)]> c.
Proof.
  intros Hk Hs. unfold HistoryLoad.loadRow, HistoryLoad.toRow.
  cbn [fst snd HistoryLoad.backend_addr HistoryLoad.period_index
       HistoryLoad.period_label HistoryLoad.avg_latency HistoryLoad.avg_jitter
       HistoryLoad.samples].
  destruct (Z.geb_spec k 0); [|lia]. destruct (Z.ltb_spec k 96); [|lia].
  cbn [andb]. destruct s as [L J n idx lbl]. cbn in Hs. subst idx.
  reflexivity.
Qed.

(** What the loading loop builds from rows with distinct keys. *)
Lemma fold_loadRow_spec (l : list (string * Z * HistoryDB.PeriodStats)) :
  NoDup (l.*1) ->
  (forall a k s, (a, k, s) ∈ l -> 0 <= k < 96 /\ HistoryDB.PeriodIndex s = k) ->
  let c := fold_left HistoryLoad.loadRow (HistoryLoad.toRow <$> l) ∅ in
  (forall addr, c !! addr = None -> forall i st, (addr, i, st) ∉ l)
  /\ (forall addr h, c !! addr = Some h ->
        (exists i st, (addr, i, st) ∈ l) /\ length h = 96%nat
        /\ forall i : nat, (i < 96)%nat ->
             (forall st, (addr, Z.of_nat i, st) ∈ l -> h !! i = Some st)
             /\ ((forall st, (addr, Z.of_nat i, st) ∉ l) ->
                 h !! i = Some (HistoryLoad.freshSlot i))).
Proof.
  induction l as [|[[a k] s] l IH] using rev_ind; intros Hnd Hkeys; cbv zeta.
  - split.
    + intros addr _ i st. apply not_elem_of_nil.
    + intros addr h Hh. cbn in Hh. rewrite lookup_empty in Hh. discriminate.
  - rewrite fmap_app in Hnd. apply NoDup_app in Hnd as (Hnd & Hdisj & _).
    assert (Hfresh : forall st, (a, k, st) ∉ l).
    { intros st Hin. apply (Hdisj (a, k)).
      - apply list_elem_of_fmap. exists (a, k, st). split; [reflexivity|exact Hin].
      - cbn. apply list_elem_of_singleton. reflexivity. }
    destruct (Hkeys a k s) as [Hk Hs].
    { apply elem_of_app. right. apply list_elem_of_singleton. reflexivity. }
    assert (Hkeys' : forall a0 k0 s0, (a0, k0, s0) ∈ l ->
                       0 <= k0 < 96 /\ HistoryDB.PeriodIndex s0 = k0).
    { intros a0 k0 s0 Hin. apply (Hkeys a0 k0 s0), elem_of_app. left. exact Hin. }
    specialize (IH Hnd Hkeys'). cbv zeta in IH. destruct IH as [IHnone IHsome].
    rewrite fmap_app, fold_left_app. cbn [fmap list_fmap fold_left].
    set (c := fold_left HistoryLoad.loadRow (HistoryLoad.toRow <$> l) ∅) in *.
    rewrite (loadRow_in_range c a k s Hk Hs).
    assert (Hlen : length (match c !! a with
                           | Some h => h
                           | None => HistoryDB.freshHistory
                           end) = 96%nat).
    { destruct (c !! a) as [h0|] eqn:Hc; [apply (IHsome a h0 Hc)|reflexivity]. }
    split.
    + intros addr Hnone i st Hin.
      apply lookup_insert_None in Hnone as [Hnone Hne].
      apply elem_of_app in Hin as [Hin|Hin].
      * exact (IHnone addr Hnone i st Hin).
      * apply list_elem_of_singleton in Hin. congruence.
    + intros addr h Hh. apply lookup_insert_Some in Hh as [[<- <-]|[Hne Hh]].
      * split; [exists k, s; apply elem_of_app; right;
                apply list_elem_of_singleton; reflexivity|].
        split; [rewrite length_insert; exact Hlen|].
        intros i Hi. destruct (decide (Z.of_nat i = k)) as [Heq|Hneq].
        -- assert (Hik : Z.to_nat k = i) by lia.
           rewrite Hik. rewrite list_lookup_insert_eq by lia. split.
           ++ intros st Hin. apply elem_of_app in Hin as [Hin|Hin].
              ** exfalso. rewrite Heq in Hin. exact (Hfresh st Hin).
              ** apply list_elem_of_singleton in Hin. congruence.
           ++ intros Hnot. exfalso. apply (Hnot s). rewrite Heq.
              apply elem_of_app. right. apply list_elem_of_singleton. reflexivity.
        -- rewrite list_lookup_insert_ne by lia.
           destruct (c !! a) as [h0|] eqn:Hc.
           ++ destruct (IHsome a h0 Hc) as (_ & _ & Hslots).
              destruct (Hslots i Hi) as [Hrow Hnorow]. split.
              ** intros st Hin. apply elem_of_app in Hin as [Hin|Hin].
                 --- apply Hrow, Hin.
                 --- apply list_elem_of_singleton in Hin. congruence.
              ** intros Hnot. apply Hnorow. intros st Hin.
                 apply (Hnot st), elem_of_app. left. exact Hin.
           ++ split.
              ** intros st Hin. apply elem_of_app in Hin as [Hin|Hin].
                 --- exfalso. exact (IHnone a Hc _ st Hin).
                 --- apply list_elem_of_singleton in Hin. congruence.
              ** intros _. apply freshHistory_lookup, Hi.
      * destruct (IHsome addr h Hh) as ((i0 & st0 & Hin0) & Hlenh & Hslots).
        split; [exists i0, st0; apply elem_of_app; left; exact Hin0|].
        split; [exact Hlenh|].
        intros i Hi. destruct (Hslots i Hi) as [Hrow Hnorow]. split.
        -- intros st Hin. apply elem_of_app in Hin as [Hin|Hin].
           ++ apply Hrow, Hin.
           ++ apply list_elem_of_singleton in Hin. congruence.
        -- intros Hnot. apply Hnorow. intros st Hin.
           apply (Hnot st), elem_of_app. left. exact Hin.
Qed.

(** Loading a table whose rows carry their key establishes coherence. *)
Lemma NewHistoryManager_coherent rows dbPath :
  (forall addr i st, rows !! (addr, i) = Some st ->
     0 <= i < 96 /\ HistoryDB.PeriodIndex st = i) ->
  HistoryLoad.coherent (HistoryLoad.NewHistoryManager (Some rows) dbPath).
Proof.
  intros Hkeys. unfold HistoryLoad.NewHistoryManager, HistoryLoad.loadFromDB.
  cbn [HistoryDB.db HistoryDB.cache HistoryDB.dbPath].
  unfold HistoryLoad.queryRows.
  destruct (fold_loadRow_spec (map_to_list rows)) as [Hnone Hsome].
  { apply NoDup_fst_map_to_list. }
  { intros a k s Hin. apply elem_of_map_to_list in Hin. exact (Hkeys a k s Hin). }
  exists rows. cbn [HistoryDB.db HistoryDB.cache].
  split; [reflexivity|]. split; [exact Hkeys|]. split.
  - intros addr Hc i. destruct (rows !! (addr, i)) as [st|] eqn:Hr; [|reflexivity].
    exfalso. apply (Hnone addr Hc i st). apply elem_of_map_to_list. exact Hr.
  - intros addr h Hc. destruct (Hsome addr h Hc) as ((i0 & st0 & Hin0) & Hlen & Hslots).
    split; [exists i0; apply elem_of_map_to_list in Hin0; rewrite Hin0; eexists; reflexivity|].
    split; [exact Hlen|].
    intros i Hi. destruct (Hslots i Hi) as [Hrow Hnorow].
    destruct (rows !! (addr, Z.of_nat i)) as [st|] eqn:Hr; cbn [default].
    + apply Hrow. apply elem_of_map_to_list. exact Hr.
    + apply Hnorow. intros st Hin. apply elem_of_map_to_list in Hin. congruence.
Qed.

(** A coherent cache is determined by the table. *)
Lemma coherent_cache_unique hm1 hm2 :
  HistoryLoad.coherent hm1 -> HistoryLoad.coherent hm2 ->
  HistoryDB.db hm1 = HistoryDB.db hm2 ->
  HistoryDB.cache hm1 = HistoryDB.cache hm2.
Proof.
  intros (rows & Hdb1 & _ & Hnone1 & Hsome1) (rows2 & Hdb2 & _ & Hnone2 & Hsome2) Hdb.
  assert (rows2 = rows) as -> by congruence.
  apply map_eq. intros addr.
  destruct (HistoryDB.cache hm1 !! addr) as [h1|] eqn:H1;
    destruct (HistoryDB.cache hm2 !! addr) as [h2|] eqn:H2.
  - f_equal. destruct (Hsome1 _ _ H1) as (_ & Hl1 & Hs1).
    destruct (Hsome2 _ _ H2) as (_ & Hl2 & Hs2).
    apply list_eq. intros i. destruct (Nat.lt_ge_cases i 96) as [Hi|Hi].
    + rewrite (Hs1 i Hi), (Hs2 i Hi). reflexivity.
    + rewrite !lookup_ge_None_2 by lia. reflexivity.
  - exfalso. destruct (Hsome1 _ _ H1) as ((i & st & Hr) & _).
    rewrite (Hnone2 addr H2 i) in Hr. discriminate.
  - exfalso. destruct (Hsome2 _ _ H2) as ((i & st & Hr) & _).
    rewrite (Hnone1 addr H1 i) in Hr. discriminate.
  - reflexivity.
Qed.

(** [Record], once its write has reached the table, keeps the cache and the
    table coherent. *)
Lemma Record_coherent now addr L J hm :
  valid_time now -> HistoryLoad.coherent hm ->
  exists hm',
    HistoryDB.Record_ now addr L J hm = Some hm'
    /\ HistoryLoad.coherent hm'
    /\ HistoryDB.dbPath hm' = HistoryDB.dbPath hm.
Proof.
  intros Hnow (rows & Hdb & Hkeys & Hnone & Hsome).
  pose proof (Record_period_range now Hnow) as Hp.
  fold (HistoryDB.getPeriodIndex now) in Hp.
  set (p := HistoryDB.getPeriodIndex now) in *.
  set (history := match HistoryDB.cache hm !! addr with
                  | Some history => history
                  | None => HistoryDB.freshHistory
                  end).
  assert (Hlen : length history = 96%nat).
  { unfold history. destruct (HistoryDB.cache hm !! addr) as [h|] eqn:Hc;
      [apply (Hsome addr h Hc)|reflexivity]. }
  assert (Hslots : forall i : nat, (i < 96)%nat ->
            history !! i
            = Some (default (HistoryLoad.freshSlot i) (rows !! (addr, Z.of_nat i)))).
  { intros i Hi. unfold history.
    destruct (HistoryDB.cache hm !! addr) as [h|] eqn:Hc.
    - apply (Hsome addr h Hc), Hi.
    - rewrite (Hnone addr Hc). apply freshHistory_lookup, Hi. }
  pose proof (Hslots (Z.to_nat p) ltac:(lia)) as Hold.
  set (old := default (HistoryLoad.freshSlot (Z.to_nat p))
                (rows !! (addr, Z.of_nat (Z.to_nat p)))) in *.
  assert (Hidx : HistoryDB.PeriodIndex old = p).
  { unfold old. rewrite Z2Nat.id by lia.
    destruct (rows !! (addr, p)) as [st|] eqn:Hr; cbn [default].
    - apply (Hkeys addr p st Hr).
    - cbn. lia. }
  unfold HistoryDB.Record_, HistoryDB.slot. fold p. fold history.
  destruct (Z.ltb_spec p 0); [lia|]. rewrite Hold. cbn [mbind option_bind].
  set (new := HistoryDB.mkPeriodStats _ _ _ _ _).
  assert (Hnew : HistoryDB.PeriodIndex new = p).
  { unfold new. cbn [HistoryDB.PeriodIndex].
    destruct (HistoryDB.Samples old =? 0); exact Hidx. }
  eexists. split; [reflexivity|]. split; [|reflexivity].
  exists (<[(addr, p) := new]> rows).
  cbn [HistoryDB.db HistoryDB.cache]. rewrite Hdb.
  unfold HistoryDB.savePeriodStats. rewrite Hnew.
  split; [reflexivity|]. split; [|split].
  - intros a i st Hr. apply lookup_insert_Some in Hr as [[[= <- <-] <-]|[_ Hr]].
    + split; [lia|exact Hnew].
    + exact (Hkeys a i st Hr).
  - intros a Hc i. apply lookup_insert_None in Hc as [Hc Hne].
    rewrite lookup_insert_ne by congruence. exact (Hnone a Hc i).
  - intros a h Hc. apply lookup_insert_Some in Hc as [[<- <-]|[Hne Hc]].
    + split; [exists p; rewrite lookup_insert_eq; eexists; reflexivity|].
      split; [rewrite length_insert; exact Hlen|].
      intros i Hi. destruct (decide (i = Z.to_nat p)) as [->|Hneq].
      * rewrite list_lookup_insert_eq by lia. rewrite Z2Nat.id by lia.
        rewrite lookup_insert_eq. reflexivity.
      * rewrite list_lookup_insert_ne by lia.
        rewrite lookup_insert_ne by (intros [= Hbad]; lia).
        apply Hslots, Hi.
    + destruct (Hsome a h Hc) as ((i0 & Hi0) & Hlenh & Hs).
      split; [exists i0; rewrite lookup_insert_ne by congruence; exact Hi0|].
      split; [exact Hlenh|].
      intros i Hi. rewrite lookup_insert_ne by congruence. apply Hs, Hi.
Qed.

Lemma recordEvents_coherent events hm :
  Forall (fun e => valid_time (fst (fst (fst e)))) events ->
  HistoryLoad.coherent hm ->
  exists hm',
    HistoryLoad.recordEvents events hm = Some hm'
    /\ HistoryLoad.coherent hm'
    /\ HistoryDB.dbPath hm' = HistoryDB.dbPath hm.
Proof.
  intros Hev. revert hm.
  induction Hev as [|[[[now addr] L] J] rest Hnow Hrest IH]; intros hm Hco.
  - exists hm. repeat split; [exact Hco].
  - cbn [HistoryLoad.recordEvents]. cbn [fst] in Hnow.
    destruct (Record_coherent now addr L J hm Hnow Hco) as (hm1 & Hrec & Hco1 & Hp1).
    rewrite Hrec. cbn [mbind option_bind].
    destruct (IH hm1 Hco1) as (hm' & Hrun & Hco' & Hp').
    exists hm'. split; [exact Hrun|]. split; [exact Hco'|congruence].
Qed.

(** X23. The SQLite-backed history survives a restart: starting from a
    manager loaded from a table whose rows carry their key, after any run
    of [Record] calls (their writes completed) a manager newly created over
    the resulting table has the cache of the running one, hence the same
    period statistics and historical scores. Without a database
    ([db == nil]) loading changes nothing. *)
Theorem history_survives_restart
    (rows : gmap (string * Z) HistoryDB.PeriodStats) (dbPath : string)
    (events : list (Time * string * float * float)) :
  (forall addr i st, rows !! (addr, i) = Some st ->
     0 <= i < 96 /\ HistoryDB.PeriodIndex st = i) ->
  Forall (fun e => valid_time (fst (fst (fst e)))) events ->
  exists hm',
    HistoryLoad.recordEvents events
      (HistoryLoad.NewHistoryManager (Some rows) dbPath) = Some hm'
    /\ HistoryLoad.NewHistoryManager (HistoryDB.db hm') dbPath = hm'
    /\ (forall addr period,
          HistoryDB.GetPeriodStats
            (HistoryLoad.NewHistoryManager (HistoryDB.db hm') dbPath) addr period
          = HistoryDB.GetPeriodStats hm' addr period)
    /\ (forall now addr cl cj,
          HistoryDB.HistoricalScore
            (HistoryLoad.NewHistoryManager (HistoryDB.db hm') dbPath) now addr cl cj
          = HistoryDB.HistoricalScore hm' now addr cl cj)
    /\ (forall hm, HistoryDB.db hm = None -> HistoryLoad.loadFromDB hm = hm).
Proof.
  intros Hkeys Hev.
  pose proof (NewHistoryManager_coherent rows dbPath Hkeys) as Hco0.
  destruct (recordEvents_coherent events _ Hev Hco0) as (hm' & Hrun & Hco & Hpath).
  exists hm'. split; [exact Hrun|].
  assert (Heq : HistoryLoad.NewHistoryManager (HistoryDB.db hm') dbPath = hm').
  { destruct Hco as (rows' & Hdb' & Hkeys' & Hrest).
    pose proof (NewHistoryManager_coherent rows' dbPath Hkeys') as Hco1.
    assert (Hco' : HistoryLoad.coherent hm') by (exists rows'; tauto).
    pose proof (coherent_cache_unique _ _ Hco1 Hco') as Hcache.
    rewrite Hdb'.
    assert (Hd : HistoryDB.db (HistoryLoad.NewHistoryManager (Some rows') dbPath)
                 = Some rows') by reflexivity.
    assert (Hp : HistoryDB.dbPath (HistoryLoad.NewHistoryManager (Some rows') dbPath)
                 = dbPath) by reflexivity.
    specialize (Hcache ltac:(congruence)).
    assert (Hp' : HistoryDB.dbPath hm' = dbPath).
    { rewrite Hpath. reflexivity. }
    destruct (HistoryLoad.NewHistoryManager (Some rows') dbPath) as [d1 p1 c1].
    destruct hm' as [d2 p2 c2]. cbn in *. congruence. }
  split; [exact Heq|]. rewrite Heq.
  split; [reflexivity|]. split; [reflexivity|].
  intros hm Hnil. unfold HistoryLoad.loadFromDB. rewrite Hnil. reflexivity.
Qed.

Lemma history_survives_restart_witness :
  exists hm',
    HistoryLoad.recordEvents
      [(noon, "10.0.0.1:25565", 50, 2); (noon, "10.0.0.2:25565", 70, 3);
       (noon, "10.0.0.1:25565", 60, 4)]%float
      (HistoryLoad.NewHistoryManager (Some ∅) "lb_history.db") = Some hm'
    /\ HistoryLoad.NewHistoryManager (HistoryDB.db hm') "lb_history.db" = hm'.
Proof.
  destruct (history_survives_restart ∅ "lb_history.db"
              [(noon, "10.0.0.1:25565", 50, 2); (noon, "10.0.0.2:25565", 70, 3);
               (noon, "10.0.0.1:25565", 60, 4)]%float)
    as (hm' & Hrun & Heq & _).
  - intros addr i st Hr. rewrite lookup_empty in Hr. discriminate.
  - repeat (constructor; [unfold valid_time; cbn; lia|]). constructor.
  - exists hm'. split; assumption.
Defined.

(** ** How long a probe can take *)

Lemma within_deadline_refl (n : Net) :
  clock n <= deadline n -> within_deadline n n.
Proof. intros H. unfold within_deadline. lia. Qed.

Lemma within_deadline_trans (n1 n2 n3 : Net) :
  within_deadline n1 n2 -> within_deadline n2 n3 -> within_deadline n1 n3.
Proof.
  unfold within_deadline. intros (Hd1 & Hc1 & Ht1) (Hd2 & Hc2 & Ht2).
  rewrite Hd1 in *. split; [congruence|]. split; [congruence|]. lia.
Qed.

Lemma within_deadline_step (n1 n2 n3 : Net) :
  0 <= ioCost n1 -> within_deadline n1 n2 ->
  (0 <= ioCost n2 -> clock n2 <= deadline n2 -> within_deadline n2 n3) ->
  within_deadline n1 n3.
Proof.
  intros Hcost H12 H23. apply (within_deadline_trans _ _ _ H12).
  destruct H12 as (Hd & Hc & Ht). apply H23; lia.
Qed.

Lemma connWrite_within (data : list Z) (n n' : Net) (r : option error) :
  0 <= ioCost n -> clock n <= deadline n ->
  connWrite data n = (n', r) -> within_deadline n n'.
Proof.
  intros Hcost Hdl. unfold connWrite, within_deadline.
  destruct (writeBudget n).
  - intros [= <- _]. cbn. lia.
  - destruct (Z.leb_spec (clock n + ioCost n) (deadline n)); intros [= <- _];
      cbn; lia.
Qed.

Lemma connRead_within (n n' : Net) (r : error + Z) :
  0 <= ioCost n -> clock n <= deadline n ->
  Read1 n = (n', r) -> within_deadline n n'.
Proof.
  intros Hcost Hdl. unfold Read1, connReader, within_deadline.
  destruct (inbound n).
  - intros [= <- _]. cbn. lia.
  - destruct (Z.leb_spec (clock n + ioCost n) (deadline n)); intros [= <- _];
      cbn; lia.
Qed.

Lemma readVarIntLoop_within (fuel : nat) (n n' : Net) (result shift : Z)
    (r : error + Z) :
  0 <= ioCost n -> clock n <= deadline n ->
  readVarIntLoop fuel n result shift = (n', r) -> within_deadline n n'.
Proof.
  revert n result shift. induction fuel as [|fuel IH];
    intros n result shift Hcost Hdl; cbn [readVarIntLoop].
  - intros [= <- _]. apply within_deadline_refl, Hdl.
  - destruct (Read1 n) as [n1 [e|b]] eqn:Hread;
      pose proof (connRead_within _ _ _ Hcost Hdl Hread) as H1.
    + intros [= <- _]. exact H1.
    + destruct (Z.land b 128 =? 0); [intros [= <- _]; exact H1|].
      destruct (shift + 7 >=? 32); [intros [= <- _]; exact H1|].
      intros Hrest. apply (within_deadline_step _ _ _ Hcost H1).
      intros Hc1 Hd1. exact (IH n1 _ _ Hc1 Hd1 Hrest).
Qed.

Lemma ReadFull_within (k : nat) (n n' : Net) (r : error + list Z) :
  0 <= ioCost n -> clock n <= deadline n ->
  ReadFull k n = (n', r) -> within_deadline n n'.
Proof.
  revert n r. induction k as [|k IH]; intros n r Hcost Hdl; cbn [ReadFull].
  - intros [= <- _]. apply within_deadline_refl, Hdl.
  - destruct (Read1 n) as [n1 [e|b]] eqn:Hread;
      pose proof (connRead_within _ _ _ Hcost Hdl Hread) as H1.
    + intros [= <- _]. exact H1.
    + destruct (ReadFull k n1) as [n2 [e|data]] eqn:Hrest;
        intros [= <- _]; apply (within_deadline_step _ _ _ Hcost H1);
        intros Hc1 Hd1; exact (IH n1 _ Hc1 Hd1 Hrest).
Qed.

Lemma readPacket_within (n n' : Net) (r : error + Z * list Z) :
  0 <= ioCost n -> clock n <= deadline n ->
  readPacket n = (n', r) -> within_deadline n n'.
Proof.
  intros Hcost Hdl. unfold readPacket, readVarInt.
  destruct (readVarIntLoop 5 n 0 0) as [n1 [e|len]] eqn:Hlen;
    pose proof (readVarIntLoop_within _ _ _ _ _ _ Hcost Hdl Hlen) as H1.
  - intros [= <- _]. exact H1.
  - destruct ((len <=? 0) || (len >? 1024 * 1024)); [intros [= <- _]; exact H1|].
    destruct (ReadFull (Z.to_nat len) n1) as [n2 [e|data]] eqn:Hbody;
      intros [= <- _]; apply (within_deadline_step _ _ _ Hcost H1);
      intros Hc1 Hd1; exact (ReadFull_within _ _ _ _ Hc1 Hd1 Hbody).
Qed.

Lemma writePacket_within (data : list Z) (n n' : Net) (r : option error) :
  0 <= ioCost n -> clock n <= deadline n ->
  writePacket data n = Some (n', r) -> within_deadline n n'.
Proof.
  intros Hcost Hdl. unfold writePacket.
  destruct (writeVarInt _) as [lenBuf|]; [|discriminate].
  cbn [mbind option_bind].
  destruct (connWrite lenBuf n) as [n1 [e|]] eqn:Hw1;
    pose proof (connWrite_within _ _ _ _ Hcost Hdl Hw1) as H1.
  - intros [= <- _]. exact H1.
  - destruct (connWrite data n1) as [n2 [e|]] eqn:Hw2;
      intros [= <- _]; apply (within_deadline_step _ _ _ Hcost H1);
      intros Hc1 Hd1; exact (connWrite_within _ _ _ _ Hc1 Hd1 Hw2).
Qed.

Lemma MCPingConn_within SplitHostPort Sscanf_d conn addr timeout conn' r :
  0 <= timeout -> 0 <= ioCost conn ->
  MCPingConn SplitHostPort Sscanf_d conn addr timeout = Some (conn', r) ->
  within_deadline (SetDeadline (clock conn + timeout) conn) conn'.
Proof.
  intros Htime Hcost. unfold MCPingConn, time_Now.
  set (c0 := SetDeadline (clock conn + timeout) conn).
  assert (Hc0 : 0 <= ioCost c0) by exact Hcost.
  assert (Hd0 : clock c0 <= deadline c0) by (cbn; lia).
  destruct (SplitHostPort addr) as [host portStr].
  destruct (writeVarInt 0) as [id0|]; [|discriminate].
  destruct (writeVarInt 767) as [version|]; [|discriminate].
  cbn [mbind option_bind].
  destruct (writeString host) as [hostBytes|]; [|discriminate].
  destruct (writeVarInt 1) as [next|]; [|discriminate].
  cbn [mbind option_bind].
  destruct (writePacket _ c0) as [[c1 [e|]]|] eqn:Hw1; [| |discriminate];
    cbn [mbind option_bind];
    pose proof (writePacket_within _ _ _ _ Hc0 Hd0 Hw1) as H1.
  - intros [= <- _]. exact H1.
  - destruct (writePacket id0 c1) as [[c2 [e|]]|] eqn:Hw2; [| |discriminate];
      cbn [mbind option_bind];
      assert (H2 : within_deadline c0 c2)
        by (apply (within_deadline_step _ _ _ Hc0 H1); intros Hc1 Hd1;
            exact (writePacket_within _ _ _ _ Hc1 Hd1 Hw2)).
    + intros [= <- _]. exact H2.
    + destruct (readPacket c2) as [c3 r3] eqn:Hr3.
      assert (H3 : within_deadline c0 c3).
      { apply (within_deadline_step _ _ _ Hc0 H2). intros Hc2 Hd2.
        exact (readPacket_within _ _ _ Hc2 Hd2 Hr3). }
      destruct r3 as [e|[len packetData]]; [intros [= <- _]; exact H3|].
      destruct (readVarInt packetData) as [reader [e|packetID]];
        [intros [= <- _]; exact H3|].
      destruct (negb (packetID =? 0)); [intros [= <- _]; exact H3|].
      destruct (readVarInt reader) as [reader' [e|jsonLen]];
        [intros [= <- _]; exact H3|].
      destruct (jsonLen <=? 0); intros [= <- _]; exact H3.
Qed.

(** X24. A probe is bounded in time, but by twice the timeout rather than
    by the timeout: [MCPing] dials under a context that expires after
    [timeout], and [MCPingConn] then sets the deadline of the connection
    anew, to [timeout] after the end of the dial. So the probe returns
    within [2 * timeout] of its start: within [timeout] when the dial
    fails, and within [timeout] of the end of the dial otherwise. *)
Theorem MCPing_duration_bound (SplitHostPort : string -> string * string)
    (Sscanf_d : string -> option Z) (b : Backend) (timeout : Duration)
    (n n' : Net) (latency : Duration) (err : option error) :
  0 <= timeout -> 0 <= dialTime n -> 0 <= ioCost n ->
  MCPing SplitHostPort Sscanf_d b timeout n = Some (n', (latency, err)) ->
  clock n <= clock n' <= clock n + 2 * timeout
  /\ (snd (DialContext (clock n + timeout) n) <> None ->
      clock n' <= clock n + timeout)
  /\ (snd (DialContext (clock n + timeout) n) = None ->
      clock n + dialTime n <= clock n' <= clock n + dialTime n + timeout).
Proof.
  intros Htime Hdial Hcost. unfold MCPing, time_Now, DialContext.
  destruct (dialOK n && (clock n + dialTime n <=? clock n + timeout)) eqn:Hok.
  - apply andb_true_iff in Hok as [_ Hfast]. apply Z.leb_le in Hfast.
    destruct (MCPingConn _ _ _ _ _) as [[n2 r]|] eqn:Hconn;
      cbn [mbind option_bind]; [|discriminate].
    apply MCPingConn_within in Hconn; [|exact Htime|exact Hcost].
    destruct Hconn as (_ & _ & Hclock). cbn in Hclock.
    assert (Hn2 : clock n + dialTime n <= clock n2 <= clock n + dialTime n + timeout)
      by lia.
    cbn [snd].
    destruct r as [e|]; intros [= <- _ _];
      (split; [lia|]; split; [intros Hbad; congruence|intros _; exact Hn2]).
  - intros [= <- _ _]. cbn [clock set_clock snd].
    split; [lia|]. split; [intros _; lia|discriminate].
Qed.

Lemma MCPing_duration_bound_witness :
  let n := mkNet 1700000000000000000 (3 * Second) true 0 [] []
             (5 * Millisecond) 10 in
  exists n' r,
    MCPing exampleSplitHostPort exampleSscanf_d example_backend (3 * Second) n
    = Some (n', r)
    /\ clock n' = clock n + 2 * (3 * Second)
    /\ clock n' <= clock n + 2 * (3 * Second).
Proof.
  intros n.
  destruct (MCPing exampleSplitHostPort exampleSscanf_d example_backend
              (3 * Second) n) as [[n' [latency err]]|] eqn:Hping;
    [|vm_compute in Hping; discriminate].
  exists n', (latency, err). split; [reflexivity|].
  destruct (MCPing_duration_bound exampleSplitHostPort exampleSscanf_d
              example_backend (3 * Second) n n' latency err) as ([_ Hle] & _).
  - vm_compute. discriminate.
  - vm_compute. discriminate.
  - vm_compute. discriminate.
  - exact Hping.
  - split; [|exact Hle].
    vm_compute in Hping. injection Hping as <- _ _. reflexivity.
Defined.

(** ** Registration of a pool *)

(** X25. [registerServer] builds one backend per configured entry, in order,
    each with an empty window, no connection, full trust and the healthy
    flag set; with connection limits below [2^31] every backend of the new
    pool is available. A negative window size makes the registration of a
    non-empty pool panic, and a limit that is positive but not positive as
    an [int32] leaves the backend unavailable from the start. *)
Theorem registered_pool_starts_available (cfg : HealthCheckConfig)
    (bcfgs : list (string * Z)) :
  (WindowSize cfg < 0 -> bcfgs <> [] -> buildBackends cfg bcfgs = None)
  /\ (0 <= WindowSize cfg ->
      exists bs,
        buildBackends cfg bcfgs = Some bs
        /\ bs = (fun c => mkBackend (fst c) (snd c) 0 0 0 true false []
                            (WindowSize cfg) 0 ∅ 100) <$> bcfgs
        /\ (Forall (fun c => snd c < 2 ^ 31) bcfgs -> filterAvailable bs = bs)
        /\ (forall b, b ∈ bs -> 0 < MaxConnections b ->
              int32 (MaxConnections b) <= 0 -> IsAvailable b = false)).
Proof.
  split.
  - intros Hneg Hne. destruct bcfgs as [|[addr maxConns] rest]; [congruence|].
    cbn [buildBackends]. unfold NewBackend.
    destruct (Z.ltb_spec (WindowSize cfg) 0); [reflexivity|lia].
  - intros Hws.
    assert (Hbuild : buildBackends cfg bcfgs
                     = Some ((fun c => mkBackend (fst c) (snd c) 0 0 0 true false []
                                         (WindowSize cfg) 0 ∅ 100) <$> bcfgs)).
    { induction bcfgs as [|[addr maxConns] rest IH]; [reflexivity|].
      cbn [buildBackends]. unfold NewBackend.
      destruct (Z.ltb_spec (WindowSize cfg) 0); [lia|].
      cbn [mbind option_bind]. rewrite IH. reflexivity. }
    eexists. split; [exact Hbuild|]. split; [reflexivity|]. split.
    + intros Hall. clear Hbuild. induction Hall as [|[addr maxConns] rest Hc Hrest IH];
        [reflexivity|].
      rewrite fmap_cons. unfold filterAvailable in *. cbn [List.filter].
      cbn [fst snd] in *.
      replace (IsAvailable _) with true; [rewrite IH; reflexivity|].
      unfold IsAvailable. cbn [disabled healthy negb MaxConnections currentConns].
      destruct (Z.gtb_spec maxConns 0) as [Hpos|]; [|reflexivity].
      cbn [andb]. rewrite int32_id
        by (unfold in_int32; change (2 ^ 31) with 2147483648 in *; lia).
      destruct (Z.geb_spec 0 maxConns); [lia|reflexivity].
    + intros b Hb Hpos Hwrap. apply list_elem_of_fmap in Hb as ([addr maxConns] & -> & _).
      cbn [fst snd MaxConnections] in *.
      unfold IsAvailable. cbn [disabled healthy negb MaxConnections currentConns].
      destruct (Z.gtb_spec maxConns 0); [|lia]. cbn [andb].
      destruct (Z.geb_spec 0 (int32 maxConns)); [reflexivity|lia].
Qed.
